(** * Meal ledger engine of the attendance book (App.tsx)

    A shallow embedding of the ledger model, the edit handlers, the
    totals calculator, the month rollover and the spreadsheet export of
    the first [App] component, followed by the properties of its
    specification.

    Conventions of the embedding:
    - a JavaScript number that holds a day, a month, a year, a quota or a
      count is an integer of [Z]. The source computes on doubles: its
      sums and differences are those of [Z] as long as the operands and
      the result are safe integers, and the statements that depend on
      the arithmetic of a year or of a quota say so ([safeInteger],
      [safeQuota]);
    - [MealData], an object keyed by day number, is a [gmap Z Meal.t];
      [undefined] for a missing day is [None];
    - every handler calls [setStudents (prev => ...)]; the handler is
      embedded as a function on the whole component state, the updater as
      a function on the roster;
    - [confirm (...)] is an input of the handler: the answer the user gave;
    - [JSON.parse (JSON.stringify x)] on a value made of booleans, numbers
      and strings is a deep copy, the identity on immutable values. *)

From stdpp Require Import gmap strings list fin_maps pretty sorting.

Local Open Scope Z_scope.

(** ** Numbers *)

(** [Number.MAX_SAFE_INTEGER] and [Number.isSafeInteger]: between these
    bounds every integer is a double, and [y + 1] and [y - 1] are exact. *)
Definition MAX_SAFE_INTEGER : Z := 2 ^ 53 - 1.

Definition safeInteger (z : Z) : Prop := - MAX_SAFE_INTEGER ≤ z ≤ MAX_SAFE_INTEGER.

(** ** Types *)

(** [type MealType = 'S' | 'T1' | 'T2'] *)
Module MealType.
Inductive t := S | T1 | T2.

#[global] Instance eq_dec : EqDecision t.
Proof. solve_decision. Defined.

Definition all : list t := [S; T1; T2].
End MealType.

(** The value of one day in [MealData]: [{ S: boolean; T1: boolean; T2: boolean }]. *)
Module Meal.
Record t := mk { S : bool; T1 : bool; T2 : bool }.

#[global] Instance eq_dec : EqDecision t.
Proof. solve_decision. Defined.

(** The literal [{ S: false, T1: false, T2: false }]. *)
Definition none : t := mk false false false.

(** [dayMeals[meal]] *)
Definition get (meal : MealType.t) (dm : t) : bool :=
  match meal with
  | MealType.S => S dm
  | MealType.T1 => T1 dm
  | MealType.T2 => T2 dm
  end.

(** [{ ...dayMeals, [meal]: v }] *)
Definition set (meal : MealType.t) (v : bool) (dm : t) : t :=
  match meal with
  | MealType.S => mk v (T1 dm) (T2 dm)
  | MealType.T1 => mk (S dm) v (T2 dm)
  | MealType.T2 => mk (S dm) (T1 dm) v
  end.
End Meal.

(** [interface MealData { [date: number]: {...} }] *)
Abbreviation MealData := (gmap Z Meal.t).

(** [interface Student { id: string; name: string; meals: MealData }] *)
Record Student := mkStudent { id : string; name : string; meals : MealData }.

(** The quota object [{ S, T1, T2 }] held in [standardMeals]. *)
Module Quota.
Record t := mk { S : Z; T1 : Z; T2 : Z }.
End Quota.

(** The quotas from which the source subtracts a count exactly: a count
    is at most the number of day entries of one student, far below 2^52,
    so the difference is a safe integer. The quota input sets no bound
    of its own. *)
Definition safeQuota (q : Quota.t) : Prop :=
  Z.abs (Quota.S q) ≤ 2 ^ 52 ∧ Z.abs (Quota.T1 q) ≤ 2 ^ 52 ∧ Z.abs (Quota.T2 q) ≤ 2 ^ 52.

(** The object returned by [calculateStudentTotals]. *)
Module Totals.
Record t := mk { S : Z; T1 : Z; T2 : Z; uS : Z; uT1 : Z; uT2 : Z }.
End Totals.

(** ** Constants *)

Definition DAYS_OF_WEEK : list string := ["CN"; "2"; "3"; "4"; "5"; "6"; "7"]%string.

Definition INITIAL_STUDENTS : list Student := [].

Definition DEFAULT_SCHOOL : string := "TRƯỜNG PTDTBT TH&THCS SUỐI LỪ".
Definition DEFAULT_CLASS : string := "8C1".
Definition DEFAULT_TEACHER : string := "Vũ Văn Hùng".
Definition DEFAULT_LOCATION : string := "Suối Lừ".
Definition DEFAULT_QUOTA : Quota.t := Quota.mk 14 14 12.

(** ** The built-in [Date], as far as the helpers use it

    [new Date (year, month, day)] followed by [getDay ()] or [getDate ()]
    reads back, in local time, the calendar day that was built in local
    time, so the time zone cancels and only the day number of the
    proleptic Gregorian calendar matters. The definitions follow the
    abstract operations of the language standard, on day numbers.

    A [Date] of the source is valid up to 100 000 000 days on either side
    of 1 January 1970 (from April of the year -271821 to September of the
    year 275760); beyond, it is invalid and [getDate ()] and [getDay ()]
    are NaN, which the day numbers below do not represent. The model is
    the [Date] of the source for the years of [inRange], and the
    statements on the values of the two helpers are made for these
    years. *)
Module Date.
(** The years all of whose days, and the days of the weeks around them,
    are valid dates in every time zone. *)
Definition inRange (year : Z) : Prop := -271820 ≤ year ≤ 275759.

(** DayFromYear (y): the day number of 1 January of year [y]. *)
Definition DayFromYear (y : Z) : Z :=
  365 * (y - 1970) + (y - 1969) / 4 - (y - 1901) / 100 + (y - 1601) / 400.

Definition InLeapYear (y : Z) : bool :=
  (y mod 4 =? 0) && (negb (y mod 100 =? 0) || (y mod 400 =? 0)).

Definition monthLengths (y : Z) : list Z :=
  [31; if InLeapYear y then 29 else 28; 31; 30; 31; 30; 31; 31; 30; 31; 30; 31].

Definition sumZ (l : list Z) : Z := foldr Z.add 0 l.

(** MakeDay (year, month, date): months outside 0..11 carry into the
    year, dates outside the month carry into the neighbouring months. *)
Definition MakeDay (year month date : Z) : Z :=
  let ym := year + month / 12 in
  let mn := month mod 12 in
  DayFromYear ym + sumZ (take (Z.to_nat mn) (monthLengths ym)) + date - 1.

(** The constructor maps the years 0..99 to 1900..1999. *)
Definition fullYear (year : Z) : Z :=
  if (0 <=? year) && (year <=? 99) then 1900 + year else year.

(** [new Date (year, month, day)] as a day number. *)
Definition make (year month day : Z) : Z := MakeDay (fullYear year) month day.

(** WeekDay: 0 is Sunday, 6 is Saturday; day 0 was a Thursday. *)
Definition getDay (d : Z) : Z := (d + 4) mod 7.

(** YearFromTime: the largest year whose first day is not after [d]. *)
Definition YearFromDay (d : Z) : Z :=
  let y := 1970 + d * 400 / 146097 in
  if DayFromYear (y + 1) <=? d then y + 1
  else if DayFromYear y <=? d then y
  else y - 1.

(** DateFromTime: walk the months of the year of [d]. *)
Fixpoint dateWithin (k : Z) (months : list Z) : Z :=
  match months with
  | [] => k + 1
  | len :: rest => if k <? len then k + 1 else dateWithin (k - len) rest
  end.

Definition getDate (d : Z) : Z :=
  let y := YearFromDay d in
  dateWithin (d - DayFromYear y) (monthLengths y).
End Date.

(** ** Helper functions *)

(** [new Date (year, month + 1, 0).getDate ()], of a valid date. *)
Definition getDaysInMonth (month year : Z) : Z :=
  Date.getDate (Date.make year (month + 1) 0).

(** [DAYS_OF_WEEK[date.getDay ()]], of a valid date; [None] stands for
    [undefined]. *)
Definition getDayOfWeek (day month year : Z) : option string :=
  DAYS_OF_WEEK !! Z.to_nat (Date.getDay (Date.make year month day)).

(** ** State of the component

    The [useState] cells and the [isDirty] ref that the ledger engine
    reads or writes. The ref is written by the handlers and, after a
    commit, by the effect [markDirty]. *)
Record AppState := mkApp {
  user : option string;             (* [user?.id] *)
  loading : bool;
  schoolName : string;
  className : string;
  month : Z;                        (* 0-indexed *)
  year : Z;
  students : list Student;
  location : string;
  teacherName : string;
  standardMeals : Quota.t;
  clipboard : option MealData;
  columnClipboard : option (list bool);
  isDirty : bool
}.

Definition setStudents (f : list Student → list Student) (st : AppState) : AppState :=
  mkApp (user st) (loading st) (schoolName st) (className st) (month st) (year st)
        (f (students st)) (location st) (teacherName st) (standardMeals st)
        (clipboard st) (columnClipboard st) (isDirty st).

Definition setClipboard (c : option MealData) (st : AppState) : AppState :=
  mkApp (user st) (loading st) (schoolName st) (className st) (month st) (year st)
        (students st) (location st) (teacherName st) (standardMeals st)
        c (columnClipboard st) (isDirty st).

Definition setColumnClipboard (c : option (list bool)) (st : AppState) : AppState :=
  mkApp (user st) (loading st) (schoolName st) (className st) (month st) (year st)
        (students st) (location st) (teacherName st) (standardMeals st)
        (clipboard st) c (isDirty st).

(** [daysInMonth = useMemo (() => getDaysInMonth (month, year))] *)
Definition daysInMonth (st : AppState) : Z := getDaysInMonth (month st) (year st).

(** The month on screen is one of the twelve months of a year of valid
    dates. The handlers keep the month between 0 and 11; the year input
    sets no bound. *)
Definition calendarInRange (st : AppState) : Prop :=
  0 ≤ month st ≤ 11 ∧ Date.inRange (year st).

(** [{ ...s, meals: m }] and [{ ...s, name: n }] *)
Definition withMeals (m : MealData) (s : Student) : Student := mkStudent (id s) (name s) m.
Definition withName (n : string) (s : Student) : Student := mkStudent (id s) n (meals s).

(** [s.meals[day] || { S: false, T1: false, T2: false }] *)
Definition currentMeals (s : Student) (day : Z) : Meal.t := default Meal.none (meals s !! day).

(** [s.meals[day]?.[meal]], read as a truth value. *)
Definition mark (s : Student) (day : Z) (meal : MealType.t) : bool :=
  match meals s !! day with
  | Some dm => Meal.get meal dm
  | None => false
  end.

(** [{ ...s, meals: { ...s.meals, [day]: { ...currentMeals, [meal]: v } } }] *)
Definition setMark (day : Z) (meal : MealType.t) (v : bool) (s : Student) : Student :=
  withMeals (<[day := Meal.set meal v (currentMeals s day)]> (meals s)) s.

(** ** Handlers: cells, rows, columns *)

Definition toggleMeal (studentId : string) (day : Z) (meal : MealType.t)
    (st : AppState) : AppState :=
  setStudents (map (λ s,
    if decide (id s ≠ studentId) then s
    else setMark day meal (negb (Meal.get meal (currentMeals s day))) s)) st.

Definition copyMeals (student : Student) (st : AppState) : AppState :=
  setClipboard (Some (meals student)) st.

Definition pasteMeals (studentId : string) (st : AppState) : AppState :=
  match clipboard st with
  | None => st
  | Some c =>
      setStudents (map (λ s, if decide (id s = studentId) then withMeals c s else s)) st
  end.

Definition pasteToAll (confirmed : bool) (st : AppState) : AppState :=
  match clipboard st with
  | None => st
  | Some c => if confirmed then setStudents (map (withMeals c)) st else st
  end.

Definition copyColumn (day : Z) (meal : MealType.t) (st : AppState) : AppState :=
  setColumnClipboard (Some (map (λ s, mark s day meal) (students st))) st.

Definition pasteColumn (day : Z) (meal : MealType.t) (st : AppState) : AppState :=
  match columnClipboard st with
  | None => st
  | Some values =>
      setStudents (imap (λ idx s, setMark day meal (default false (values !! idx)) s)) st
  end.

Definition fillColumn (day : Z) (meal : MealType.t) (st : AppState) : AppState :=
  setStudents (map (setMark day meal true)) st.

Definition clearColumn (day : Z) (meal : MealType.t) (st : AppState) : AppState :=
  setStudents (map (setMark day meal false)) st.

Definition clearDay (confirmed : bool) (day : Z) (st : AppState) : AppState :=
  if confirmed then setStudents (map (λ s, withMeals (delete day (meals s)) s)) st
  else st.

Definition clearMonth (confirmed : bool) (st : AppState) : AppState :=
  if confirmed then setStudents (map (withMeals ∅)) st else st.

Definition clearAllStudents (confirmed : bool) (st : AppState) : AppState :=
  if confirmed then setStudents (λ _, []) st else st.

Definition updateStudentName (sid : string) (newName : string) (st : AppState) : AppState :=
  setStudents (map (λ s, if decide (id s = sid) then withName newName s else s)) st.

(** [generateId ()] draws from [Math.random]; the drawn id is an input. *)
Definition addStudent (freshId : string) (st : AppState) : AppState :=
  setStudents (λ prev, prev ++ [mkStudent freshId "Học sinh mới" ∅]) st.

Definition removeStudent (confirmed : bool) (sid : string) (st : AppState) : AppState :=
  if confirmed then setStudents (filter (λ s, id s ≠ sid)) st else st.

(** ** Weekday-based automatic fill *)

(** The body of the [for] loop of [autoFillMeals] for one [day]. *)
Definition autoFillDay (month year : Z) (newMeals : MealData) (day : Z) : MealData :=
  let dow := getDayOfWeek day month year in
  if decide (dow = Some "7"%string ∨ dow = Some "CN"%string) then newMeals
  else
    let currentMeals := default Meal.none (newMeals !! day) in
    if decide (dow = Some "6"%string) then
      <[day := Meal.set MealType.T2 false
                 (Meal.set MealType.T1 true (Meal.set MealType.S true currentMeals))]> newMeals
    else
      <[day := Meal.set MealType.T2 true
                 (Meal.set MealType.T1 true (Meal.set MealType.S true currentMeals))]> newMeals.

(** [for (let day = 1; day <= daysInMonth; day++)] *)
Definition autoFillStudent (month year dim : Z) (s : Student) : Student :=
  withMeals (foldl (autoFillDay month year) (meals s) (seqZ 1 dim)) s.

Definition autoFillMeals (confirmed : bool) (st : AppState) : AppState :=
  if confirmed then
    setStudents (map (autoFillStudent (month st) (year st) (daysInMonth st))) st
  else st.

(** ** The record store

    One row of the table [monthly_sheets]; the text and jsonb columns are
    nullable, [None] is SQL NULL. *)
Module Sheet.
Record t := mk {
  user_id : string;
  month : Z;
  year : Z;
  class_name : option string;
  teacher_name : option string;
  school_name : option string;
  location : option string;
  students : option (list Student);
  standard_meals : option Quota.t
}.
End Sheet.

(** [.eq ('user_id', uid).eq ('month', m).eq ('year', y).single ()]:
    the row when exactly one matches, no data otherwise. *)
Definition selectSheet (db : list Sheet.t) (uid : string) (m y : Z) : option Sheet.t :=
  match filter (λ r, Sheet.user_id r = uid ∧ Sheet.month r = m ∧ Sheet.year r = y) db with
  | [r] => Some r
  | _ => None
  end.

(** [year.lt.y, and (year.eq.y, month.lt.m)] *)
Definition strictlyBefore (m y : Z) (r : Sheet.t) : Prop :=
  Sheet.year r < y ∨ (Sheet.year r = y ∧ Sheet.month r < m).

#[global] Instance strictlyBefore_dec m y r : Decision (strictlyBefore m y r).
Proof. unfold strictlyBefore. apply _. Defined.

(** [order ('year', desc).order ('month', desc)]: [a] sorts before [b]. *)
Definition laterThan (a b : Sheet.t) : bool :=
  (Sheet.year b <? Sheet.year a)
  || ((Sheet.year b =? Sheet.year a) && (Sheet.month b <? Sheet.month a)).

(** [.limit (1).maybeSingle ()] on the ordered rows: the first row of the
    descending order, if any. *)
Definition firstDescending (rows : list Sheet.t) : option Sheet.t :=
  foldl (λ best r,
           match best with
           | None => Some r
           | Some b => if laterThan r b then Some r else Some b
           end) None rows.

Definition selectLatestBefore (db : list Sheet.t) (uid : string) (m y : Z) : option Sheet.t :=
  firstDescending (filter (λ r, Sheet.user_id r = uid ∧ strictlyBefore m y r) db).

(** [text || fallback]: NULL and the empty string are falsy. *)
Definition orText (text : option string) (fallback : string) : string :=
  match text with
  | None => fallback
  | Some EmptyString => fallback
  | Some t => t
  end.

(** [value || fallback] on an object or array: only NULL is falsy. *)
Definition orValue {A} (value : option A) (fallback : A) : A := default fallback value.

(** ** Fetching a month, with rollover *)

(** The body of [fetchData] after its reads: [data] is what the read of
    the month delivered and [latestData] what the read of the most recent
    earlier month delivered. Either is null when no row matches and also
    when the read failed. [isDirty] is the value that [fetchData] itself
    leaves in the ref. *)
Definition fetchDataFrom (data latestData : option Sheet.t) (st : AppState) : AppState :=
  match data with
  | Some data =>
      mkApp (user st) false
            (orText (Sheet.school_name data) DEFAULT_SCHOOL)
            (orText (Sheet.class_name data) DEFAULT_CLASS)
            (month st) (year st)
            (orValue (Sheet.students data) INITIAL_STUDENTS)
            (orText (Sheet.location data) DEFAULT_LOCATION)
            (orText (Sheet.teacher_name data) DEFAULT_TEACHER)
            (orValue (Sheet.standard_meals data) DEFAULT_QUOTA)
            (clipboard st) (columnClipboard st) false
  | None =>
      match latestData with
      | Some latestData =>
          let copiedStudents :=
            map (withMeals ∅) (orValue (Sheet.students latestData) []) in
          mkApp (user st) false
                (orText (Sheet.school_name latestData) DEFAULT_SCHOOL)
                (orText (Sheet.class_name latestData) DEFAULT_CLASS)
                (month st) (year st)
                copiedStudents
                (orText (Sheet.location latestData) DEFAULT_LOCATION)
                (orText (Sheet.teacher_name latestData) DEFAULT_TEACHER)
                (orValue (Sheet.standard_meals latestData) DEFAULT_QUOTA)
                (clipboard st) (columnClipboard st) true
      | None =>
          mkApp (user st) false (schoolName st) (className st) (month st) (year st)
                INITIAL_STUDENTS (location st) (teacherName st) (standardMeals st)
                (clipboard st) (columnClipboard st) false
      end
  end.

(** What a read delivers: the answer of the table, or null when the read
    failed. *)
Definition readResult (ok : bool) (answer : option Sheet.t) : option Sheet.t :=
  if ok then answer else None.

(** The state after [fetchData] has run to its end for the month and year
    of [st]; nothing happens without a signed-in user. [readOk] and
    [latestOk] are the outcomes of the two reads: whether the request came
    back without an error. *)
Definition fetchDataWith (readOk latestOk : bool) (db : list Sheet.t) (st : AppState)
    : AppState :=
  match user st with
  | None => st
  | Some uid =>
      fetchDataFrom (readResult readOk (selectSheet db uid (month st) (year st)))
                    (readResult latestOk (selectLatestBefore db uid (month st) (year st)))
                    st
  end.

(** [fetchData] when both reads succeed. *)
Definition fetchData (db : list Sheet.t) (st : AppState) : AppState :=
  fetchDataWith true true db st.

(** ** Explicit synchronisation with the previous month *)

(** The callback of [prevStudents.forEach]: [currentStudents] is the
    roster before the loop, [newStudents] the array being built. An index
    of -1 from [findIndex] would write no array element. *)
Definition syncStep (currentStudents newStudents : list Student) (ps : Student)
    : list Student :=
  match list_find (λ cs, id cs = id ps) currentStudents with
  | None => newStudents ++ [withMeals ∅ ps]
  | Some _ =>
      match list_find (λ ns, id ns = id ps) newStudents with
      | Some (idx, ns) => <[idx := withName (name ps) ns]> newStudents
      | None => newStudents
      end
  end.

(** The updater passed to [setStudents]. *)
Definition syncStudents (prevStudents prev : list Student) : list Student :=
  foldl (syncStep prev) prev prevStudents.

Definition SYNC_DONE : string := "Đã cập nhật danh sách học sinh thành công!".
Definition SYNC_NOT_FOUND : string := "Không tìm thấy dữ liệu tháng trước để cập nhật.".

(** The new state and the text shown by [alert], if any. *)
Definition syncFromPreviousMonth (confirmed : bool) (db : list Sheet.t) (st : AppState)
    : AppState * option string :=
  match user st with
  | None => (st, None)
  | Some uid =>
      if negb confirmed then (st, None)
      else
        match selectLatestBefore db uid (month st) (year st) with
        | Some latestData =>
            match Sheet.students latestData with
            | Some prevStudents =>
                (setStudents (syncStudents prevStudents) st, Some SYNC_DONE)
            | None => (st, Some SYNC_NOT_FOUND)
            end
        | None => (st, Some SYNC_NOT_FOUND)
        end
  end.

(** ** Totals calculator *)

(** The three counters after [Object.values (student.meals).forEach]. *)
Definition countMeals (values : list Meal.t) : Z * Z * Z :=
  foldl (λ '(sCount, t1Count, t2Count) dayMeals,
           (if Meal.S dayMeals then sCount + 1 else sCount,
            if Meal.T1 dayMeals then t1Count + 1 else t1Count,
            if Meal.T2 dayMeals then t2Count + 1 else t2Count))
        (0, 0, 0) values.

(** The three differences are those of the source for the quotas of
    [safeQuota]. *)
Definition calculateStudentTotals (standardMeals : Quota.t) (student : Student) : Totals.t :=
  let '(sCount, t1Count, t2Count) := countMeals (map_to_list (meals student)).*2 in
  let uS := Quota.S standardMeals - sCount in
  let uT1 := Quota.T1 standardMeals - t1Count in
  let uT2 := Quota.T2 standardMeals - t2Count in
  Totals.mk sCount t1Count t2Count uS uT1 uT2.

(** [students.reduce ((acc, s) => acc + (s.meals[day]?.[meal] ? 1 : 0), 0)] *)
Definition calculateDayTotals (students : list Student) (day : Z) (meal : MealType.t) : Z :=
  foldl (λ acc s, acc + (if mark s day meal then 1 else 0)) 0 students.

(** ** Spreadsheet export

    [createSheet] as the values it hands to the workbook: the column
    descriptors, the rows in the order of [addRow], the merged ranges up
    to the totals row and the last row and column of the bordered table.
    Fonts, fills, borders, widths and the signature footer are styling of
    these cells and are left out. *)

(** A cell value: a string, a number, or [undefined]. *)
Inductive Cell := CStr (s : string) | CNum (n : Z) | CUndefined.

Record Column := mkColumn { header : string; key : string; width : Z }.

Record SheetOut := mkSheetOut {
  sheetName : string;
  cols : list Column;
  titleRow : list Cell;
  headerRow2Values : list Cell;
  headerRow3Values : list Cell;
  row4Vals : list Cell;
  dataRows : list (list Cell);
  totalRowValues : list Cell;
  merges : list (Z * Z * Z * Z);
  lastRow : Z;
  lastCol : Z
}.

(** The empty string literal. *)
Definition BLANK : string := EmptyString.

(** [String (n)] and [`${n}`] on an integer. *)
Definition String_ (n : Z) : string := pretty n.

(** [for (let i = 1; i <= 16; i++) days.push (i)] *)
Definition firstHalfDays : list Z := seqZ 1 16.

(** [for (let i = 17; i <= daysInMonth; i++) if (i <= daysInMonth) days.push (i)] *)
Definition secondHalfDays (st : AppState) : list Z := seqZ 17 (daysInMonth st - 16).

(** [cond ? "+" : ""] *)
Definition plusIf (b : bool) : Cell := CStr (if b then "+"%string else BLANK).

Definition dayColumns (d : Z) : list Column :=
  [ mkColumn (String_ d +:+ " (S)") ("d" +:+ String_ d +:+ "_S") 4;
    mkColumn (String_ d +:+ " (T)") ("d" +:+ String_ d +:+ "_T1") 4;
    mkColumn (String_ d +:+ " (T)") ("d" +:+ String_ d +:+ "_T2") 4 ].

Definition summaryColumns : list Column :=
  [ mkColumn "Tổng S" "total_S" 6; mkColumn "Tổng T" "total_T1" 6;
    mkColumn "Tổng T" "total_T2" 6; mkColumn "Không S" "u_S" 6;
    mkColumn "Không T" "u_T1" 6; mkColumn "Không T" "u_T2" 6 ].

(** The callback of [students.forEach] that builds one data row. *)
Definition dataRow (st : AppState) (days : list Z) (isSecondHalf : bool)
    (index : nat) (student : Student) : list Cell :=
  let totals := calculateStudentTotals (standardMeals st) student in
  [CNum (Z.of_nat index + 1); CStr (name student)]
  ++ concat (map (λ d, [plusIf (mark student d MealType.S);
                        plusIf (mark student d MealType.T1);
                        plusIf (mark student d MealType.T2)]) days)
  ++ (if isSecondHalf then
        [CNum (Totals.S totals); CNum (Totals.T1 totals); CNum (Totals.T2 totals);
         CNum (Totals.uS totals); CNum (Totals.uT1 totals); CNum (Totals.uT2 totals)]
      else []).

(** The day merges of rows 2 and 3, from column [colIdx] on. *)
Fixpoint dayMerges (colIdx : Z) (days : list Z) : list (Z * Z * Z * Z) :=
  match days with
  | [] => []
  | _ :: rest =>
      (2, colIdx, 2, colIdx + 2) :: (3, colIdx, 3, colIdx + 2) :: dayMerges (colIdx + 3) rest
  end.

Definition createSheet (st : AppState) (sheetName : string) (days : list Z)
    (isSecondHalf : bool) : SheetOut :=
  let cols :=
    [mkColumn "STT" "stt" 5; mkColumn "Họ và tên" "name" 25]
    ++ concat (map dayColumns days)
    ++ (if isSecondHalf then summaryColumns else []) in
  let titleRow :=
    [CStr ("SỔ CHẤM CƠM LỚP: " +:+ className st +:+ " THÁNG "
           +:+ String_ (month st + 1) +:+ "/" +:+ String_ (year st))] in
  let headerRow2Values :=
    [CStr "STT"; CStr "Ngày/Thứ"]
    ++ concat (map (λ d, [CStr (String_ d); CStr BLANK; CStr BLANK]) days)
    ++ (if isSecondHalf then
          [CStr "Số ngày ăn trong tháng"; CStr BLANK; CStr BLANK;
           CStr BLANK; CStr BLANK; CStr BLANK]
        else []) in
  let headerRow3Values :=
    [CStr BLANK; CStr BLANK]
    ++ concat (map (λ d,
         [match getDayOfWeek d (month st) (year st) with
          | Some dow => CStr dow
          | None => CUndefined
          end; CStr BLANK; CStr BLANK]) days)
    ++ (if isSecondHalf then
          [CStr "Số ngày báo ăn"; CStr BLANK; CStr BLANK;
           CStr "Số ngày không báo ăn"; CStr BLANK; CStr BLANK]
        else []) in
  let row4Vals :=
    [CStr "Họ và tên"; CStr BLANK]
    ++ concat (map (λ _, [CStr "S"; CStr "T"; CStr "T"]) days)
    ++ (if isSecondHalf then
          [CStr "S"; CStr "T"; CStr "T"; CStr "S"; CStr "T"; CStr "T"]
        else []) in
  let dataRows := imap (dataRow st days isSecondHalf) (students st) in
  let totalRowValues :=
    [CStr "CỘNG"; CStr BLANK]
    ++ concat (map (λ d,
         [CStr (String_ (calculateDayTotals (students st) d MealType.S));
          CStr (String_ (calculateDayTotals (students st) d MealType.T1));
          CStr (String_ (calculateDayTotals (students st) d MealType.T2))]) days)
    ++ (if isSecondHalf then
          [CStr BLANK; CStr BLANK; CStr BLANK; CStr BLANK; CStr BLANK; CStr BLANK]
        else []) in
  (* rows 1 to 4 are the title and the headers, then one row per student *)
  let lastRow := 4 + Z.of_nat (length (students st)) + 1 in
  let colIdx := 3 + 3 * Z.of_nat (length days) in
  let merges :=
    [(1, 1, 1, Z.of_nat (length cols)); (2, 1, 3, 1); (2, 2, 3, 2); (4, 1, 4, 2)]
    ++ dayMerges 3 days
    ++ (if isSecondHalf then
          [(2, colIdx, 2, colIdx + 5); (3, colIdx, 3, colIdx + 2);
           (3, colIdx + 3, 3, colIdx + 5)]
        else [])
    ++ [(lastRow, 1, lastRow, 2)] in
  let lastCol :=
    if isSecondHalf then 2 + Z.of_nat (length days) * 3 + 6
    else 2 + Z.of_nat (length days) * 3 in
  mkSheetOut sheetName cols titleRow headerRow2Values headerRow3Values row4Vals
             dataRows totalRowValues merges lastRow lastCol.

(** The two sheets of [handleExportExcel]: days 1 to 16, days 17 to the end. *)
Definition handleExportExcel (st : AppState) : SheetOut * SheetOut :=
  (createSheet st "Trang 1" firstHalfDays false,
   createSheet st "Trang 2" (secondHalfDays st) true).

(** ** Saving and moving between months *)

(** The record that [handleSave] hands to [upsert]; the columns [id],
    [created_at] and [updated_at] carry no ledger data. *)
Definition currentSheet (uid : string) (st : AppState) : Sheet.t :=
  Sheet.mk uid (month st) (year st) (Some (className st)) (Some (teacherName st))
           (Some (schoolName st)) (Some (location st)) (Some (students st))
           (Some (standardMeals st)).

(** The conflict target [user_id,month,year]. *)
Definition sheetKey (r : Sheet.t) : string * Z * Z :=
  (Sheet.user_id r, Sheet.month r, Sheet.year r).

(** [upsert (row, { onConflict: 'user_id,month,year' })]: the row with the
    key of [row] is overwritten, and [row] is inserted when there is none. *)
Definition upsert (row : Sheet.t) (db : list Sheet.t) : list Sheet.t :=
  if decide (sheetKey row ∈ map sheetKey db)
  then map (λ r, if decide (sheetKey r = sheetKey row) then row else r) db
  else db ++ [row].

(** The constraint [unique (user_id, month, year)] of the table. *)
Definition uniqueKeys (db : list Sheet.t) : Prop := NoDup (map sheetKey db).

Definition SAVE_FAILED : string := "Lỗi khi lưu dữ liệu!".
Definition SAVE_DONE : string := "Đã lưu dữ liệu thành công!".

Definition setDirty (b : bool) (st : AppState) : AppState :=
  mkApp (user st) (loading st) (schoolName st) (className st) (month st) (year st)
        (students st) (location st) (teacherName st) (standardMeals st)
        (clipboard st) (columnClipboard st) b.

(** The effect that marks the ledger dirty,
    [useEffect (() => { if (!loading) isDirty.current = true }, [students,
    className, teacherName, schoolName, location, standardMeals])]. It
    runs after a commit in which one of the six values is new: another
    text, or another roster or quota object, whatever it holds. Whether it
    runs is the input [changed]. The handlers of this file are the bodies
    of the handlers; the state after the commit that follows the handler
    [h] is [markDirty changed (h st)]. *)
Definition markDirty (changed : bool) (st : AppState) : AppState :=
  if changed && negb (loading st) then setDirty true st else st.

Definition setMonthYear (m y : Z) (st : AppState) : AppState :=
  mkApp (user st) (loading st) (schoolName st) (className st) m y
        (students st) (location st) (teacherName st) (standardMeals st)
        (clipboard st) (columnClipboard st) (isDirty st).

Definition setUser (u : option string) (st : AppState) : AppState :=
  mkApp u (loading st) (schoolName st) (className st) (month st) (year st)
        (students st) (location st) (teacherName st) (standardMeals st)
        (clipboard st) (columnClipboard st) (isDirty st).

(** [handleSave (silent)]: [succeeds] is the outcome of the request, that
    is, whether [error] came back empty. The result is the table, the
    state and the text shown by [alert], if any. *)
Definition handleSave (succeeds silent : bool) (db : list Sheet.t) (st : AppState)
    : list Sheet.t * AppState * option string :=
  match user st with
  | None => (db, st, None)
  | Some uid =>
      if succeeds then
        (upsert (currentSheet uid st) db, setDirty false st,
         if silent then None else Some SAVE_DONE)
      else (db, st, if silent then None else Some SAVE_FAILED)
  end.

(** [if (isDirty.current) await handleSave (true)] *)
Definition flushIfDirty (succeeds : bool) (db : list Sheet.t) (st : AppState)
    : list Sheet.t * AppState :=
  if isDirty st then (handleSave succeeds true db st).1 else (db, st).

(** [setYear (y => y - 1)] and [setYear (y => y + 1)] are exact on a year
    that is a safe integer. *)
Definition prevMonth (succeeds : bool) (db : list Sheet.t) (st : AppState)
    : list Sheet.t * AppState :=
  let '(db', st') := flushIfDirty succeeds db st in
  (db', if decide (month st' = 0) then setMonthYear 11 (year st' - 1) st'
        else setMonthYear (month st' - 1) (year st') st').

Definition nextMonth (succeeds : bool) (db : list Sheet.t) (st : AppState)
    : list Sheet.t * AppState :=
  let '(db', st') := flushIfDirty succeeds db st in
  (db', if decide (month st' = 11) then setMonthYear 0 (year st' + 1) st'
        else setMonthYear (month st' + 1) (year st') st').

Definition handleYearChange (succeeds : bool) (newYear : Z) (db : list Sheet.t)
    (st : AppState) : list Sheet.t * AppState :=
  let '(db', st') := flushIfDirty succeeds db st in
  (db', setMonthYear (month st') newYear st').

(** [handleLogout]: the sign-out reaches the component as the event
    [SIGNED_OUT], which clears [user]. *)
Definition handleLogout (succeeds : bool) (db : list Sheet.t) (st : AppState)
    : list Sheet.t * AppState :=
  let '(db', st') := flushIfDirty succeeds db st in
  (db', setUser None st').

(** ** Column widths of a sheet *)

(** The widths that the end of [createSheet] sets, in the order of the
    assignments: column 1, column 2, the columns from 3 to [lastCol], and
    on the second sheet the last six columns once more. *)
Definition columnWidths (lastCol : Z) (isSecondHalf : bool) : gmap Z Z :=
  let w := <[2 := 25]> (<[1 := 5]> ∅) in
  let w := foldl (λ w c, <[c := 4]> w) w (seqZ 3 (lastCol - 2)) in
  if isSecondHalf then foldl (λ w c, <[c := 6]> w) w (seqZ (lastCol - 5) 6) else w.

(** ** Import of a roster from a workbook

    [handleFileUpload] after the workbook was read: a sheet is the array
    of arrays that [sheet_to_json] returns with [header: 1], every row an
    array. Of a cell the code only asks whether it is a string, and
    which. The string operations of the language are taken as given. *)

Inductive JsCell := JStr (s : string) | JNotString.

(** The string built-ins that the import calls. *)
Class JsString := {
  toLowerCase : string → string;
  trim : string → string;
  jsLength : string → nat;             (* [s.length] *)
  includes : string → string → bool;   (* [s.includes (k)] *)
  isNaNNumber : string → bool          (* [isNaN (Number (s))] *)
}.

(** What the file input delivers: no file, a file that [read] rejects, or
    the sheets of the workbook in the order of [SheetNames]. *)
Inductive Upload :=
  | NoFile
  | Unreadable
  | Workbook (sheets : list (list (list JsCell))).

(** The four messages that the import can show. *)
Inductive ImportAlert :=
  | AlertNoData          (* the workbook has no sheet with rows *)
  | AlertNoNameColumn    (* no column of names was found *)
  | AlertNoValidNames    (* the column gave no valid name *)
  | AlertReadError.      (* the file could not be read *)

Definition headerKeywords : list string :=
  ["họ và tên"; "họ tên"; "tên học sinh"; "học sinh"; "tên"]%string.

Definition skipKeywords : list string :=
  ["stt"; "tổng"; "cộng"; "lớp"; "trường"; "giáo viên"; "năm học"; "tháng"]%string.

(** The order of the keys of [colStats]. *)
Definition keyLe (a b : nat * nat) : Prop := (a.1 ≤ b.1)%nat.

#[global] Instance keyLe_dec a b : Decision (keyLe a b).
Proof. unfold keyLe. apply _. Defined.

Section RosterImport.
Context `{JsString}.

(** The first sheet that has rows, or no rows at all. *)
Definition firstSheetWithRows (sheets : list (list (list JsCell))) : list (list JsCell) :=
  match filter (λ rows, rows ≠ []) sheets with
  | rows :: _ => rows
  | [] => []
  end.

(** [typeof cell === 'string' && headerKeywords.some (k => cell.toLowerCase ().includes (k))] *)
Definition isHeaderCell (cell : JsCell) : bool :=
  match cell with
  | JStr s => existsb (λ k, includes (toLowerCase s) k) headerKeywords
  | JNotString => false
  end.

(** The loop over the rows from row [i] on: the column of the first header
    cell of the first row that has one, and the row after it. *)
Fixpoint findHeaderFrom (i : nat) (rows : list (list JsCell)) : option (nat * nat) :=
  match rows with
  | [] => None
  | row :: rest =>
      match list_find (λ cell, isHeaderCell cell = true) row with
      | Some (idx, _) => Some (idx, S i)
      | None => findHeaderFrom (S i) rest
      end
  end.

(** [for (let i = 0; i < Math.min (jsonData.length, 20); i++)] *)
Definition findHeader (jsonData : list (list JsCell)) : option (nat * nat) :=
  findHeaderFrom 0 (take 20 jsonData).

(** [typeof cell === 'string' && cell.trim ().length > 3 && isNaN (Number (cell))] *)
Definition nameLike (cell : JsCell) : bool :=
  match cell with
  | JStr s => (3 <? jsLength (trim s))%nat && isNaNNumber s
  | JNotString => false
  end.

(** [row.forEach ((cell, idx) => { ... colStats[idx] = (colStats[idx] || 0) + 1 })] *)
Definition countRow (colStats : gmap nat nat) (row : list JsCell) : gmap nat nat :=
  foldl (λ stats '(idx, cell),
           if nameLike cell then <[idx := S (default 0%nat (stats !! idx))]> stats
           else stats)
        colStats (imap (λ idx cell, (idx, cell)) row).

Definition colStats (jsonData : list (list JsCell)) : gmap nat nat :=
  foldl countRow ∅ (take 50 jsonData).

(** [Object.entries]: the keys are array indices, so they come in
    ascending order. *)
Definition entries (stats : gmap nat nat) : list (nat * nat) :=
  merge_sort keyLe (map_to_list stats).

(** The column with the most name-like strings, the leftmost of them. *)
Definition pickColumn (stats : gmap nat nat) : option nat :=
  (foldl (λ '(maxCount, nameColIndex) '(idx, count),
            if (maxCount <? count)%nat then (count, Some idx)
            else (maxCount, nameColIndex))
         (0%nat, None) (entries stats)).2.

Definition isString (cell : option JsCell) : Prop :=
  match cell with Some (JStr _) => True | _ => False end.

#[global] Instance isString_dec cell : Decision (isString cell).
Proof. destruct cell as [[?|]|]; simpl; apply _. Defined.

(** The first row whose cell in the column is a string; row 0 when there
    is none. *)
Definition firstStringRow (jsonData : list (list JsCell)) (col : nat) : nat :=
  match list_find (λ row, isString (row !! col)) jsonData with
  | Some (i, _) => i
  | None => 0%nat
  end.

(** The name column and the first row to read, when a column is found. *)
Definition locateNames (jsonData : list (list JsCell)) : option (nat * nat) :=
  match findHeader jsonData with
  | Some found => Some found
  | None =>
      match pickColumn (colStats jsonData) with
      | Some col => Some (col, firstStringRow jsonData col)
      | None => None
      end
  end.

(** [name.length > 2 && !skipKeywords.some (k => name.toLowerCase ().includes (k))] *)
Definition validName (name : string) : bool :=
  (2 <? jsLength name)%nat
  && negb (existsb (λ k, includes (toLowerCase name) k) skipKeywords).

(** The name that one row gives, if any. *)
Definition nameOfRow (col : nat) (row : list JsCell) : option string :=
  match row !! col with
  | Some (JStr rawName) =>
      if decide (rawName = EmptyString) then None
      else if validName (trim rawName) then Some (trim rawName) else None
  | _ => None
  end.

Definition extractNames (jsonData : list (list JsCell)) (col startRow : nat) : list string :=
  omap (nameOfRow col) (drop startRow jsonData).

(** The students pushed for the names: the k-th call of [generateId]
    returns [ids k]. *)
Definition newStudentsOf (ids : nat → string) (names : list string) : list Student :=
  imap (λ k name, mkStudent (ids k) name ∅) names.

Definition handleFileUpload (confirmed : bool) (ids : nat → string) (upload : Upload)
    (st : AppState) : AppState * option ImportAlert :=
  match upload with
  | NoFile => (st, None)
  | Unreadable => (st, Some AlertReadError)
  | Workbook sheets =>
      let jsonData := firstSheetWithRows sheets in
      if decide (jsonData = []) then (st, Some AlertNoData)
      else
        match locateNames jsonData with
        | None => (st, Some AlertNoNameColumn)
        | Some (nameColIndex, startRow) =>
            let newStudents :=
              newStudentsOf ids (extractNames jsonData nameColIndex startRow) in
            if decide (newStudents = []) then (st, Some AlertNoValidNames)
            else if confirmed then (setStudents (λ _, newStudents) st, None)
            else (st, None)
        end
  end.

End RosterImport.

(** String built-ins on the cells of [sampleSheet], which are in lower
    case and have no blanks around them: [toLowerCase] and [trim] change
    nothing, [includes] is the substring test, and the length in bytes is
    above 2 exactly when the length in code units is; [isNaNNumber] is
    not reached on a sheet with a header. On other texts these are not
    the built-ins of the language. *)
Definition plainStrings : JsString :=
  {| toLowerCase := λ s, s;
     trim := λ s, s;
     jsLength := String.length;
     includes := λ s k, match String.index 0 k s with Some _ => true | None => false end;
     isNaNNumber := λ _, true |}.

(** A sheet with a title row, a header row and four rows below it. *)
Definition sampleSheet : list (list JsCell) :=
  [ [JStr "danh sach"; JNotString];
    [JStr "stt"; JStr "tên"];
    [JNotString; JStr "linh"];
    [JNotString; JStr "ma"];
    [JNotString; JStr "mai"];
    [JStr "tổng"; JStr "tổng cộng"] ]%string.

(** ** Observations

    What a reader of the ledger can see of a roster: identities, names
    and the truth value of every mark. *)

(** Two day mappings with the same marks: they differ at most by days
    that one leaves out and the other holds as all-false. *)
Definition sameMarks (m1 m2 : MealData) : Prop :=
  ∀ d, default Meal.none (m1 !! d) = default Meal.none (m2 !! d).

Definition sameStudent (s1 s2 : Student) : Prop :=
  id s1 = id s2 ∧ name s1 = name s2 ∧ sameMarks (meals s1) (meals s2).

Definition sameLedger (l1 l2 : list Student) : Prop := Forall2 sameStudent l1 l2.

(** The day mapping [m] with an explicit all-false entry on every day of
    [D] that it leaves out. *)
Definition explicitFalse (D : gset Z) (m : MealData) : MealData :=
  m ∪ gset_to_gmap Meal.none D.

Definition dense (D : gset Z) (s : Student) : Student :=
  withMeals (explicitFalse D (meals s)) s.

(** The ledger [st'] shows what was saved from [st0]: the same month and
    year, roster and quotas, and each text field as saved, or the built-in
    text of the field when it was saved empty. *)
Definition ledgerRestored (st0 st' : AppState) : Prop :=
  month st' = month st0 ∧ year st' = year st0
  ∧ students st' = students st0
  ∧ standardMeals st' = standardMeals st0
  ∧ schoolName st'
    = (if decide (schoolName st0 = EmptyString) then DEFAULT_SCHOOL else schoolName st0)
  ∧ className st'
    = (if decide (className st0 = EmptyString) then DEFAULT_CLASS else className st0)
  ∧ teacherName st'
    = (if decide (teacherName st0 = EmptyString) then DEFAULT_TEACHER else teacherName st0)
  ∧ location st'
    = (if decide (location st0 = EmptyString) then DEFAULT_LOCATION else location st0).

(** The state [st] with its roster replaced by [l]. *)
Definition withRoster (l : list Student) (st : AppState) : AppState :=
  setStudents (λ _, l) st.

(** The entry that [autoFillMeals] leaves on a day of weekday label [dow]
    whose entry was [old]. *)
Definition filledEntry (dow : option string) (old : option Meal.t) : option Meal.t :=
  if decide (dow = Some "7"%string ∨ dow = Some "CN"%string) then old
  else if decide (dow = Some "6"%string) then Some (Meal.mk true true false)
  else Some (Meal.mk true true true).

(** The effect of one prior student [ps] on the students that were
    already in the roster: the first one with the id of [ps] takes its
    name. *)
Definition renameFirst (ps : Student) (kept : list Student) : list Student :=
  match list_find (λ ns, id ns = id ps) kept with
  | Some (idx, ns) => <[idx := withName (name ps) ns]> kept
  | None => kept
  end.

(** The first student of [l] that carries the id of [ps], if there is
    one, also carries its name. *)
Definition firstNamed (ps : Student) (l : list Student) : Prop :=
  ∀ idx ns, list_find (λ n, id n = id ps) l = Some (idx, ns) → name ns = name ps.

(** The prior students that the roster [cur] does not know by id. *)
Definition newcomers (cur prevStudents : list Student) : list Student :=
  filter (λ ps, id ps ∉ map id cur) prevStudents.

(** ** Sample ledgers

    The rosters of the worked examples of the specification. *)

Definition linh : Student := mkStudent "a" "Linh" {[1 := Meal.mk true false false]}.
Definition mai : Student := mkStudent "b" "Mai" ∅.
Definition linhNoMarks : Student := mkStudent "a" "Linh" ∅.

(** A signed-in session on May 2023 holding the roster [l]. *)
Definition sampleState (l : list Student) : AppState :=
  mkApp (Some "u1"%string) false DEFAULT_SCHOOL DEFAULT_CLASS 4 2023 l
        DEFAULT_LOCATION DEFAULT_TEACHER DEFAULT_QUOTA None None false.

(** The prior month of the sync example: Linh renamed, Mai new. *)
Definition prevSample : list Student :=
  [mkStudent "a" "Linh Nguyen" {[2 := Meal.mk true true true]};
   mkStudent "b" "Mai" {[2 := Meal.mk true true false]}].

Definition aprilSheet : Sheet.t :=
  Sheet.mk "u1" 3 2023 (Some "8C2"%string) (Some "Lò Thị Hoa"%string)
           (Some "TRƯỜNG THCS MƯỜNG LÓI"%string) (Some "Mường Lói"%string)
           (Some prevSample) (Some (Quota.mk 20 20 18)).

(** A roster of three in June 2023, a month of 30 days. *)
Definition juneState : AppState :=
  mkApp (Some "u1"%string) false DEFAULT_SCHOOL DEFAULT_CLASS 5 2023
        [linh; mai; mkStudent "c" "Lan" {[1 := Meal.mk true true false]}]
        DEFAULT_LOCATION DEFAULT_TEACHER DEFAULT_QUOTA None None false.

(** A prior ledger saved with the class field emptied, as the header
    input allows. *)
Definition blankClassSheet : Sheet.t :=
  Sheet.mk "u1" 3 2023 (Some EmptyString) (Some "Lò Thị Hoa"%string)
           (Some "TRƯỜNG THCS MƯỜNG LÓI"%string) (Some "Mường Lói"%string)
           (Some prevSample) (Some (Quota.mk 20 20 18)).

(** A sheet of the same owner from the year before. *)
Definition olderSheet : Sheet.t :=
  Sheet.mk "u1" 11 2022 (Some "7C1"%string) (Some "Vũ Văn Hùng"%string)
           (Some "TRƯỜNG PTDTBT TH&THCS SUỐI LỪ"%string) (Some "Suối Lừ"%string)
           (Some [linh]) (Some (Quota.mk 14 14 12)).

(** * Properties *)

(** ** Calendar helpers on known dates *)

Example getDaysInMonth_feb_2024 : getDaysInMonth 1 2024 = 29.
Proof. reflexivity. Qed.

Example getDaysInMonth_feb_1900 : getDaysInMonth 1 1900 = 28.
Proof. reflexivity. Qed.

Example getDaysInMonth_dec_2023 : getDaysInMonth 11 2023 = 31.
Proof. reflexivity. Qed.

Example getDayOfWeek_1_jan_2023 : getDayOfWeek 1 0 2023 = Some "CN"%string.
Proof. reflexivity. Qed.

Example getDayOfWeek_5_may_2023 : getDayOfWeek 5 4 2023 = Some "6"%string.
Proof. reflexivity. Qed.


(** From 1900 to 2100 every month has the length of the calendar. *)
Example getDaysInMonth_1900_2100 :
  forallb (λ y, forallb (λ m,
             match Date.monthLengths y !! Z.to_nat m with
             | Some len => getDaysInMonth m y =? len
             | None => false
             end) (seqZ 0 12)) (seqZ 1900 201) = true.
Proof. vm_compute. reflexivity. Qed.

(** On day numbers the index into [DAYS_OF_WEEK] is one of its seven
    positions. *)
Lemma getDayOfWeek_defined day month year : is_Some (getDayOfWeek day month year).
Proof.
  unfold getDayOfWeek, Date.getDay. apply lookup_lt_is_Some. simpl.
  pose proof (Z.mod_pos_bound (Date.make year month day + 4) 7). lia.
Qed.

(** ** Elementary facts *)

Lemma students_setStudents f st : students (setStudents f st) = f (students st).
Proof. reflexivity. Qed.

Lemma setStudents_same f st : f (students st) = students st → setStudents f st = st.
Proof. destruct st; unfold setStudents; simpl. by intros ->. Qed.

Lemma map_fixed {A} (f : A → A) (l : list A) :
  (∀ x, x ∈ l → f x = x) → map f l = l.
Proof.
  induction l as [|x l IH]; intros Hf; [done|].
  simpl. rewrite Hf by left. f_equal. apply IH. intros y Hy. apply Hf. by right.
Qed.

Lemma get_set meal meal' v dm :
  Meal.get meal' (Meal.set meal v dm) = if decide (meal' = meal) then v else Meal.get meal' dm.
Proof. by destruct meal, meal', dm. Qed.

Lemma set_set meal v w dm : Meal.set meal v (Meal.set meal w dm) = Meal.set meal v dm.
Proof. by destruct meal, dm. Qed.

Lemma set_get meal dm : Meal.set meal (Meal.get meal dm) dm = dm.
Proof. by destruct meal, dm. Qed.

Lemma mark_currentMeals s day meal : Meal.get meal (currentMeals s day) = mark s day meal.
Proof. unfold currentMeals, mark. destruct (meals s !! day); [done|]. by destruct meal. Qed.

Lemma currentMeals_setMark s day meal v d :
  currentMeals (setMark day meal v s) d =
  if decide (d = day) then Meal.set meal v (currentMeals s day) else currentMeals s d.
Proof.
  unfold currentMeals at 1. simpl. case_decide as Hd.
  - subst d. by rewrite lookup_insert_eq.
  - by rewrite lookup_insert_ne.
Qed.

Lemma mark_setMark s day meal v d m :
  mark (setMark day meal v s) d m =
  if decide (d = day ∧ m = meal) then v else mark s d m.
Proof.
  rewrite <- !mark_currentMeals, currentMeals_setMark.
  destruct (decide (d = day)) as [->|Hd].
  - rewrite get_set. destruct (decide (m = meal)) as [->|Hm].
    + by rewrite decide_True.
    + rewrite decide_False; [done|]. by intros [_ ?].
  - rewrite decide_False; [done|]. by intros [? _].
Qed.

Lemma id_setMark day meal v s : id (setMark day meal v s) = id s.
Proof. reflexivity. Qed.

Lemma name_setMark day meal v s : name (setMark day meal v s) = name s.
Proof. reflexivity. Qed.

(** ** Handlers keyed by a student id *)

(** The updater of [toggleMeal] on one student. *)
Lemma toggleMeal_students sid day meal st :
  students (toggleMeal sid day meal st) =
  map (λ s, if decide (id s ≠ sid) then s
            else setMark day meal (negb (mark s day meal)) s) (students st).
Proof.
  unfold toggleMeal. rewrite students_setStudents.
  apply map_ext. intros s. case_decide; [done|]. by rewrite mark_currentMeals.
Qed.

(** C10: a handler keyed by an id that no student of the roster carries
    changes nothing: [toggleMeal], [pasteMeals] and [updateStudentName]
    return the state they were given, roster included. *)
Theorem absent_id_is_identity (st : AppState) (sid : string) :
  sid ∉ map id (students st) →
  ∀ (day : Z) (meal : MealType.t) (newName : string),
    toggleMeal sid day meal st = st
    ∧ pasteMeals sid st = st
    ∧ updateStudentName sid newName st = st.
Proof.
  intros Hsid day meal newName.
  assert (Hne : ∀ s, s ∈ students st → id s ≠ sid).
  { intros s Hs Heq. apply Hsid. rewrite <- Heq. apply list_elem_of_fmap. eauto. }
  split; [|split].
  - apply setStudents_same, map_fixed. intros s Hs.
    rewrite decide_True; [done|]. by apply Hne.
  - unfold pasteMeals. destruct (clipboard st) as [c|]; [|done].
    apply setStudents_same, map_fixed. intros s Hs.
    rewrite decide_False; [done|]. by apply Hne.
  - apply setStudents_same, map_fixed. intros s Hs.
    rewrite decide_False; [done|]. by apply Hne.
Qed.

Lemma absent_id_is_identity_witness :
  toggleMeal "zz" 1 MealType.S (sampleState [linh; mai]) = sampleState [linh; mai]
  ∧ pasteMeals "zz" (sampleState [linh; mai]) = sampleState [linh; mai]
  ∧ updateStudentName "zz" "Lan" (sampleState [linh; mai]) = sampleState [linh; mai].
Proof.
  apply (absent_id_is_identity (sampleState [linh; mai]) "zz").
  refine (bool_decide_unpack _ _). vm_compute. exact I.
Defined.

(** ** Toggling a mark *)

Lemma toggle_twice_student sid day meal s :
  let f := λ s, if decide (id s ≠ sid) then s
                else setMark day meal (negb (mark s day meal)) s in
  id (f (f s)) = id s ∧ name (f (f s)) = name s
  ∧ ∀ d m, mark (f (f s)) d m = mark s d m.
Proof.
  simpl. destruct (decide (id s ≠ sid)) as [Hne|Heq].
  - rewrite decide_True by done. done.
  - rewrite id_setMark, decide_False by done.
    split; [done|]. split; [done|]. intros d m.
    rewrite !mark_setMark.
    destruct (decide (d = day ∧ m = meal)) as [[-> ->]|Hdm]; [|done].
    rewrite decide_True by done. apply negb_involutive.
Qed.

(** C4: toggling the same (student, day, meal) twice gives every student
    back the truth value of every mark, the toggled one included, with ids
    and names in place; and one toggle on a day that the student has no
    entry for stores the all-false entry with the named meal set to true. *)
Theorem toggle_involution (st : AppState) (sid : string) (day : Z) (meal : MealType.t) :
  let st2 := toggleMeal sid day meal (toggleMeal sid day meal st) in
  map id (students st2) = map id (students st)
  ∧ map name (students st2) = map name (students st)
  ∧ (∀ d m, map (λ s, mark s d m) (students st2) = map (λ s, mark s d m) (students st))
  ∧ (∀ i s, students st !! i = Some s → id s = sid → meals s !! day = None →
       ∃ s', students (toggleMeal sid day meal st) !! i = Some s'
             ∧ meals s' !! day = Some (Meal.set meal true Meal.none)
             ∧ ∀ d, d ≠ day → meals s' !! d = meals s !! d).
Proof.
  cbv zeta. rewrite !toggleMeal_students.
  rewrite <- !list_fmap_compose.
  repeat split.
  - apply list_fmap_ext. intros _ s _. simpl. apply toggle_twice_student.
  - apply list_fmap_ext. intros _ s _. simpl. apply toggle_twice_student.
  - intros d m. rewrite <- !list_fmap_compose.
    apply list_fmap_ext. intros _ s _. simpl. apply toggle_twice_student.
  - intros i s Hi Hid Hday.
    rewrite list_lookup_fmap, Hi. simpl.
    rewrite decide_False by (by intros ?).
    eexists. split; [done|]. simpl. split.
    + rewrite lookup_insert_eq. unfold mark, currentMeals. by rewrite Hday.
    + intros d Hd. by rewrite lookup_insert_ne.
Qed.

Lemma toggle_involution_witness :
  ∃ s', students (toggleMeal "b" 3 MealType.T1 (sampleState [linh; mai])) !! 1%nat = Some s'
        ∧ meals s' !! 3 = Some (Meal.mk false true false).
Proof.
  destruct (toggle_involution (sampleState [linh; mai]) "b" 3 MealType.T1)
    as (_ & _ & _ & Hnew).
  destruct (Hnew 1%nat mai) as (s' & Hs' & Hday & _); [reflexivity..|].
  exists s'. split; [exact Hs' | exact Hday].
Defined.

(** ** Synchronising with the previous month *)

Lemma list_find_same_ids (x : string) (l1 l2 : list Student) :
  map id l1 = map id l2 →
  fst <$> list_find (λ s, id s = x) l1 = fst <$> list_find (λ s, id s = x) l2.
Proof.
  intros Hids.
  assert (H : ∀ l : list Student,
    fst <$> list_find (λ s, id s = x) l = fst <$> list_find (λ y, y = x) (map id l)).
  { intros l. change (map id l) with (id <$> l).
    rewrite (list_find_fmap id (λ y, y = x)).
    by destruct (list_find _ l) as [[??]|]. }
  by rewrite !H, Hids.
Qed.

Lemma list_find_id_None (x : string) (l : list Student) :
  list_find (λ s, id s = x) l = None ↔ x ∉ map id l.
Proof.
  rewrite list_find_None, Forall_forall. split.
  - intros H (s & Hs & Hin)%list_elem_of_fmap. by apply (H s).
  - intros H s Hs Heq. apply H. apply list_elem_of_fmap. eauto.
Qed.

Lemma renameFirst_absent ps kept : id ps ∉ map id kept → renameFirst ps kept = kept.
Proof. intros H. unfold renameFirst. by apply list_find_id_None in H as ->. Qed.

Lemma renameFirst_ids ps kept : map id (renameFirst ps kept) = map id kept.
Proof.
  unfold renameFirst. destruct (list_find _ kept) as [[idx ns]|] eqn:Hf; [|done].
  apply list_find_Some in Hf as (Hidx & _ & _).
  change (map id ?l) with (id <$> l).
  rewrite list_fmap_insert. simpl. apply list_insert_id.
  by rewrite list_lookup_fmap, Hidx.
Qed.

Lemma renameFirst_meals ps kept : map meals (renameFirst ps kept) = map meals kept.
Proof.
  unfold renameFirst. destruct (list_find _ kept) as [[idx ns]|] eqn:Hf; [|done].
  apply list_find_Some in Hf as (Hidx & _ & _).
  change (map meals ?l) with (meals <$> l).
  rewrite list_fmap_insert. simpl. apply list_insert_id.
  by rewrite list_lookup_fmap, Hidx.
Qed.

(** One step of the loop, seen on the two parts of the array: the part
    [kept] that came from the roster and the part [extra] appended so far. *)
Lemma syncStep_app cur kept extra ps :
  map id kept = map id cur →
  syncStep cur (kept ++ extra) ps =
  if decide (id ps ∈ map id cur) then renameFirst ps kept ++ extra
  else kept ++ extra ++ [withMeals ∅ ps].
Proof.
  intros Hids. unfold syncStep.
  destruct (list_find _ cur) as [[i cs]|] eqn:Hcur.
  - assert (Hin : id ps ∈ map id cur).
    { destruct (decide (id ps ∈ map id cur)) as [|Hn]; [done|].
      apply list_find_id_None in Hn. congruence. }
    rewrite decide_True by done.
    pose proof (list_find_same_ids (id ps) kept cur Hids) as Hsame.
    rewrite Hcur in Hsame. simpl in Hsame.
    destruct (list_find (λ ns, id ns = id ps) kept) as [[j k]|] eqn:Hkept; [|done].
    simpl in Hsame. injection Hsame as ->.
    rewrite (list_find_app_l _ _ _ _ _ Hkept).
    unfold renameFirst. rewrite Hkept.
    apply list_find_Some in Hkept as (Hk & _ & _).
    apply insert_app_l. by eapply lookup_lt_Some.
  - apply list_find_id_None in Hcur.
    rewrite decide_False by done. by rewrite app_assoc.
Qed.

Lemma foldl_syncStep cur prevStudents : ∀ kept extra,
  map id kept = map id cur →
  foldl (syncStep cur) (kept ++ extra) prevStudents =
  foldl (λ k ps, renameFirst ps k) kept prevStudents
  ++ extra ++ map (withMeals ∅) (newcomers cur prevStudents).
Proof.
  induction prevStudents as [|ps prevStudents IH]; intros kept extra Hids.
  { simpl. by rewrite app_nil_r. }
  simpl. rewrite syncStep_app by done. unfold newcomers. rewrite filter_cons.
  destruct (decide (id ps ∈ map id cur)) as [Hin|Hnin].
  - rewrite decide_False by (by intros ?).
    apply IH. by rewrite renameFirst_ids.
  - rewrite decide_True by done.
    rewrite renameFirst_absent by (by rewrite Hids).
    rewrite (IH kept (extra ++ [withMeals ∅ ps]) Hids).
    by rewrite <- !app_assoc.
Qed.

(** The roster after the sync: the students it had, some of them renamed,
    followed by the newcomers without marks. *)
Lemma syncStudents_app prevStudents cur :
  syncStudents prevStudents cur =
  foldl (λ k ps, renameFirst ps k) cur prevStudents
  ++ map (withMeals ∅) (newcomers cur prevStudents).
Proof.
  unfold syncStudents.
  rewrite <- (app_nil_r cur) at 2.
  by rewrite foldl_syncStep.
Qed.

Lemma foldl_renameFirst_ids prevStudents : ∀ kept,
  map id (foldl (λ k ps, renameFirst ps k) kept prevStudents) = map id kept.
Proof.
  induction prevStudents as [|ps l IH]; intros kept; [done|].
  simpl. by rewrite IH, renameFirst_ids.
Qed.

Lemma foldl_renameFirst_meals prevStudents : ∀ kept,
  map meals (foldl (λ k ps, renameFirst ps k) kept prevStudents) = map meals kept.
Proof.
  induction prevStudents as [|ps l IH]; intros kept; [done|].
  simpl. by rewrite IH, renameFirst_meals.
Qed.

Lemma withName_same s : withName (name s) s = s.
Proof. by destruct s. Qed.

Lemma renameFirst_lookup ps kept i k :
  NoDup (map id kept) → kept !! i = Some k →
  renameFirst ps kept !! i
  = Some (if decide (id k = id ps) then withName (name ps) k else k).
Proof.
  intros Hnd Hi. unfold renameFirst.
  destruct (list_find _ kept) as [[idx ns]|] eqn:Hf.
  - apply list_find_Some in Hf as (Hidx & Hid & _).
    destruct (decide (i = idx)) as [->|Hne].
    + rewrite Hidx in Hi. injection Hi as ->.
      rewrite list_lookup_insert_eq by (by eapply lookup_lt_Some).
      by rewrite decide_True.
    + rewrite list_lookup_insert_ne by done. rewrite Hi.
      rewrite decide_False; [done|]. intros Heq. apply Hne.
      apply (NoDup_lookup (map id kept) i idx (id k)); [done|..].
      * change (map id kept) with (id <$> kept). by rewrite list_lookup_fmap, Hi.
      * change (map id kept) with (id <$> kept).
        rewrite list_lookup_fmap, Hidx. simpl. congruence.
  - rewrite Hi. rewrite decide_False; [done|]. intros Heq.
    apply list_find_None in Hf. rewrite Forall_forall in Hf.
    apply (Hf k); [|done]. by eapply list_elem_of_lookup_2.
Qed.

Lemma foldl_renameFirst_names prevStudents : ∀ kept i k,
  NoDup (map id kept) → NoDup (map id prevStudents) → kept !! i = Some k →
  ∃ n, foldl (λ k ps, renameFirst ps k) kept prevStudents !! i = Some (withName n k)
       ∧ (∀ ps, ps ∈ prevStudents → id ps = id k → n = name ps)
       ∧ ((∀ ps, ps ∈ prevStudents → id ps ≠ id k) → n = name k).
Proof.
  induction prevStudents as [|p l IH]; intros kept i k Hk Hp Hi.
  { exists (name k). simpl. rewrite withName_same.
    split; [done|]. split; [|done]. intros ps Hps. by apply elem_of_nil in Hps. }
  simpl in Hp. apply NoDup_cons in Hp as [Hpl Hl].
  pose proof (renameFirst_lookup p kept i k Hk Hi) as Hstep.
  destruct (IH (renameFirst p kept) i _
              ltac:(by rewrite renameFirst_ids) Hl Hstep) as (n & Hn & Hin & Hout).
  exists n. simpl. split.
  { rewrite Hn. by destruct (decide (id k = id p)). }
  split.
  - intros ps [->|Hps]%elem_of_cons Hid.
    + rewrite decide_True in Hout, Hn by done. simpl in Hout.
      apply Hout. intros ps' Hps' Heq. apply Hpl.
      rewrite Hid, <- Heq. apply list_elem_of_fmap. eauto.
    + apply Hin; [done|].
      destruct (decide (id k = id p)) as [Heq|]; [|done].
      exfalso. apply Hpl. rewrite <- Heq, <- Hid. apply list_elem_of_fmap. eauto.
  - intros Hnone.
    assert (Hne : id k ≠ id p).
    { intros Heq. apply (Hnone p); [by left|done]. }
    rewrite decide_False in Hout by done.
    apply Hout. intros ps Hps. apply Hnone. by right.
Qed.

(** One step of the renaming at a position: the student there keeps its
    id and its meals, and takes the name of [ps] exactly when it is the
    first of the roster to carry the id of [ps]. *)
Lemma renameFirst_at ps (kept : list Student) i k :
  kept !! i = Some k →
  ∃ k', renameFirst ps kept !! i = Some k'
        ∧ id k' = id k ∧ meals k' = meals k
        ∧ name k' = if decide (id k = id ps ∧ id k ∉ map id (take i kept))
                    then name ps else name k.
Proof.
  intros Hi. unfold renameFirst.
  destruct (list_find _ kept) as [[idx ns]|] eqn:Hf.
  - apply list_find_Some in Hf as (Hidx & Hid & Hfirst).
    destruct (decide (i = idx)) as [->|Hne].
    + rewrite Hidx in Hi. injection Hi as ->.
      rewrite list_lookup_insert_eq by (by eapply lookup_lt_Some).
      eexists. split; [done|]. split; [done|]. split; [done|].
      rewrite decide_True; [done|]. split; [done|].
      intros (y & Hy & Hin)%list_elem_of_fmap.
      apply elem_of_take in Hin as (j & Hj & Hlt).
      apply (Hfirst j y Hj Hlt). congruence.
    + rewrite list_lookup_insert_ne by done.
      exists k. split; [done|]. split; [done|]. split; [done|].
      rewrite decide_False; [done|]. intros [Heq Hnin].
      destruct (decide (i < idx)%nat) as [Hlt|Hge].
      * by apply (Hfirst i k Hi Hlt).
      * apply Hnin. apply list_elem_of_fmap. exists ns. split; [congruence|].
        apply elem_of_take. exists idx. split; [done|lia].
  - exists k. split; [done|]. split; [done|]. split; [done|].
    rewrite decide_False; [done|]. intros [Heq _].
    apply list_find_None in Hf. rewrite Forall_forall in Hf.
    apply (Hf k); [|done]. by eapply list_elem_of_lookup_2.
Qed.

(** The whole renaming at a position: the first student of the roster
    with a given id ends with the name of the last prior student of that
    id, every other student with its own name. *)
Lemma foldl_renameFirst_at prevStudents : ∀ (kept : list Student) i k,
  kept !! i = Some k →
  ∃ k', foldl (λ k ps, renameFirst ps k) kept prevStudents !! i = Some k'
        ∧ id k' = id k ∧ meals k' = meals k
        ∧ name k' = if decide (id k ∈ map id (take i kept)) then name k
                    else default (name k)
                           (name <$> last (filter (λ ps, id ps = id k) prevStudents)).
Proof.
  induction prevStudents as [|p l IH]; intros kept i k Hi.
  { exists k. simpl. split; [done|]. split; [done|]. split; [done|]. by case_decide. }
  destruct (renameFirst_at p kept i k Hi) as (k1 & Hk1 & Hid1 & Hm1 & Hn1).
  destruct (IH (renameFirst p kept) i k1 Hk1) as (k' & Hk' & Hid & Hm & Hn).
  exists k'. simpl. split; [done|]. split; [congruence|]. split; [congruence|].
  assert (Htake : map id (take i (renameFirst p kept)) = map id (take i kept)).
  { change (map id ?x) with (id <$> x). rewrite !fmap_take.
    change (id <$> ?x) with (map id x). by rewrite renameFirst_ids. }
  rewrite Htake, Hid1 in Hn. rewrite Hn.
  destruct (decide (id k ∈ map id (take i kept))) as [Hin|Hnin].
  { rewrite Hn1. rewrite decide_False; [done|]. by intros [_ ?]. }
  rewrite filter_cons. destruct (decide (id p = id k)) as [Hp|Hp].
  - rewrite Hn1, decide_True by done. rewrite last_cons.
    by destruct (last (filter _ l)).
  - rewrite Hn1, decide_False; [done|]. intros [Heq _]. congruence.
Qed.

(** C2: the explicit sync. Without a prior ledger (or without a roster in
    it) the state is returned as it was, under the message of its own.
    Otherwise the new roster is the old one followed by the new
    students. Position by position, the old part has the ids and the
    meals of the roster; the new students are the prior students whose id
    the roster did not know, in their order, with their ids and names and
    with empty meals. The name at a position of the old part is that of
    the last prior student with the id of the student there, when the
    roster has no earlier student with that id, and the name it had
    otherwise; so, ids being unique on both sides, a student has the name
    of the prior student with its id, and keeps its name when there is
    none. *)
Theorem sync_from_previous_month (db : list Sheet.t) (st : AppState) (uid : string) :
  user st = Some uid →
  match selectLatestBefore db uid (month st) (year st) ≫= Sheet.students with
  | None =>
      syncFromPreviousMonth true db st = (st, Some SYNC_NOT_FOUND)
      ∧ SYNC_NOT_FOUND ≠ SYNC_DONE
  | Some prevStudents =>
      ∃ kept added,
        syncFromPreviousMonth true db st = (withRoster (kept ++ added) st, Some SYNC_DONE)
        ∧ Forall2 (λ cs k, id k = id cs ∧ meals k = meals cs) (students st) kept
        ∧ Forall2 (λ ps a, id a = id ps ∧ name a = name ps ∧ meals a = ∅)
                  (filter (λ ps, id ps ∉ map id (students st)) prevStudents) added
        ∧ (∀ i cs k, students st !! i = Some cs → kept !! i = Some k →
             name k
             = if decide (id cs ∈ map id (take i (students st))) then name cs
               else default (name cs)
                      (name <$> last (filter (λ ps, id ps = id cs) prevStudents)))
        ∧ (NoDup (map id (students st)) → NoDup (map id prevStudents) →
           ∀ i cs k, students st !! i = Some cs → kept !! i = Some k →
             (∀ ps, ps ∈ prevStudents → id ps = id cs → name k = name ps)
             ∧ ((∀ ps, ps ∈ prevStudents → id ps ≠ id cs) → name k = name cs))
  end.
Proof.
  intros Huser. unfold syncFromPreviousMonth. rewrite Huser. simpl negb. cbv iota.
  destruct (selectLatestBefore db uid (month st) (year st)) as [latestData|]; simpl;
    [destruct (Sheet.students latestData) as [prevStudents|]; simpl|].
  - exists (foldl (λ k ps, renameFirst ps k) (students st) prevStudents),
           (map (withMeals ∅) (newcomers (students st) prevStudents)).
    split; [|split; [|split; [|split]]].
    + unfold withRoster, setStudents. simpl. by rewrite syncStudents_app.
    + apply Forall2_same_length_lookup_2.
      { rewrite <- (length_map id (foldl _ _ _)), foldl_renameFirst_ids.
        by rewrite length_map. }
      intros i cs k Hi Hk.
      destruct (foldl_renameFirst_at prevStudents _ i cs Hi) as (k' & Hk' & ? & ? & _).
      by simplify_eq.
    + change (map ?f ?l) with (f <$> l).
      apply Forall2_fmap_r, Forall_Forall2_diag, Forall_forall. by intros ps _.
    + intros i cs k Hi Hk.
      destruct (foldl_renameFirst_at prevStudents _ i cs Hi) as (k' & Hk' & _ & _ & Hn).
      by simplify_eq.
    + intros Hcur Hprev i cs k Hi Hk.
      destruct (foldl_renameFirst_names prevStudents _ i cs Hcur Hprev Hi)
        as (n & Hn & Hin & Hout).
      rewrite Hk in Hn. injection Hn as ->. simpl. split; [exact Hin|exact Hout].
  - split; [done|]. by vm_compute.
  - split; [done|]. by vm_compute.
Qed.

Lemma sync_from_previous_month_witness :
  students (syncFromPreviousMonth true [aprilSheet] (sampleState [linh])).1
  = [mkStudent "a" "Linh Nguyen" {[1 := Meal.mk true false false]};
     mkStudent "b" "Mai" ∅].
Proof.
  pose proof (sync_from_previous_month [aprilSheet] (sampleState [linh]) "u1" eq_refl) as H.
  change (selectLatestBefore [aprilSheet] "u1" (month (sampleState [linh]))
            (year (sampleState [linh])) ≫= Sheet.students) with (Some prevSample) in H.
  cbv beta iota in H.
  destruct H as (kept & added & -> & Hkept & Hadded & Hname & Hunique).
  assert (Hcur : NoDup (map id (students (sampleState [linh])))).
  { simpl. apply NoDup_singleton. }
  assert (Hprev : NoDup (map id prevSample)).
  { refine (bool_decide_unpack _ _). vm_compute. exact I. }
  pose proof (Hunique Hcur Hprev) as Hrule.
  change (students (sampleState [linh])) with [linh] in Hkept, Hname, Hrule.
  change (filter _ prevSample)
    with [mkStudent "b" "Mai" {[2 := Meal.mk true true false]}] in Hadded.
  apply Forall2_cons_inv_l in Hkept as (k & kept' & [Hid Hmeals] & Hnil & ->).
  apply Forall2_nil_inv_l in Hnil as ->.
  apply Forall2_cons_inv_l in Hadded as (a & added' & (Haid & Haname & Hameals) & Hnil & ->).
  apply Forall2_nil_inv_l in Hnil as ->.
  pose proof (Hname 0%nat linh k eq_refl eq_refl) as Hn.
  change (name k = "Linh Nguyen"%string) in Hn.
  destruct (Hrule 0%nat linh k eq_refl eq_refl) as [Hprior _].
  pose proof (Hprior (mkStudent "a" "Linh Nguyen" {[2 := Meal.mk true true true]})
                ltac:(by left) eq_refl) as Hn'.
  clear Hunique Hrule Hprior Hname Hn.
  destruct k, a. simpl in *. by subst.
Defined.

Example syncStudents_example :
  syncStudents prevSample [linh]
  = [mkStudent "a" "Linh Nguyen" {[1 := Meal.mk true false false]};
     mkStudent "b" "Mai" ∅].
Proof. reflexivity. Qed.

(** ** Order of the roster *)

Lemma map_keeps_ids (f : Student → Student) (l : list Student) :
  (∀ s, id (f s) = id s) → map id (map f l) = map id l.
Proof. intros Hf. rewrite map_map. apply map_ext. exact Hf. Qed.

Lemma imap_keeps_ids (f : nat → Student → Student) (l : list Student) :
  (∀ i s, id (f i s) = id s) → map id (imap f l) = map id l.
Proof.
  intros Hf. change (map id ?x) with (id <$> x). rewrite fmap_imap.
  revert f Hf. induction l as [|s l IH]; intros f Hf; [done|].
  simpl. rewrite Hf. f_equal. apply IH. intros i s'. apply Hf.
Qed.

Lemma syncStudents_ids prevStudents cur :
  take (length cur) (map id (syncStudents prevStudents cur)) = map id cur.
Proof.
  rewrite syncStudents_app, map_app, foldl_renameFirst_ids.
  rewrite take_app_le by (by rewrite length_map).
  apply firstn_all2. by rewrite length_map.
Qed.

(** C8: every bulk edit keeps the roster in its order. After a toggle, a
    row paste, a paste to all, a column fill, clear or paste, a day or
    month clear, the automatic fill or a rename, the sequence of ids is the
    one before (student i is still student i); after the explicit sync the
    ids of the old roster are the first ids of the new one, in place. *)
Theorem roster_order_kept (st : AppState) :
  (∀ sid day meal, map id (students (toggleMeal sid day meal st)) = map id (students st))
  ∧ (∀ sid, map id (students (pasteMeals sid st)) = map id (students st))
  ∧ (∀ confirmed, map id (students (pasteToAll confirmed st)) = map id (students st))
  ∧ (∀ day meal, map id (students (fillColumn day meal st)) = map id (students st))
  ∧ (∀ day meal, map id (students (clearColumn day meal st)) = map id (students st))
  ∧ (∀ day meal, map id (students (pasteColumn day meal st)) = map id (students st))
  ∧ (∀ confirmed day, map id (students (clearDay confirmed day st)) = map id (students st))
  ∧ (∀ confirmed, map id (students (clearMonth confirmed st)) = map id (students st))
  ∧ (∀ confirmed, map id (students (autoFillMeals confirmed st)) = map id (students st))
  ∧ (∀ sid newName,
       map id (students (updateStudentName sid newName st)) = map id (students st))
  ∧ (∀ confirmed db,
       take (length (students st))
            (map id (students (syncFromPreviousMonth confirmed db st).1))
       = map id (students st)).
Proof.
  repeat split.
  - intros sid day meal. apply map_keeps_ids. intros s. by case_decide.
  - intros sid. unfold pasteMeals. destruct (clipboard st); [|done].
    apply map_keeps_ids. intros s. by case_decide.
  - intros confirmed. unfold pasteToAll.
    destruct (clipboard st); [|done]. destruct confirmed; [|done].
    by apply map_keeps_ids.
  - intros day meal. by apply map_keeps_ids.
  - intros day meal. by apply map_keeps_ids.
  - intros day meal. unfold pasteColumn. destruct (columnClipboard st); [|done].
    by apply imap_keeps_ids.
  - intros [] day; [|done]. by apply map_keeps_ids.
  - intros []; [|done]. by apply map_keeps_ids.
  - intros []; [|done]. by apply map_keeps_ids.
  - intros sid newName. apply map_keeps_ids. intros s. by case_decide.
  - intros confirmed db.
    assert (Hsame : take (length (students st)) (map id (students st)) = map id (students st)).
    { apply firstn_all2. by rewrite length_map. }
    unfold syncFromPreviousMonth.
    destruct (user st); [|done]. destruct confirmed; simpl; [|done].
    destruct (selectLatestBefore _ _ _ _) as [latestData|]; [|done].
    destruct (Sheet.students latestData) as [prevStudents|]; [|done].
    apply syncStudents_ids.
Qed.

(** ** Automatic fill by weekday *)

Lemma filledEntry_idem dow old : filledEntry dow (filledEntry dow old) = filledEntry dow old.
Proof. unfold filledEntry. by repeat case_decide. Qed.

(** One turn of the loop writes the entry of its own day and no other. *)
Lemma autoFillDay_lookup mo y (m : MealData) (day d : Z) :
  autoFillDay mo y m day !! d =
  if decide (d = day) then filledEntry (getDayOfWeek day mo y) (m !! day) else m !! d.
Proof.
  unfold autoFillDay, filledEntry.
  destruct (decide (_ ∨ _)) as [Hweekend|Hweek].
  { case_decide; by subst. }
  destruct (decide (getDayOfWeek day mo y = Some "6"%string)).
  - destruct (decide (d = day)) as [->|Hd].
    + rewrite lookup_insert_eq. by destruct (m !! day) as [[]|].
    + by rewrite lookup_insert_ne.
  - destruct (decide (d = day)) as [->|Hd].
    + rewrite lookup_insert_eq. by destruct (m !! day) as [[]|].
    + by rewrite lookup_insert_ne.
Qed.

Lemma foldl_autoFillDay_lookup mo y (days : list Z) : ∀ (m : MealData) (d : Z),
  foldl (autoFillDay mo y) m days !! d =
  if decide (d ∈ days) then filledEntry (getDayOfWeek d mo y) (m !! d) else m !! d.
Proof.
  induction days as [|day days IH]; intros m d.
  { destruct (decide (d ∈ [])) as [H|]; [by apply elem_of_nil in H|done]. }
  change (foldl ?f m (day :: days)) with (foldl f (f m day) days).
  rewrite IH, autoFillDay_lookup.
  destruct (decide (d = day)) as [->|Hne].
  - rewrite (decide_True (P := day ∈ day :: days)) by left.
    case_decide; [|done]. apply filledEntry_idem.
  - destruct (decide (d ∈ days)) as [Hin|Hnin].
    + rewrite decide_True; [done|]. by right.
    + rewrite decide_False; [done|]. by intros [?|?]%elem_of_cons.
Qed.

Lemma autoFillStudent_lookup mo y dim s d :
  meals (autoFillStudent mo y dim s) !! d =
  if decide (1 ≤ d ≤ dim) then filledEntry (getDayOfWeek d mo y) (meals s !! d)
  else meals s !! d.
Proof.
  unfold autoFillStudent. simpl. rewrite foldl_autoFillDay_lookup.
  destruct (decide (1 ≤ d ≤ dim)) as [Hd|Hd].
  - rewrite decide_True; [done|]. apply elem_of_seqZ. lia.
  - rewrite decide_False; [done|]. rewrite elem_of_seqZ. lia.
Qed.

(** C3: the automatic fill. Student i stays student i, with its id and
    name; on every day from 1 to the number of days of the month, a
    Saturday (label 7) or a Sunday (label CN) keeps the entry it had, or
    the absence of one; a Friday (label 6) gets S and T1 true and T2
    false; every other day gets the three meals true, whatever was marked
    there before. Days outside the month are not touched. *)
Theorem autoFillMeals_by_weekday (st : AppState) (i : nat) (s : Student) :
  students st !! i = Some s →
  ∃ s', students (autoFillMeals true st) !! i = Some s'
    ∧ id s' = id s ∧ name s' = name s
    ∧ (∀ day, 1 ≤ day ≤ daysInMonth st →
         let dow := getDayOfWeek day (month st) (year st) in
         if decide (dow = Some "7"%string ∨ dow = Some "CN"%string)
         then meals s' !! day = meals s !! day
         else if decide (dow = Some "6"%string)
         then meals s' !! day = Some (Meal.mk true true false)
         else meals s' !! day = Some (Meal.mk true true true))
    ∧ (∀ day, ¬ (1 ≤ day ≤ daysInMonth st) → meals s' !! day = meals s !! day).
Proof.
  intros Hi. exists (autoFillStudent (month st) (year st) (daysInMonth st) s).
  split.
  { unfold autoFillMeals. rewrite students_setStudents.
    change (map ?f ?l) with (f <$> l). by rewrite list_lookup_fmap, Hi. }
  split; [done|]. split; [done|]. split.
  - intros day Hday dow.
    pose proof (autoFillStudent_lookup (month st) (year st) (daysInMonth st) s day) as Hl.
    rewrite decide_True in Hl by done. rewrite Hl.
    unfold filledEntry. fold dow. by repeat case_decide.
  - intros day Hday. by rewrite autoFillStudent_lookup, decide_False.
Qed.

(** The month of the worked example: in May 2023 day 5 is a Friday, days
    6 and 7 the weekend, day 8 a Monday. *)
Lemma autoFillMeals_by_weekday_witness :
  ∃ s', students (autoFillMeals true (sampleState [linh; mai])) !! 1%nat = Some s'
    ∧ meals s' !! 5 = Some (Meal.mk true true false)
    ∧ meals s' !! 6 = None
    ∧ meals s' !! 7 = None
    ∧ meals s' !! 8 = Some (Meal.mk true true true).
Proof.
  destruct (autoFillMeals_by_weekday (sampleState [linh; mai]) 1%nat mai eq_refl)
    as (s' & Hs' & _ & _ & Hdays & _).
  exists s'. split; [exact Hs'|].
  assert (Hdim : daysInMonth (sampleState [linh; mai]) = 31) by reflexivity.
  split; [|split; [|split]].
  - apply (Hdays 5). rewrite Hdim. lia.
  - apply (Hdays 6). rewrite Hdim. lia.
  - apply (Hdays 7). rewrite Hdim. lia.
  - apply (Hdays 8). rewrite Hdim. lia.
Defined.

(** ** Totals *)

(** The entries of a day mapping whose flag [meal] is true. *)
Lemma countMeals_acc (values : list Meal.t) : ∀ a b c : Z,
  foldl (λ '(sCount, t1Count, t2Count) dayMeals,
           (if Meal.S dayMeals then sCount + 1 else sCount,
            if Meal.T1 dayMeals then t1Count + 1 else t1Count,
            if Meal.T2 dayMeals then t2Count + 1 else t2Count))
        (a, b, c) values
  = (a + Z.of_nat (length (filter (λ dm, Meal.S dm = true) values)),
     b + Z.of_nat (length (filter (λ dm, Meal.T1 dm = true) values)),
     c + Z.of_nat (length (filter (λ dm, Meal.T2 dm = true) values))).
Proof.
  induction values as [|dm values IH]; intros a b c.
  { simpl. by rewrite !Z.add_0_r. }
  simpl foldl. rewrite IH. rewrite !filter_cons.
  destruct dm as [[] [] []]; simpl;
    repeat case_decide; try done; simpl length;
    repeat (apply (f_equal2 pair)); lia.
Qed.

Lemma countMeals_filter (values : list Meal.t) :
  countMeals values
  = (Z.of_nat (length (filter (λ dm, Meal.S dm = true) values)),
     Z.of_nat (length (filter (λ dm, Meal.T1 dm = true) values)),
     Z.of_nat (length (filter (λ dm, Meal.T2 dm = true) values))).
Proof. unfold countMeals. by rewrite countMeals_acc. Qed.

Lemma length_filter_values (P : Meal.t → Prop) `{!∀ dm, Decision (P dm)} (m : MealData) :
  length (filter P (map_to_list m).*2) = size (filter (λ kv, P kv.2) m).
Proof.
  induction m as [|d dm m Hd IH] using map_ind.
  { by rewrite map_to_list_empty, map_filter_empty, map_size_empty. }
  rewrite map_to_list_insert by done. rewrite fmap_cons, filter_cons. simpl.
  destruct (decide (P dm)) as [HP|HP].
  - rewrite map_filter_insert_True by done.
    rewrite map_size_insert_None by (by rewrite map_lookup_filter_None; left).
    simpl. by rewrite IH.
  - rewrite map_filter_insert_not' by (simpl; done || by rewrite Hd).
    done.
Qed.

(** The days whose mark is true are the keys of the true entries, however
    many absent days are looked at. *)
Lemma marked_days (s : Student) (meal : MealType.t) (D : gset Z) :
  filter (λ d, mark s d meal = true) (dom (meals s) ∪ D)
  = dom (filter (λ kv : Z * Meal.t, Meal.get meal kv.2 = true) (meals s)).
Proof.
  apply set_eq. intros d.
  rewrite elem_of_filter, elem_of_dom, elem_of_union, elem_of_dom.
  unfold mark. split.
  - intros [Hm _]. destruct (meals s !! d) as [dm|] eqn:Hd; [|done].
    exists dm. by apply map_lookup_filter_Some.
  - intros [dm [Hd HP]%map_lookup_filter_Some]. rewrite Hd. split; [done|]. left. eauto.
Qed.

(** C6: the three counts are the numbers of entries of the student's day
    mapping whose flag is true, which are also the numbers of marked days
    among the days of the mapping and any further days, absent days
    counting for nothing. For quotas of at most 2^52 in absolute value,
    where the subtraction of the source is exact, each unfulfilled count
    is the quota minus the count in the integers, negative when the count
    exceeds the quota. *)
Theorem calculateStudentTotals_counts (standardMeals : Quota.t) (student : Student) :
  let t := calculateStudentTotals standardMeals student in
  let entries meal :=
    size (filter (λ kv : Z * Meal.t, Meal.get meal kv.2 = true) (meals student)) in
  Totals.S t = Z.of_nat (entries MealType.S)
  ∧ Totals.T1 t = Z.of_nat (entries MealType.T1)
  ∧ Totals.T2 t = Z.of_nat (entries MealType.T2)
  ∧ (∀ (meal : MealType.t) (D : gset Z),
       entries meal
       = size (filter (λ d, mark student d meal = true) (dom (meals student) ∪ D)))
  ∧ (safeQuota standardMeals →
     Totals.uS t = Quota.S standardMeals - Totals.S t
     ∧ Totals.uT1 t = Quota.T1 standardMeals - Totals.T1 t
     ∧ Totals.uT2 t = Quota.T2 standardMeals - Totals.T2 t).
Proof.
  cbv zeta. unfold calculateStudentTotals.
  rewrite countMeals_filter. simpl.
  rewrite !length_filter_values.
  split; [done|]. split; [done|]. split; [done|]. split; [|done].
  intros meal D. by rewrite marked_days, size_dom.
Qed.

(** A count above the quota gives a negative remainder: one breakfast
    against a quota of none. *)
Lemma calculateStudentTotals_counts_witness :
  safeQuota (Quota.mk 0 0 0)
  ∧ Totals.uS (calculateStudentTotals (Quota.mk 0 0 0) linh) = 0 - 1.
Proof.
  assert (Hsafe : safeQuota (Quota.mk 0 0 0)) by (unfold safeQuota; simpl; lia).
  split; [exact Hsafe|].
  destruct (calculateStudentTotals_counts (Quota.mk 0 0 0) linh)
    as (HS & _ & _ & _ & Hrest).
  destruct (Hrest Hsafe) as (HuS & _).
  etrans; [exact HuS|]. f_equal.
Defined.

(** The closed form of the totals of one student. *)
Lemma calculateStudentTotals_sizes (standardMeals : Quota.t) (student : Student) :
  let entries meal :=
    Z.of_nat (size (filter (λ kv : Z * Meal.t, Meal.get meal kv.2 = true) (meals student))) in
  calculateStudentTotals standardMeals student
  = Totals.mk (entries MealType.S) (entries MealType.T1) (entries MealType.T2)
              (Quota.S standardMeals - entries MealType.S)
              (Quota.T1 standardMeals - entries MealType.T1)
              (Quota.T2 standardMeals - entries MealType.T2).
Proof.
  cbv zeta. unfold calculateStudentTotals.
  rewrite countMeals_filter. simpl.
  by rewrite !length_filter_values.
Qed.

(** The headcount of a day and meal is the number of students marked. *)
Lemma calculateDayTotals_acc (l : list Student) day meal : ∀ a : Z,
  foldl (λ acc s, acc + (if mark s day meal then 1 else 0)) a l
  = a + Z.of_nat (length (filter (λ s, mark s day meal = true) l)).
Proof.
  induction l as [|s l IH]; intros a; [simpl; lia|].
  simpl foldl. rewrite IH, filter_cons.
  destruct (mark s day meal); case_decide; try done; simpl length; lia.
Qed.

Lemma calculateDayTotals_headcount (l : list Student) day meal :
  calculateDayTotals l day meal
  = Z.of_nat (length (filter (λ s, mark s day meal = true) l)).
Proof. unfold calculateDayTotals. by rewrite calculateDayTotals_acc. Qed.

(** ** Absent days and explicit all-false entries *)

Lemma sameMarks_refl m : sameMarks m m.
Proof. by intros d. Qed.

Lemma sameStudent_refl s : sameStudent s s.
Proof. split; [done|]. split; [done|]. apply sameMarks_refl. Qed.

Lemma sameLedger_refl l : sameLedger l l.
Proof. apply Forall_Forall2_diag, Forall_forall. intros s _. apply sameStudent_refl. Qed.

Lemma sameMarks_explicitFalse D m : sameMarks m (explicitFalse D m).
Proof.
  intros d. unfold explicitFalse. rewrite lookup_union.
  destruct (m !! d) as [dm|] eqn:Hd; simpl.
  - by destruct (gset_to_gmap Meal.none D !! d).
  - destruct (gset_to_gmap Meal.none D !! d) as [x|] eqn:Hx; [|done].
    apply lookup_gset_to_gmap_Some in Hx as [_ <-]. done.
Qed.

Lemma sameLedger_dense D l : sameLedger l (map (dense D) l).
Proof.
  change (map ?f ?x) with (f <$> x).
  apply Forall2_fmap_r, Forall_Forall2_diag, Forall_forall. intros s _.
  split; [done|]. split; [done|]. apply sameMarks_explicitFalse.
Qed.

Lemma sameStudent_currentMeals s1 s2 d :
  sameStudent s1 s2 → currentMeals s1 d = currentMeals s2 d.
Proof. intros (_ & _ & Hm). apply Hm. Qed.

Lemma sameStudent_mark s1 s2 d meal : sameStudent s1 s2 → mark s1 d meal = mark s2 d meal.
Proof.
  intros H. rewrite <- !mark_currentMeals. by rewrite (sameStudent_currentMeals s1 s2).
Qed.

Lemma sameMarks_true_entries (m1 m2 : MealData) meal :
  sameMarks m1 m2 →
  filter (λ kv : Z * Meal.t, Meal.get meal kv.2 = true) m1
  = filter (λ kv : Z * Meal.t, Meal.get meal kv.2 = true) m2.
Proof.
  intros Hm.
  assert (Hone : ∀ (a b : MealData) d x, sameMarks a b →
            Meal.get meal x = true → a !! d = Some x → b !! d = Some x).
  { intros a b d x Hab Hx Ha. specialize (Hab d). rewrite Ha in Hab. simpl in Hab.
    destruct (b !! d) as [y|]; simpl in Hab; [by subst|].
    subst x. by destruct meal. }
  apply map_filter_strong_ext_1. intros d x. simpl. split.
  - intros [Hx H1]. split; [done|]. by apply (Hone m1 m2).
  - intros [Hx H2]. split; [done|]. apply (Hone m2 m1); [|done..].
    intros d'. symmetry. apply Hm.
Qed.

Lemma sameStudent_totals q s1 s2 :
  sameStudent s1 s2 → calculateStudentTotals q s1 = calculateStudentTotals q s2.
Proof.
  intros (_ & _ & Hm). rewrite !calculateStudentTotals_sizes. cbv zeta.
  by rewrite !(sameMarks_true_entries (meals s1) (meals s2)).
Qed.

Lemma sameLedger_dayTotals l1 l2 day meal :
  sameLedger l1 l2 → calculateDayTotals l1 day meal = calculateDayTotals l2 day meal.
Proof.
  intros H. rewrite !calculateDayTotals_headcount. f_equal.
  induction H as [|s1 s2 l1 l2 Hs _ IH]; [done|].
  rewrite !filter_cons, (sameStudent_mark s1 s2) by done.
  case_decide; simpl; by rewrite IH.
Qed.

Lemma sameStudent_setMark day meal v s1 s2 :
  sameStudent s1 s2 → sameStudent (setMark day meal v s1) (setMark day meal v s2).
Proof.
  intros H. pose proof H as (Hid & Hname & Hm).
  split; [done|]. split; [done|]. intros d.
  pose proof (currentMeals_setMark s1 day meal v d) as E1.
  pose proof (currentMeals_setMark s2 day meal v d) as E2.
  unfold currentMeals at 1 in E1. unfold currentMeals at 1 in E2.
  rewrite E1, E2. case_decide.
  - by rewrite (sameStudent_currentMeals s1 s2).
  - by apply sameStudent_currentMeals.
Qed.

Lemma sameLedger_map (f g : Student → Student) l1 l2 :
  (∀ s1 s2, sameStudent s1 s2 → sameStudent (f s1) (g s2)) →
  sameLedger l1 l2 → sameLedger (map f l1) (map g l2).
Proof.
  intros Hf H. change (map ?h ?x) with (h <$> x).
  apply Forall2_fmap. eapply Forall2_impl; [exact H|]. exact Hf.
Qed.

Lemma sameLedger_imap (f g : nat → Student → Student) l1 l2 :
  (∀ i s1 s2, sameStudent s1 s2 → sameStudent (f i s1) (g i s2)) →
  sameLedger l1 l2 → sameLedger (imap f l1) (imap g l2).
Proof.
  intros Hf H. revert f g Hf.
  induction H as [|s1 s2 l1 l2 Hs _ IH]; intros f g Hf; [constructor|].
  simpl. constructor; [by apply Hf|]. apply IH. intros i. apply Hf.
Qed.

Lemma sameStudent_clearDay day s1 s2 :
  sameStudent s1 s2 →
  sameStudent (withMeals (delete day (meals s1)) s1) (withMeals (delete day (meals s2)) s2).
Proof.
  intros (Hid & Hname & Hm). split; [done|]. split; [done|]. intros d. simpl.
  rewrite !lookup_delete. case_decide; [done|]. apply Hm.
Qed.

Lemma sameStudent_autoFill mo y dim s1 s2 :
  sameStudent s1 s2 →
  sameStudent (autoFillStudent mo y dim s1) (autoFillStudent mo y dim s2).
Proof.
  intros (Hid & Hname & Hm). split; [done|]. split; [done|]. intros d.
  rewrite !autoFillStudent_lookup. case_decide; [|apply Hm].
  unfold filledEntry. repeat case_decide; done || apply Hm.
Qed.

Lemma imap_same {B} (f g : nat → Student → B) l1 l2 :
  (∀ i s1 s2, sameStudent s1 s2 → f i s1 = g i s2) →
  sameLedger l1 l2 → imap f l1 = imap g l2.
Proof.
  intros Hf H. revert f g Hf.
  induction H as [|s1 s2 l1 l2 Hs _ IH]; intros f g Hf; [done|].
  simpl. f_equal; [by apply Hf|]. apply IH. intros i. apply Hf.
Qed.

Lemma dataRow_same st l2 days isSecondHalf index s1 s2 :
  sameStudent s1 s2 →
  dataRow st days isSecondHalf index s1 = dataRow (withRoster l2 st) days isSecondHalf index s2.
Proof.
  intros H. unfold dataRow.
  change (standardMeals (withRoster l2 st)) with (standardMeals st).
  rewrite (sameStudent_totals _ s1 s2) by done.
  pose proof H as (_ & Hname & _). rewrite Hname.
  f_equal. f_equal. f_equal. apply map_ext. intros d.
  by rewrite !(sameStudent_mark s1 s2).
Qed.

Lemma daysInMonth_withRoster l st : daysInMonth (withRoster l st) = daysInMonth st.
Proof. unfold daysInMonth. by f_equal. Qed.

(** The exported sheet shows the marks, not the way they are stored. *)
Lemma createSheet_same st l2 sheet days isSecondHalf :
  sameLedger (students st) l2 →
  createSheet st sheet days isSecondHalf = createSheet (withRoster l2 st) sheet days isSecondHalf.
Proof.
  intros H. unfold createSheet.
  change (students (withRoster l2 st)) with l2.
  change (className (withRoster l2 st)) with (className st).
  change (month (withRoster l2 st)) with (month st).
  change (year (withRoster l2 st)) with (year st).
  rewrite <- (Forall2_length _ _ _ H).
  rewrite (imap_same (dataRow st days isSecondHalf)
             (dataRow (withRoster l2 st) days isSecondHalf) (students st) l2)
    by (done || intros; by apply dataRow_same).
  assert (Htot : map (λ d,
       [CStr (String_ (calculateDayTotals (students st) d MealType.S));
        CStr (String_ (calculateDayTotals (students st) d MealType.T1));
        CStr (String_ (calculateDayTotals (students st) d MealType.T2))]) days
     = map (λ d,
       [CStr (String_ (calculateDayTotals l2 d MealType.S));
        CStr (String_ (calculateDayTotals l2 d MealType.T1));
        CStr (String_ (calculateDayTotals l2 d MealType.T2))]) days).
  { apply map_ext. intros d. by rewrite !(sameLedger_dayTotals (students st) l2). }
  by rewrite Htot.
Qed.

(** C5: a roster and one that differs from it only in days left out on
    one side and held as all-false on the other cannot be told apart.
    They give every student the same totals and every day and meal the
    same headcount, the export writes the same two sheets and a column
    copy reads the same values; and after a toggle, a column fill, clear
    or paste, a day clear or the automatic fill applied to both, the two
    rosters are again the same up to such days. Making the absent days of
    any set explicit yields such a roster. *)
Theorem sparse_dense_equivalence (st : AppState) (l2 : list Student) :
  sameLedger (students st) l2 →
  let st2 := withRoster l2 st in
  Forall2 (λ s1 s2, calculateStudentTotals (standardMeals st) s1
                    = calculateStudentTotals (standardMeals st2) s2) (students st) l2
  ∧ (∀ day meal, calculateDayTotals (students st) day meal
                 = calculateDayTotals (students st2) day meal)
  ∧ handleExportExcel st = handleExportExcel st2
  ∧ (∀ day meal, columnClipboard (copyColumn day meal st)
                 = columnClipboard (copyColumn day meal st2))
  ∧ (∀ sid day meal, sameLedger (students (toggleMeal sid day meal st))
                                (students (toggleMeal sid day meal st2)))
  ∧ (∀ day meal, sameLedger (students (fillColumn day meal st))
                            (students (fillColumn day meal st2)))
  ∧ (∀ day meal, sameLedger (students (clearColumn day meal st))
                            (students (clearColumn day meal st2)))
  ∧ (∀ day meal, sameLedger (students (pasteColumn day meal st))
                            (students (pasteColumn day meal st2)))
  ∧ (∀ confirmed day, sameLedger (students (clearDay confirmed day st))
                                 (students (clearDay confirmed day st2)))
  ∧ (∀ confirmed, sameLedger (students (autoFillMeals confirmed st))
                             (students (autoFillMeals confirmed st2)))
  ∧ (∀ D : gset Z, sameLedger (students st) (map (dense D) (students st))).
Proof.
  intros H st2. subst st2.
  split; [|split; [|split; [|split; [|split; [|split; [|split; [|split; [|split; [|split]]]]]]]]].
  - eapply Forall2_impl; [exact H|]. intros s1 s2 Hs. by apply sameStudent_totals.
  - intros day meal. by apply sameLedger_dayTotals.
  - unfold handleExportExcel, secondHalfDays.
    rewrite daysInMonth_withRoster. by rewrite <- !createSheet_same.
  - intros day meal. simpl. f_equal.
    induction H as [|s1 s2 l1 l2 Hs _ IH]; [done|].
    simpl. by rewrite IH, (sameStudent_mark s1 s2).
  - intros sid day meal. rewrite !toggleMeal_students. apply sameLedger_map; [|done].
    intros s1 s2 Hs. pose proof Hs as (Hid & _ & _). rewrite <- Hid.
    case_decide; [done|]. rewrite (sameStudent_mark s1 s2) by done.
    by apply sameStudent_setMark.
  - intros day meal. apply sameLedger_map; [|done].
    intros s1 s2. apply sameStudent_setMark.
  - intros day meal. apply sameLedger_map; [|done].
    intros s1 s2. apply sameStudent_setMark.
  - intros day meal. unfold pasteColumn.
    change (columnClipboard (withRoster l2 st)) with (columnClipboard st).
    destruct (columnClipboard st) as [values|]; [|done].
    apply sameLedger_imap; [|done]. intros i s1 s2. apply sameStudent_setMark.
  - intros [] day; [|done]. apply sameLedger_map; [|done].
    intros s1 s2. apply sameStudent_clearDay.
  - intros []; [|done]. unfold autoFillMeals.
    rewrite !students_setStudents, daysInMonth_withRoster.
    apply sameLedger_map; [|done].
    intros s1 s2. exact (sameStudent_autoFill (month st) (year st) (daysInMonth st) s1 s2).
  - intros D. apply sameLedger_dense.
Qed.

(** Linh with the days 2 and 3 held as all-false, Mai with day 1. *)
Lemma sparse_dense_equivalence_witness :
  calculateDayTotals [linh; mai] 1 MealType.S
  = calculateDayTotals (map (dense {[1; 2; 3]}) [linh; mai]) 1 MealType.S
  ∧ handleExportExcel (sampleState [linh; mai])
    = handleExportExcel (sampleState (map (dense {[1; 2; 3]}) [linh; mai])).
Proof.
  destruct (sparse_dense_equivalence (sampleState [linh; mai])
              (map (dense {[1; 2; 3]}) [linh; mai])
              (sameLedger_dense {[1; 2; 3]} [linh; mai]))
    as (_ & Hday & Hexport & _).
  split; [exact (Hday 1 MealType.S) | exact Hexport].
Defined.

(** ** Column clipboard *)

(** What a column copy followed by a paste into the same column does to
    one student: the entry of the day is written back as it reads. *)
Lemma copy_paste_column_students st day meal :
  students (pasteColumn day meal (copyColumn day meal st))
  = map (λ s, withMeals (<[day := currentMeals s day]> (meals s)) s) (students st).
Proof.
  unfold pasteColumn, copyColumn. simpl.
  change (map ?f ?l) with (f <$> l).
  rewrite <- (imap_const (λ s, withMeals (<[day := currentMeals s day]> (meals s)) s)).
  apply imap_ext. intros i s Hi. simpl.
  rewrite list_lookup_fmap, Hi. simpl.
  unfold setMark. by rewrite <- mark_currentMeals, set_get.
Qed.

(** The claim of C7 read on the stored roster fails: a student without an
    entry for the day comes back with an explicit all-false entry. *)
Lemma copy_paste_column_not_identity :
  students (pasteColumn 1 MealType.S (copyColumn 1 MealType.S (sampleState [mai])))
  = [mkStudent "b" "Mai" {[1 := Meal.mk false false false]}]
  ∧ students (pasteColumn 1 MealType.S (copyColumn 1 MealType.S (sampleState [mai])))
    ≠ students (sampleState [mai]).
Proof.
  split; [reflexivity|].
  intros H. apply (f_equal (λ l, l !! 0%nat ≫= λ s, meals s !! 1)) in H.
  vm_compute in H. discriminate H.
Qed.

(** C7, amended: a column copy followed by the paste into the same column
    leaves the roster the same to every observation: ids, names, order and
    the truth value of every mark. In storage, each student gets the entry
    of that day written back as it reads: a student who had an entry is
    unchanged, a student who had none gets an explicit all-false one. When
    every student has an entry for the day the roster is the one before. *)
Theorem copy_paste_column_roundtrip (st : AppState) (day : Z) (meal : MealType.t) :
  let st' := pasteColumn day meal (copyColumn day meal st) in
  sameLedger (students st) (students st')
  ∧ (∀ d m, map (λ s, mark s d m) (students st') = map (λ s, mark s d m) (students st))
  ∧ students st'
    = map (λ s, withMeals (<[day := currentMeals s day]> (meals s)) s) (students st)
  ∧ ((∀ s, s ∈ students st → is_Some (meals s !! day)) → students st' = students st).
Proof.
  cbv zeta. rewrite copy_paste_column_students.
  assert (Hsame : ∀ s, sameStudent s (withMeals (<[day := currentMeals s day]> (meals s)) s)).
  { intros s. split; [done|]. split; [done|]. intros d. simpl.
    destruct (decide (d = day)) as [->|Hd].
    - by rewrite lookup_insert_eq.
    - by rewrite lookup_insert_ne. }
  split; [|split; [|split; [done|]]].
  - change (map ?f ?l) with (f <$> l).
    apply Forall2_fmap_r, Forall_Forall2_diag, Forall_forall. intros s _. apply Hsame.
  - intros d m. rewrite map_map. apply map_ext. intros s.
    symmetry. apply sameStudent_mark, Hsame.
  - intros Hall. apply map_fixed. intros s Hs.
    destruct (Hall s Hs) as [dm Hdm]. unfold currentMeals. rewrite Hdm. simpl.
    rewrite insert_id by done. by destruct s.
Qed.

Lemma copy_paste_column_roundtrip_witness :
  students (pasteColumn 1 MealType.S (copyColumn 1 MealType.S (sampleState [linh])))
  = students (sampleState [linh]).
Proof.
  destruct (copy_paste_column_roundtrip (sampleState [linh]) 1 MealType.S)
    as (_ & _ & _ & Hall).
  apply Hall. intros s Hs. simpl in Hs.
  assert (s = linh) as ->.
  { repeat (apply elem_of_cons in Hs as [Hs|Hs]; [exact Hs|]). by apply elem_of_nil in Hs. }
  by eexists.
Defined.

(** ** Layout of the exported sheets *)

(** Lookup in a row made of one triple of cells per day. *)
Lemma lookup_triples {A B} (f : A → list B) (l : list A) : ∀ (i j : nat) (x : A),
  (∀ a, length (f a) = 3%nat) → l !! i = Some x → (j < 3)%nat →
  concat (map f l) !! (3 * i + j)%nat = f x !! j.
Proof.
  induction l as [|a l IH]; intros i j x Hlen Hi Hj; [done|].
  destruct i as [|i]; simpl in Hi.
  - injection Hi as ->. simpl. apply lookup_app_l. rewrite Hlen. lia.
  - simpl concat. rewrite lookup_app_r by (rewrite Hlen; lia).
    rewrite Hlen. replace (3 * S i + j - 3)%nat with (3 * i + j)%nat by lia.
    by apply IH.
Qed.

Lemma length_triples {A B} (f : A → list B) (l : list A) :
  (∀ a, length (f a) = 3%nat) → length (concat (map f l)) = (3 * length l)%nat.
Proof.
  intros Hlen. induction l as [|a l IH]; [done|].
  simpl. rewrite length_app, Hlen, IH. lia.
Qed.

(** The totals row holds, under the three columns of each day, the three
    headcounts of that day, printed. *)
Lemma totalRow_lookup st sheet days isSecondHalf (i : nat) (d : Z) (j : nat) meal :
  days !! i = Some d → MealType.all !! j = Some meal →
  totalRowValues (createSheet st sheet days isSecondHalf) !! (2 + 3 * i + j)%nat
  = Some (CStr (String_ (calculateDayTotals (students st) d meal))).
Proof.
  intros Hi Hj. unfold createSheet. simpl totalRowValues.
  assert (Hj3 : (j < 3)%nat) by (apply lookup_lt_Some in Hj; simpl in Hj; lia).
  replace (2 + 3 * i + j)%nat with (S (S (3 * i + j))) by lia.
  simpl. rewrite lookup_app_l.
  2: { rewrite length_triples by done. apply lookup_lt_Some in Hi. lia. }
  rewrite (lookup_triples _ days i j d) by done.
  destruct j as [|[|[|j]]]; simpl in Hj; by simplify_eq.
Qed.

(** C9: in a month of 30 days, whatever the roster, the first sheet has
    2 + 16 * 3 = 50 columns for the days 1 to 16 and the second sheet has
    2 + 14 * 3 + 6 = 50 columns for the days 17 to 30 and the six summary
    columns; the header rows and the totals row are as wide, and so is
    every student row; on both sheets the totals row holds under the day
    d, for each meal, the printed value of [calculateDayTotals], which is
    the number of students whose mark for that day and meal is true. *)
Theorem export_layout_30_days (st : AppState) :
  daysInMonth st = 30 →
  let pageA := (handleExportExcel st).1 in
  let pageB := (handleExportExcel st).2 in
  (∀ d, (d ∈ firstHalfDays ↔ 1 ≤ d ≤ 16) ∧ (d ∈ secondHalfDays st ↔ 17 ≤ d ≤ 30))
  ∧ (length (cols pageA) = 50%nat ∧ lastCol pageA = 2 + 16 * 3
     ∧ length (headerRow2Values pageA) = 50%nat
     ∧ length (headerRow3Values pageA) = 50%nat
     ∧ length (row4Vals pageA) = 50%nat
     ∧ length (totalRowValues pageA) = 50%nat
     ∧ Forall (λ row : list Cell, length row = 50%nat) (dataRows pageA))
  ∧ (length (cols pageB) = 50%nat ∧ lastCol pageB = 2 + 14 * 3 + 6
     ∧ length (headerRow2Values pageB) = 50%nat
     ∧ length (headerRow3Values pageB) = 50%nat
     ∧ length (row4Vals pageB) = 50%nat
     ∧ length (totalRowValues pageB) = 50%nat
     ∧ Forall (λ row : list Cell, length row = 50%nat) (dataRows pageB))
  ∧ (length (dataRows pageA) = length (students st)
     ∧ length (dataRows pageB) = length (students st))
  ∧ (∀ (i : nat) d (j : nat) meal,
       firstHalfDays !! i = Some d → MealType.all !! j = Some meal →
       totalRowValues pageA !! (2 + 3 * i + j)%nat
       = Some (CStr (String_ (calculateDayTotals (students st) d meal))))
  ∧ (∀ (i : nat) d (j : nat) meal,
       secondHalfDays st !! i = Some d → MealType.all !! j = Some meal →
       totalRowValues pageB !! (2 + 3 * i + j)%nat
       = Some (CStr (String_ (calculateDayTotals (students st) d meal))))
  ∧ (∀ d meal, calculateDayTotals (students st) d meal
               = Z.of_nat (length (filter (λ s, mark s d meal = true) (students st)))).
Proof.
  intros Hdim. unfold handleExportExcel. cbv zeta. simpl fst. simpl snd.
  assert (Hsecond : secondHalfDays st = seqZ 17 14).
  { unfold secondHalfDays. by rewrite Hdim. }
  split.
  { intros d. rewrite Hsecond. unfold firstHalfDays. rewrite !elem_of_seqZ. lia. }
  assert (Hrows : ∀ (days : list Z) (b : bool) (n : nat),
            length days = n →
            Forall (λ row : list Cell, length row = (2 + 3 * n + (if b : bool then 6 else 0))%nat)
                   (imap (dataRow st days b) (students st))).
  { intros days b n Hn. apply Forall_forall. intros row Hrow.
    apply elem_of_lookup_imap in Hrow as (i & s & -> & _).
    unfold dataRow. rewrite !length_app, length_triples by done.
    rewrite Hn. destruct b; simpl; lia. }
  split; [|split; [|split; [|split; [|split]]]].
  - split; [reflexivity|]. split; [reflexivity|]. split; [reflexivity|].
    split; [reflexivity|]. split; [reflexivity|]. split; [reflexivity|].
    apply (Hrows firstHalfDays false 16%nat). reflexivity.
  - rewrite Hsecond.
    split; [reflexivity|]. split; [reflexivity|]. split; [reflexivity|].
    split; [reflexivity|]. split; [reflexivity|]. split; [reflexivity|].
    apply (Hrows (seqZ 17 14) true 14%nat). reflexivity.
  - simpl. by rewrite !length_imap.
  - intros i d j meal. apply totalRow_lookup.
  - intros i d j meal. apply totalRow_lookup.
  - intros d meal. apply calculateDayTotals_headcount.
Qed.

(** June 2023 with a roster of three: day 1 under the columns 3 to 5 of
    the first sheet, day 17 under the same columns of the second. *)
Lemma export_layout_30_days_witness :
  length (cols (handleExportExcel juneState).1) = 50%nat
  ∧ length (cols (handleExportExcel juneState).2) = 50%nat
  ∧ totalRowValues (handleExportExcel juneState).1 !! 2%nat = Some (CStr "2")
  ∧ totalRowValues (handleExportExcel juneState).2 !! 2%nat = Some (CStr "0").
Proof.
  pose proof (export_layout_30_days juneState eq_refl) as H. cbv zeta in H.
  destruct H as (_ & (HA & _) & (HB & _) & _ & HtotA & HtotB & _).
  split; [exact HA|]. split; [exact HB|]. split.
  - exact (HtotA 0%nat 1 0%nat MealType.S eq_refl eq_refl).
  - exact (HtotB 0%nat 17 0%nat MealType.S eq_refl eq_refl).
Defined.

(** ** Rollover on the first opening of a month *)

Lemma laterThan_true a b :
  laterThan a b = true ↔
  Sheet.year b < Sheet.year a ∨ (Sheet.year b = Sheet.year a ∧ Sheet.month b < Sheet.month a).
Proof.
  unfold laterThan.
  rewrite orb_true_iff, andb_true_iff, !Z.ltb_lt, Z.eqb_eq. done.
Qed.

Lemma firstDescending_acc (rows : list Sheet.t) : ∀ (best : option Sheet.t) (r : Sheet.t),
  foldl (λ best r,
           match best with
           | None => Some r
           | Some b => if laterThan r b then Some r else Some b
           end) best rows = Some r →
  (best = Some r ∨ r ∈ rows)
  ∧ (∀ b, best = Some b → laterThan b r = false)
  ∧ (∀ r', r' ∈ rows → laterThan r' r = false).
Proof.
  induction rows as [|x rows IH]; intros best r Hfold.
  { simpl in Hfold. subst best. split; [by left|]. split.
    - intros b [= ->]. apply not_true_is_false. rewrite laterThan_true. lia.
    - intros r' Hr'. by apply elem_of_nil in Hr'. }
  simpl in Hfold. apply IH in Hfold as (Hin & Hbest & Hrest).
  destruct best as [b|].
  - destruct (laterThan x b) eqn:Hxb.
    + split; [right; destruct Hin as [[= ->]|Hin]; [by left|by right]|].
      specialize (Hbest x eq_refl). split.
      * intros b' [= <-]. apply not_true_is_false. intros Hbr.
        apply laterThan_true in Hxb, Hbr.
        apply not_true_iff_false in Hbest. apply Hbest, laterThan_true. lia.
      * intros r' [->|Hr']%elem_of_cons; [done|by apply Hrest].
    + specialize (Hbest b eq_refl). split.
      { destruct Hin as [Hin|Hin]; [by left|right; by right]. }
      split; [by intros b' [= <-]|].
      intros r' [->|Hr']%elem_of_cons; [|by apply Hrest].
      apply not_true_is_false. intros Hxr.
      apply laterThan_true in Hxr.
      apply not_true_iff_false in Hxb, Hbest.
      rewrite laterThan_true in Hxb, Hbest. lia.
  - specialize (Hbest x eq_refl).
    split; [right; destruct Hin as [[= ->]|Hin]; [by left|by right]|].
    split; [done|].
    intros r' [->|Hr']%elem_of_cons; [done|by apply Hrest].
Qed.

(** The prior ledger that the query returns belongs to the owner, lies
    strictly before the month asked for, and no such ledger is later. *)
Lemma selectLatestBefore_most_recent db uid m y prior :
  selectLatestBefore db uid m y = Some prior →
  prior ∈ db ∧ Sheet.user_id prior = uid ∧ strictlyBefore m y prior
  ∧ ∀ r, r ∈ db → Sheet.user_id r = uid → strictlyBefore m y r → laterThan r prior = false.
Proof.
  unfold selectLatestBefore, firstDescending. intros H.
  apply firstDescending_acc in H as ([H|Hin] & _ & Hmax); [done|].
  apply list_elem_of_filter in Hin as [[Hu Hb] Hin].
  split; [done|]. split; [done|]. split; [done|].
  intros r Hr Hru Hrb. apply Hmax. by apply list_elem_of_filter.
Qed.

Lemma orText_copied (text : option string) (fallback : string) :
  (∀ t, text = Some t → t ≠ EmptyString → orText text fallback = t)
  ∧ (text = None ∨ text = Some EmptyString → orText text fallback = fallback).
Proof.
  split.
  - intros t -> Ht. by destruct t.
  - by intros [->| ->].
Qed.

(** The claim of C1 read on a prior ledger whose class field is the empty
    text fails: the new month does not get the empty text but the
    built-in class name. *)
Lemma rollover_blank_field_not_copied :
  let st := sampleState [] in
  user st = Some "u1"%string
  ∧ selectSheet [olderSheet; blankClassSheet] "u1" (month st) (year st) = None
  ∧ selectLatestBefore [olderSheet; blankClassSheet] "u1" (month st) (year st)
    = Some blankClassSheet
  ∧ Sheet.class_name blankClassSheet = Some EmptyString
  ∧ className (fetchData [olderSheet; blankClassSheet] st) = "8C1"%string
  ∧ Some (className (fetchData [olderSheet; blankClassSheet] st))
    ≠ Sheet.class_name blankClassSheet.
Proof.
  cbv zeta. split; [reflexivity|]. split; [reflexivity|]. split; [reflexivity|].
  split; [reflexivity|]. split; [reflexivity|].
  intros H. vm_compute in H. discriminate H.
Qed.

(** C1, amended: when the month asked for has no ledger and the query for
    the most recent earlier ledger of the owner finds [prior], the state
    after the fetch has: each of the school name, class name, teacher
    name and location copied from [prior] when that field holds a
    non-empty text, and the built-in value of the field when it is NULL or
    empty; the quotas of [prior], or the built-in ones when NULL; the
    students of [prior] in their order, each with its id and name and with
    empty meals (no students when NULL); the dirty flag set; the month
    and year as asked. [prior] is a ledger of the owner strictly before
    the month, and none of those is later. *)
Theorem rollover_auto_seed (db : list Sheet.t) (st : AppState) (uid : string)
    (prior : Sheet.t) :
  user st = Some uid →
  selectSheet db uid (month st) (year st) = None →
  selectLatestBefore db uid (month st) (year st) = Some prior →
  let st' := fetchData db st in
  let copied (text : option string) (fallback now : string) :=
    (∀ t, text = Some t → t ≠ EmptyString → now = t)
    ∧ (text = None ∨ text = Some EmptyString → now = fallback) in
  copied (Sheet.school_name prior) DEFAULT_SCHOOL (schoolName st')
  ∧ copied (Sheet.class_name prior) DEFAULT_CLASS (className st')
  ∧ copied (Sheet.teacher_name prior) DEFAULT_TEACHER (teacherName st')
  ∧ copied (Sheet.location prior) DEFAULT_LOCATION (location st')
  ∧ (∀ q, Sheet.standard_meals prior = Some q → standardMeals st' = q)
  ∧ (Sheet.standard_meals prior = None → standardMeals st' = DEFAULT_QUOTA)
  ∧ (∀ prevStudents, Sheet.students prior = Some prevStudents →
       map id (students st') = map id prevStudents
       ∧ map name (students st') = map name prevStudents
       ∧ Forall (λ s, meals s = ∅) (students st'))
  ∧ (Sheet.students prior = None → students st' = [])
  ∧ isDirty st' = true
  ∧ (month st' = month st ∧ year st' = year st)
  ∧ (prior ∈ db ∧ Sheet.user_id prior = uid
     ∧ strictlyBefore (month st) (year st) prior
     ∧ ∀ r, r ∈ db → Sheet.user_id r = uid → strictlyBefore (month st) (year st) r →
            laterThan r prior = false).
Proof.
  intros Huser Hnone Hprior. cbv zeta.
  unfold fetchData, fetchDataWith, fetchDataFrom, readResult. rewrite Huser, Hnone, Hprior. simpl.
  split; [apply orText_copied|]. split; [apply orText_copied|].
  split; [apply orText_copied|]. split; [apply orText_copied|].
  split; [by intros q ->|]. split; [by intros ->|].
  split.
  { intros prevStudents ->. simpl. rewrite !map_map. simpl.
    split; [done|]. split; [done|].
    apply Forall_forall. intros s (s0 & -> & _)%list_elem_of_fmap. done. }
  split; [by intros ->|]. split; [done|]. split; [done|].
  by apply selectLatestBefore_most_recent.
Qed.

(** The worked example: Linh carried from April into May without marks,
    the metadata of April copied, the ledger dirty. *)
Lemma rollover_auto_seed_witness :
  let st' := fetchData [olderSheet; aprilSheet] (sampleState []) in
  schoolName st' = "TRƯỜNG THCS MƯỜNG LÓI"%string
  ∧ className st' = "8C2"%string
  ∧ standardMeals st' = Quota.mk 20 20 18
  ∧ map id (students st') = ["a"; "b"]%string
  ∧ Forall (λ s, meals s = ∅) (students st')
  ∧ isDirty st' = true.
Proof.
  pose proof (rollover_auto_seed [olderSheet; aprilSheet] (sampleState []) "u1" aprilSheet
                eq_refl eq_refl eq_refl) as H.
  cbv zeta in H.
  destruct H as ((Hschool & _) & (Hclass & _) & _ & _ & Hquota & _ & Hstudents & _ & Hdirty & _).
  destruct (Hstudents prevSample eq_refl) as (Hids & _ & Hmeals).
  cbv zeta. split; [|split; [|split; [|split; [|split]]]].
  - by apply Hschool.
  - by apply Hclass.
  - by apply Hquota.
  - exact Hids.
  - exact Hmeals.
  - exact Hdirty.
Defined.

(** The example of the specification, by evaluation. *)
Example rollover_example :
  students (fetchData [Sheet.mk "u1" 3 2023 None None None None (Some [linh]) None]
                      (sampleState []))
  = [mkStudent "a" "Linh" ∅].
Proof. reflexivity. Qed.

(** ** Adding and removing students *)

(** A new student goes to the end of the roster. *)
Lemma addStudent_appends freshId st :
  ∃ s, students (addStudent freshId st) = students st ++ [s]
       ∧ id s = freshId ∧ meals s = ∅.
Proof. by eexists. Qed.

(** Removing by id keeps the other students in their order, and does
    nothing when no student carries the id. *)
Lemma removeStudent_keeps_order confirmed sid st :
  students (removeStudent confirmed sid st) `sublist_of` students st
  ∧ (sid ∉ map id (students st) → students (removeStudent confirmed sid st) = students st).
Proof.
  destruct confirmed; [|done]. unfold removeStudent. rewrite students_setStudents. split.
  - apply sublist_filter.
  - intros Hsid. induction (students st) as [|s l IH]; [done|].
    rewrite filter_cons. simpl in Hsid.
    apply not_elem_of_cons in Hsid as [Hs Hl].
    rewrite decide_True by done. f_equal. by apply IH.
Qed.

(** ** The calendar behind the helpers *)

Lemma DayFromYear_next y :
  Date.DayFromYear (y + 1) - Date.DayFromYear y = if Date.InLeapYear y then 366 else 365.
Proof.
  unfold Date.DayFromYear, Date.InLeapYear.
  destruct (y mod 4 =? 0) eqn:E4; destruct (y mod 100 =? 0) eqn:E100;
    destruct (y mod 400 =? 0) eqn:E400; simpl;
    rewrite ?Z.eqb_eq, ?Z.eqb_neq in *; Z.div_mod_to_equations; lia.
Qed.

Lemma year_estimate y k :
  0 ≤ k < 366 →
  y - 1 ≤ 1970 + (Date.DayFromYear y + k) * 400 / 146097 ≤ y + 1.
Proof. intros Hk. unfold Date.DayFromYear. Z.div_mod_to_equations. lia. Qed.

(** A day of the year [y] is found back in [y]. *)
Lemma YearFromDay_in_year y k :
  0 ≤ k < Date.DayFromYear (y + 1) - Date.DayFromYear y →
  Date.YearFromDay (Date.DayFromYear y + k) = y.
Proof.
  intros Hk.
  pose proof (DayFromYear_next y) as L0.
  pose proof (DayFromYear_next (y + 1)) as L1.
  assert (Hk' : 0 ≤ k < 366) by (destruct (Date.InLeapYear y); lia).
  pose proof (year_estimate y k Hk') as He.
  unfold Date.YearFromDay.
  set (y0 := 1970 + (Date.DayFromYear y + k) * 400 / 146097) in *.
  assert (y0 = y - 1 ∨ y0 = y ∨ y0 = y + 1) as [Hy | [Hy | Hy]] by lia; rewrite Hy.
  - replace (y - 1 + 1) with y by lia.
    destruct (Z.leb_spec (Date.DayFromYear y) (Date.DayFromYear y + k)); [done|lia].
  - destruct (Z.leb_spec (Date.DayFromYear (y + 1)) (Date.DayFromYear y + k)); [lia|].
    destruct (Z.leb_spec (Date.DayFromYear y) (Date.DayFromYear y + k)); lia.
  - destruct (Date.InLeapYear (y + 1)), (Date.InLeapYear y);
      destruct (Z.leb_spec (Date.DayFromYear (y + 1 + 1)) (Date.DayFromYear y + k)); try lia;
      destruct (Z.leb_spec (Date.DayFromYear (y + 1)) (Date.DayFromYear y + k)); lia.
Qed.

Lemma getDate_in_year y k :
  0 ≤ k < Date.DayFromYear (y + 1) - Date.DayFromYear y →
  Date.getDate (Date.DayFromYear y + k) = Date.dateWithin k (Date.monthLengths y).
Proof.
  intros Hk. unfold Date.getDate. rewrite YearFromDay_in_year by done.
  cbv zeta. f_equal. lia.
Qed.

(** The day before the first day of the month after month [r] is the
    last day of month [r]. *)
Lemma getDate_end_of_month y (r : nat) :
  (r < 11)%nat →
  Date.getDate (Date.DayFromYear y
                + Date.sumZ (take (S r) (Date.monthLengths y)) + 0 - 1)
  = default 0 (Date.monthLengths y !! r).
Proof.
  intros Hr.
  set (k := Date.sumZ (take (S r) (Date.monthLengths y)) - 1).
  replace (Date.DayFromYear y + Date.sumZ (take (S r) (Date.monthLengths y)) + 0 - 1)
    with (Date.DayFromYear y + k) by (unfold k; lia).
  pose proof (DayFromYear_next y) as Hlen.
  assert (Hcases : 0 ≤ k < Date.DayFromYear (y + 1) - Date.DayFromYear y
                   ∧ Date.dateWithin k (Date.monthLengths y)
                     = default 0 (Date.monthLengths y !! r)).
  { rewrite Hlen. unfold k, Date.monthLengths. clear Hlen k.
    destruct (Date.InLeapYear y);
      do 11 (destruct r as [|r]; [vm_compute; split; [split; [by intros ?|done]|done]|]);
      lia. }
  destruct Hcases as [Hk Hdate]. by rewrite getDate_in_year.
Qed.

Lemma getDate_end_of_year y :
  Date.getDate (Date.DayFromYear (y + 1) + 0 + 0 - 1) = 31.
Proof.
  pose proof (DayFromYear_next y) as Hlen.
  replace (Date.DayFromYear (y + 1) + 0 + 0 - 1)
    with (Date.DayFromYear y + (Date.DayFromYear (y + 1) - Date.DayFromYear y - 1)) by lia.
  rewrite getDate_in_year by (destruct (Date.InLeapYear y); lia).
  rewrite Hlen. unfold Date.monthLengths. by destruct (Date.InLeapYear y).
Qed.

(** The day numbers give a month length for every month number and
    year: that of the month's place in the table of the year into which
    the month number carries. *)
Lemma getDaysInMonth_length (month year : Z) :
  Date.monthLengths (Date.fullYear year + month / 12) !! Z.to_nat (month mod 12)
  = Some (getDaysInMonth month year).
Proof.
  unfold getDaysInMonth, Date.make, Date.MakeDay.
  pose proof (Z.mod_pos_bound month 12 ltac:(lia)) as Hr.
  pose proof (Z.div_mod month 12 ltac:(lia)) as Hqr.
  set (q := month / 12) in *. set (r := month mod 12) in *.
  destruct (decide (r = 11)) as [Hr11|Hr11].
  - replace (month + 1) with (0 + (q + 1) * 12) by lia.
    rewrite Z.div_add, Z_mod_plus_full by lia.
    change (0 `div` 12) with 0. change (0 `mod` 12) with 0.
    replace (Date.fullYear year + (0 + (q + 1))) with (Date.fullYear year + q + 1) by lia.
    simpl take. simpl Date.sumZ.
    rewrite getDate_end_of_year, Hr11. unfold Date.monthLengths. reflexivity.
  - replace (month + 1) with ((r + 1) + q * 12) by lia.
    rewrite Z.div_add, Z_mod_plus_full by lia.
    rewrite (Z.div_small (r + 1) 12), (Z.mod_small (r + 1) 12) by lia.
    replace (Date.fullYear year + (0 + q)) with (Date.fullYear year + q) by lia.
    replace (Z.to_nat (r + 1)) with (S (Z.to_nat r)) by lia.
    rewrite getDate_end_of_month by lia.
    destruct (Date.monthLengths (Date.fullYear year + q) !! Z.to_nat r) eqn:E; [done|].
    apply lookup_ge_None in E. unfold Date.monthLengths in E. simpl in E. lia.
Qed.

Lemma getDaysInMonth_range (month year : Z) : 28 ≤ getDaysInMonth month year ≤ 31.
Proof.
  pose proof (getDaysInMonth_length month year) as Hmain.
  apply list_elem_of_lookup_2 in Hmain. unfold Date.monthLengths in Hmain.
  destruct (Date.InLeapYear _);
    repeat (apply elem_of_cons in Hmain as [->|Hmain]; [lia|]);
    by apply elem_of_nil in Hmain.
Qed.

(** X1: [getDaysInMonth] is the length of the month in the Gregorian
    calendar, for each of the twelve months (0 is January) of every year
    of valid dates: 28 days in February, 29 when the year is divisible by
    4 and not by 100 or is divisible by 400; 30 days in April, June,
    September and November; 31 days otherwise. The years 0 to 99 are read
    as 1900 to 1999. *)
Theorem getDaysInMonth_calendar (month year : Z) :
  0 ≤ month ≤ 11 → Date.inRange year →
  let y := if decide (0 ≤ year ≤ 99) then 1900 + year else year in
  let leap := y mod 4 = 0 ∧ (y mod 100 ≠ 0 ∨ y mod 400 = 0) in
  getDaysInMonth month year
  = match month with
    | 1 => if decide leap then 29 else 28
    | 3 | 5 | 8 | 10 => 30
    | _ => 31
    end.
Proof.
  intros Hm _. cbv zeta.
  pose proof (getDaysInMonth_length month year) as Hlen.
  rewrite (Z.div_small month 12), (Z.mod_small month 12), Z.add_0_r in Hlen by lia.
  assert (Hfull : Date.fullYear year = if decide (0 ≤ year ≤ 99) then 1900 + year else year).
  { unfold Date.fullYear. case_decide as Hy.
    - destruct Hy as [?%Z.leb_le ?%Z.leb_le]. by rewrite H, H0.
    - destruct (0 <=? year) eqn:E1; [|done].
      destruct (year <=? 99) eqn:E2; [|done].
      apply Z.leb_le in E1, E2. lia. }
  rewrite Hfull in Hlen. set (y := if decide (0 ≤ year ≤ 99) then _ else _) in *.
  assert (Hleap : Date.InLeapYear y
                  = bool_decide (y mod 4 = 0 ∧ (y mod 100 ≠ 0 ∨ y mod 400 = 0))).
  { unfold Date.InLeapYear.
    destruct (y mod 4 =? 0) eqn:E4; destruct (y mod 100 =? 0) eqn:E100;
      destruct (y mod 400 =? 0) eqn:E400; simpl; symmetry;
      rewrite ?Z.eqb_eq, ?Z.eqb_neq in *;
      (apply bool_decide_eq_true || apply bool_decide_eq_false); lia. }
  unfold Date.monthLengths in Hlen. rewrite Hleap in Hlen.
  assert (Hcases : month = 0 ∨ month = 1 ∨ month = 2 ∨ month = 3 ∨ month = 4
                   ∨ month = 5 ∨ month = 6 ∨ month = 7 ∨ month = 8 ∨ month = 9
                   ∨ month = 10 ∨ month = 11) by lia.
  destruct (decide (y mod 4 = 0 ∧ (y mod 100 ≠ 0 ∨ y mod 400 = 0))) as [Hl|Hl];
    [rewrite (bool_decide_eq_true_2 _ Hl) in Hlen
    |rewrite (bool_decide_eq_false_2 _ Hl) in Hlen];
    destruct Hcases as [->|[->|[->|[->|[->|[->|[->|[->|[->|[->|[->| ->]]]]]]]]]]];
    simpl in Hlen; injection Hlen as <-; reflexivity.
Qed.

Lemma getDaysInMonth_calendar_witness :
  getDaysInMonth 1 2024 = 29 ∧ getDaysInMonth 1 1900 = 28 ∧ getDaysInMonth 1 0 = 28.
Proof.
  assert (Hrange : ∀ y, -271820 ≤ y ≤ 275759 → Date.inRange y) by (intros y Hy; exact Hy).
  split; [|split].
  - rewrite (getDaysInMonth_calendar 1 2024) by (lia || (apply Hrange; lia)).
    reflexivity.
  - rewrite (getDaysInMonth_calendar 1 1900) by (lia || (apply Hrange; lia)).
    reflexivity.
  - rewrite (getDaysInMonth_calendar 1 0) by (lia || (apply Hrange; lia)).
    reflexivity.
Defined.

(** X2: on the dates of the calendar (a day from 1 to 31 of one of the
    twelve months of a year of valid dates) the weekday label is one of
    the seven labels of [DAYS_OF_WEEK], the day a week later carries the
    same label, and the day after a Saturday (label 7) is a Sunday
    (label CN). *)
Theorem getDayOfWeek_week (day month year : Z) :
  1 ≤ day ≤ 31 → 0 ≤ month ≤ 11 → Date.inRange year →
  (∃ label, getDayOfWeek day month year = Some label ∧ label ∈ DAYS_OF_WEEK)
  ∧ getDayOfWeek (day + 7) month year = getDayOfWeek day month year
  ∧ (getDayOfWeek day month year = Some "7"%string →
     getDayOfWeek (day + 1) month year = Some "CN"%string).
Proof.
  intros _ _ _. split; [|split].
  - destruct (getDayOfWeek_defined day month year) as [label Hl].
    exists label. split; [done|]. by eapply list_elem_of_lookup_2.
  - unfold getDayOfWeek, Date.getDay, Date.make, Date.MakeDay. cbv zeta.
    f_equal. f_equal. Z.div_mod_to_equations. lia.
  - unfold getDayOfWeek, Date.getDay, Date.make, Date.MakeDay. cbv zeta.
    set (d := Date.DayFromYear _ + Date.sumZ _).
    intros H.
    pose proof (Z.mod_pos_bound (d + day - 1 + 4) 7 ltac:(lia)) as Hb.
    assert (Hsat : (d + day - 1 + 4) mod 7 = 6).
    { set (w := (d + day - 1 + 4) mod 7) in *.
      assert (Hw : w = 0 ∨ w = 1 ∨ w = 2 ∨ w = 3 ∨ w = 4 ∨ w = 5 ∨ w = 6) by lia.
      destruct Hw as [Hw|[Hw|[Hw|[Hw|[Hw|[Hw|Hw]]]]]]; rewrite Hw in H; by simplify_eq. }
    replace ((d + (day + 1) - 1 + 4) mod 7) with 0; [done|].
    Z.div_mod_to_equations. lia.
Qed.

Lemma getDayOfWeek_week_witness :
  getDayOfWeek 7 4 2023 = Some "CN"%string.
Proof.
  assert (Hrange : Date.inRange 2023) by (unfold Date.inRange; lia).
  destruct (getDayOfWeek_week 6 4 2023 ltac:(lia) ltac:(lia) Hrange) as (_ & _ & Hsat).
  exact (Hsat eq_refl).
Defined.

(** ** The record store under saves *)

Lemma selectSheet_filter (db : list Sheet.t) uid m y :
  filter (λ r, Sheet.user_id r = uid ∧ Sheet.month r = m ∧ Sheet.year r = y) db
  = filter (λ r, sheetKey r = (uid, m, y)) db.
Proof.
  apply list_filter_iff. intros r. unfold sheetKey. split.
  - by intros (-> & -> & ->).
  - by intros [= -> -> ->].
Qed.

Lemma filter_key_absent k (db : list Sheet.t) :
  k ∉ map sheetKey db → filter (λ r, sheetKey r = k) db = [].
Proof.
  intros Hk. induction db as [|x db IH]; [done|].
  simpl in Hk. apply not_elem_of_cons in Hk as [Hx Hdb].
  rewrite filter_cons, decide_False by done. by apply IH.
Qed.

Lemma filter_key_unique (db : list Sheet.t) r :
  uniqueKeys db → r ∈ db → filter (λ x, sheetKey x = sheetKey r) db = [r].
Proof.
  unfold uniqueKeys. induction db as [|x db IH]; intros Hnd Hr.
  { by apply elem_of_nil in Hr. }
  simpl in Hnd. apply NoDup_cons in Hnd as [Hx Hnd].
  rewrite filter_cons. apply elem_of_cons in Hr as [->|Hr].
  - rewrite decide_True by done. f_equal. by apply filter_key_absent.
  - rewrite decide_False; [by apply IH|].
    intros Heq. apply Hx. rewrite Heq. apply list_elem_of_fmap. eauto.
Qed.

(** Under the key constraint a lookup finds a row exactly when the table
    holds a row with that key. *)
Lemma selectSheet_unique db uid m y r :
  uniqueKeys db →
  selectSheet db uid m y = Some r ↔ r ∈ db ∧ sheetKey r = (uid, m, y).
Proof.
  intros Hnd. unfold selectSheet. rewrite selectSheet_filter. split.
  - intros H.
    destruct (filter _ db) as [|x [|??]] eqn:E; simplify_eq.
    assert (Hin : r ∈ filter (λ r0, sheetKey r0 = (uid, m, y)) db) by (rewrite E; left).
    by apply list_elem_of_filter in Hin as [??].
  - intros [Hr Hk]. rewrite <- Hk. by rewrite filter_key_unique.
Qed.

Lemma upsert_keys row db :
  map sheetKey (upsert row db)
  = if decide (sheetKey row ∈ map sheetKey db) then map sheetKey db
    else map sheetKey db ++ [sheetKey row].
Proof.
  unfold upsert. case_decide.
  - rewrite map_map. apply map_ext. intros r. by case_decide.
  - by rewrite map_app.
Qed.

Lemma upsert_unique row db : uniqueKeys db → uniqueKeys (upsert row db).
Proof.
  unfold uniqueKeys. rewrite upsert_keys. case_decide; [done|].
  intros Hnd. apply NoDup_app. split; [done|]. split; [|apply NoDup_singleton].
  intros k Hk Hrow. apply list_elem_of_singleton in Hrow. by subst.
Qed.

Lemma upsert_elem row db : row ∈ upsert row db.
Proof.
  unfold upsert. case_decide as Hin.
  - apply list_elem_of_fmap in Hin as (r & Hr & Hin).
    apply list_elem_of_fmap. exists r. split; [|done]. by rewrite decide_True.
  - apply elem_of_app. right. by left.
Qed.

Lemma upsert_other_keys row (db : list Sheet.t) k :
  k ≠ sheetKey row →
  filter (λ r, sheetKey r = k) (upsert row db) = filter (λ r, sheetKey r = k) db.
Proof.
  intros Hk. unfold upsert. case_decide as Hin.
  - clear Hin. induction db as [|x db IH]; [done|].
    simpl. rewrite !filter_cons. destruct (decide (sheetKey x = sheetKey row)) as [Hx|Hx].
    + rewrite !decide_False by congruence. apply IH.
    + destruct (decide (sheetKey x = k)); by rewrite IH.
  - rewrite filter_app, filter_cons, decide_False by done. simpl.
    by rewrite app_nil_r.
Qed.

Lemma handleSave_select (silent : bool) (db : list Sheet.t) (st : AppState)
    (uid : string) :
  user st = Some uid → uniqueKeys db →
  selectSheet (handleSave true silent db st).1.1 uid (month st) (year st)
  = Some (currentSheet uid st)
  ∧ (handleSave true silent db st).1.2 = setDirty false st.
Proof.
  intros Huser Hnd. unfold handleSave. rewrite Huser. simpl. split; [|done].
  apply selectSheet_unique; [by apply upsert_unique|].
  split; [apply upsert_elem|done].
Qed.



(** ** Saving, fetching and moving between months *)

(** The fetch of a month that the table holds, when the read succeeds. *)
Lemma fetchDataWith_found latestOk db st uid data :
  user st = Some uid → selectSheet db uid (month st) (year st) = Some data →
  fetchDataWith true latestOk db st
  = mkApp (Some uid) false
          (orText (Sheet.school_name data) DEFAULT_SCHOOL)
          (orText (Sheet.class_name data) DEFAULT_CLASS)
          (month st) (year st)
          (orValue (Sheet.students data) INITIAL_STUDENTS)
          (orText (Sheet.location data) DEFAULT_LOCATION)
          (orText (Sheet.teacher_name data) DEFAULT_TEACHER)
          (orValue (Sheet.standard_meals data) DEFAULT_QUOTA)
          (clipboard st) (columnClipboard st) false.
Proof.
  intros Hu Hs. unfold fetchDataWith, fetchDataFrom, readResult. by rewrite Hu, Hs.
Qed.

(** A fetch keeps the user, the month, the year and the clipboards,
    whatever its reads deliver. *)
Lemma fetchDataWith_frame readOk latestOk db st :
  user (fetchDataWith readOk latestOk db st) = user st
  ∧ month (fetchDataWith readOk latestOk db st) = month st
  ∧ year (fetchDataWith readOk latestOk db st) = year st
  ∧ clipboard (fetchDataWith readOk latestOk db st) = clipboard st
  ∧ columnClipboard (fetchDataWith readOk latestOk db st) = columnClipboard st.
Proof.
  unfold fetchDataWith, fetchDataFrom. destruct (user st) as [uid|] eqn:Hu; [|done].
  destruct (readResult readOk _); [done|].
  by destruct (readResult latestOk _).
Qed.

(** The effect changes nothing but the dirty flag. *)
Lemma markDirty_frame changed st :
  markDirty changed st = setDirty (isDirty (markDirty changed st)) st.
Proof. unfold markDirty. destruct (changed && negb (loading st)); by destruct st. Qed.

Lemma orText_Some (t fallback : string) :
  orText (Some t) fallback = if decide (t = EmptyString) then fallback else t.
Proof. by destruct t. Qed.

(** The ledger that a fetch shows after [st0] was saved under its key. *)
Lemma fetchDataWith_saved latestOk db st st0 uid :
  user st = Some uid → month st = month st0 → year st = year st0 →
  selectSheet db uid (month st) (year st) = Some (currentSheet uid st0) →
  ledgerRestored st0 (fetchDataWith true latestOk db st).
Proof.
  intros Hu Hm Hy Hsel. unfold ledgerRestored.
  rewrite (fetchDataWith_found latestOk db st uid _ Hu Hsel).
  by rewrite <- !orText_Some.
Qed.

(** X4: save, then fetch the same month with a read that succeeds: the
    month, the year, the roster with all its marks and the quotas come
    back as they were saved; each of the four text fields comes back as
    saved unless it was saved empty, in which case it comes back as the
    built-in text of the field. The read of the earlier months is not
    looked at. *)
Theorem save_then_fetch (silent latestOk : bool) (db : list Sheet.t) (st : AppState)
    (uid : string) :
  user st = Some uid → uniqueKeys db →
  let db' := (handleSave true silent db st).1.1 in
  let st' := fetchDataWith true latestOk db' (handleSave true silent db st).1.2 in
  month st' = month st ∧ year st' = year st
  ∧ students st' = students st
  ∧ standardMeals st' = standardMeals st
  ∧ schoolName st'
    = (if decide (schoolName st = EmptyString) then DEFAULT_SCHOOL else schoolName st)
  ∧ className st'
    = (if decide (className st = EmptyString) then DEFAULT_CLASS else className st)
  ∧ teacherName st'
    = (if decide (teacherName st = EmptyString) then DEFAULT_TEACHER else teacherName st)
  ∧ location st'
    = (if decide (location st = EmptyString) then DEFAULT_LOCATION else location st).
Proof.
  intros Hu Hnd.
  destruct (handleSave_select silent db st uid Hu Hnd) as (Hsel & Hst).
  cbv zeta in *. rewrite Hst.
  by apply (fetchDataWith_saved latestOk _ _ st uid).
Qed.

Lemma save_then_fetch_witness :
  students (fetchDataWith true false
              (handleSave true true [olderSheet] (sampleState [linh; mai])).1.1
              (handleSave true true [olderSheet] (sampleState [linh; mai])).1.2)
  = [linh; mai].
Proof.
  destruct (save_then_fetch true false [olderSheet] (sampleState [linh; mai]) "u1")
    as (_ & _ & Hstudents & _); [reflexivity| |exact Hstudents].
  refine (bool_decide_unpack _ _). vm_compute. exact I.
Defined.

(** What the flush before a move does: nothing on a clean ledger or
    without a user or when the save fails, the save otherwise. *)
Lemma flushIfDirty_cases succeeds db st :
  flushIfDirty succeeds db st = (db, st)
  ∧ (isDirty st = false ∨ user st = None ∨ succeeds = false)
  ∨ ∃ uid, user st = Some uid ∧ isDirty st = true ∧ succeeds = true
           ∧ flushIfDirty succeeds db st
             = (upsert (currentSheet uid st) db, setDirty false st).
Proof.
  unfold flushIfDirty, handleSave.
  destruct (isDirty st) eqn:Hd; [|left; auto].
  destruct (user st) as [uid|] eqn:Hu; [|left; auto].
  destruct succeeds; [|left; auto].
  right. by exists uid.
Qed.

Lemma flushIfDirty_frame succeeds db st :
  let r := flushIfDirty succeeds db st in
  user r.2 = user st ∧ month r.2 = month st ∧ year r.2 = year st
  ∧ students r.2 = students st
  ∧ (uniqueKeys db → uniqueKeys r.1)
  ∧ (∀ uid m y, (Some uid, m, y) ≠ (user st, month st, year st) →
       selectSheet r.1 uid m y = selectSheet db uid m y).
Proof.
  cbv zeta.
  destruct (flushIfDirty_cases succeeds db st) as [[-> _]|(uid & Hu & _ & _ & ->)]; [done|].
  simpl. repeat split; try done.
  - apply upsert_unique.
  - intros uid' m y Hk. unfold selectSheet. rewrite !selectSheet_filter.
    apply (f_equal (λ l, match l with [r] => Some r | _ => None end)).
    apply upsert_other_keys. unfold sheetKey. simpl. rewrite Hu in Hk. congruence.
Qed.

(** X5: from a month between 0 and 11 of a year that is a safe integer,
    moving by one month moves the pair (year, month) by exactly one step
    and keeps the month between 0 and 11, wrapping December into January
    of the next year and back; a change of year keeps the month. The
    outcome of the flush does not matter for where the move lands, and
    the roster and the user stay. *)
Theorem month_navigation (succeeds : bool) (db : list Sheet.t) (st : AppState) :
  0 ≤ month st ≤ 11 → safeInteger (year st) →
  let p := (prevMonth succeeds db st).2 in
  let n := (nextMonth succeeds db st).2 in
  (0 ≤ month p ≤ 11 ∧ 12 * year p + month p = 12 * year st + month st - 1)
  ∧ (0 ≤ month n ≤ 11 ∧ 12 * year n + month n = 12 * year st + month st + 1)
  ∧ (∀ newYear, let c := (handleYearChange succeeds newYear db st).2 in
                month c = month st ∧ year c = newYear)
  ∧ (students p = students st ∧ students n = students st
     ∧ user p = user st ∧ user n = user st).
Proof.
  intros Hm _. cbv zeta. unfold prevMonth, nextMonth, handleYearChange.
  destruct (flushIfDirty_frame succeeds db st) as (Hu & Hmo & Hy & Hs & _).
  cbv zeta in *.
  destruct (flushIfDirty succeeds db st) as [db' st']. simpl in *.
  split; [|split; [|split]].
  - case_decide; simpl; lia.
  - case_decide; simpl; lia.
  - intros newYear. simpl. done.
  - repeat split; case_decide; simpl; congruence.
Qed.

Lemma month_navigation_witness :
  let n := (nextMonth true [] (setMonthYear 11 2023 (sampleState [linh]))).2 in
  month n = 0 ∧ year n = 2024.
Proof.
  destruct (month_navigation true [] (setMonthYear 11 2023 (sampleState [linh])))
    as (_ & (Hrange & Hstep) & _);
    [simpl; lia|unfold safeInteger, MAX_SAFE_INTEGER; simpl; lia|].
  cbv zeta in *.
  set (n := (nextMonth true [] (setMonthYear 11 2023 (sampleState [linh]))).2) in *.
  change (month (setMonthYear 11 2023 (sampleState [linh]))) with 11 in Hstep.
  change (year (setMonthYear 11 2023 (sampleState [linh]))) with 2023 in Hstep.
  lia.
Defined.

Lemma away_and_back db st uid m1 y1 succeeds changed readOk latestOk latestOk' :
  user st = Some uid → uniqueKeys db →
  (m1, y1) ≠ (month st, year st) →
  let db1 := upsert (currentSheet uid st) db in
  let st1 := markDirty changed
               (fetchDataWith readOk latestOk db1 (setMonthYear m1 y1 (setDirty false st))) in
  let r := flushIfDirty succeeds db1 st1 in
  let st2 := fetchDataWith true latestOk' r.1 (setMonthYear (month st) (year st) r.2) in
  ledgerRestored st st2 ∧ uniqueKeys r.1.
Proof.
  intros Hu Hnd Hne. cbv zeta.
  set (db1 := upsert (currentSheet uid st) db).
  set (st0 := fetchDataWith readOk latestOk db1 (setMonthYear m1 y1 (setDirty false st))).
  set (st1 := markDirty changed st0).
  assert (Hnd1 : uniqueKeys db1) by by apply upsert_unique.
  assert (Hsel1 : selectSheet db1 uid (month st) (year st) = Some (currentSheet uid st)).
  { apply selectSheet_unique; [done|]. split; [apply upsert_elem|done]. }
  destruct (fetchDataWith_frame readOk latestOk db1 (setMonthYear m1 y1 (setDirty false st)))
    as (Hu0 & Hm0 & Hy0 & _). fold st0 in Hu0, Hm0, Hy0. simpl in Hu0, Hm0, Hy0.
  assert (Hu1 : user st1 = user st ∧ month st1 = m1 ∧ year st1 = y1).
  { unfold st1. rewrite markDirty_frame. simpl. by rewrite Hu0, Hm0, Hy0. }
  destruct Hu1 as (Hu1 & Hm1 & Hy1).
  destruct (flushIfDirty_frame succeeds db1 st1) as (Hur & _ & _ & _ & Hndr & Hkeep).
  cbv zeta in *.
  set (r := flushIfDirty succeeds db1 st1) in *.
  assert (Hsel : selectSheet r.1 uid (month st) (year st) = Some (currentSheet uid st)).
  { rewrite Hkeep; [done|]. rewrite Hu1, Hu, Hm1, Hy1. congruence. }
  assert (Huser : user (setMonthYear (month st) (year st) r.2) = Some uid).
  { simpl. by rewrite Hur, Hu1. }
  split; [|by apply Hndr].
  by apply (fetchDataWith_saved latestOk' r.1 (setMonthYear (month st) (year st) r.2) st uid).
Qed.

Lemma prevMonth_from succeeds db s m y :
  month s = m → year s = y →
  prevMonth succeeds db s
  = ((flushIfDirty succeeds db s).1,
     if decide (m = 0) then setMonthYear 11 (y - 1) (flushIfDirty succeeds db s).2
     else setMonthYear (m - 1) y (flushIfDirty succeeds db s).2).
Proof.
  intros <- <-. unfold prevMonth.
  destruct (flushIfDirty_frame succeeds db s) as (_ & Hm & Hy & _). cbv zeta in *.
  destruct (flushIfDirty succeeds db s) as [db' s']. simpl in *. by rewrite Hm, Hy.
Qed.

Lemma nextMonth_from succeeds db s m y :
  month s = m → year s = y →
  nextMonth succeeds db s
  = ((flushIfDirty succeeds db s).1,
     if decide (m = 11) then setMonthYear 0 (y + 1) (flushIfDirty succeeds db s).2
     else setMonthYear (m + 1) y (flushIfDirty succeeds db s).2).
Proof.
  intros <- <-. unfold nextMonth.
  destruct (flushIfDirty_frame succeeds db s) as (_ & Hm & Hy & _). cbv zeta in *.
  destruct (flushIfDirty succeeds db s) as [db' s']. simpl in *. by rewrite Hm, Hy.
Qed.

(** X6: leaving a dirty ledger for a neighbouring month and coming back
    loses nothing when the save on leaving and the read on coming back
    succeed and the year is a safe integer. After [nextMonth], the fetch
    of that month, the commit that follows it, [prevMonth] and the fetch
    of the first month (or the same the other way round), the month and
    year, the roster with all marks and the quotas are those that were on
    screen, each text field likewise unless it was empty, and the table
    still has one row per key. What the month in between showed, whether
    its reads succeeded, whether the effect marked it dirty and whether
    its own save succeeded, does not matter. *)
Theorem leave_and_return (succeeds changed readOk latestOk latestOk' : bool)
    (db : list Sheet.t) (st : AppState) (uid : string) :
  user st = Some uid → uniqueKeys db → isDirty st = true →
  0 ≤ month st ≤ 11 → safeInteger (year st) →
  (let a := nextMonth true db st in
   let between := markDirty changed (fetchDataWith readOk latestOk a.1 a.2) in
   let b := prevMonth succeeds a.1 between in
   let st2 := fetchDataWith true latestOk' b.1 b.2 in
   ledgerRestored st st2 ∧ uniqueKeys b.1)
  ∧ (let a := prevMonth true db st in
     let between := markDirty changed (fetchDataWith readOk latestOk a.1 a.2) in
     let b := nextMonth succeeds a.1 between in
     let st2 := fetchDataWith true latestOk' b.1 b.2 in
     ledgerRestored st st2 ∧ uniqueKeys b.1).
Proof.
  intros Hu Hnd Hd Hm _.
  assert (Hflush : flushIfDirty true db st
                   = (upsert (currentSheet uid st) db, setDirty false st)).
  { destruct (flushIfDirty_cases true db st) as [[_ [H|[H|H]]]|(uid' & Hu' & _ & _ & ->)];
      try congruence. }
  assert (Hat : ∀ m1 y1,
            month (markDirty changed
                     (fetchDataWith readOk latestOk (upsert (currentSheet uid st) db)
                        (setMonthYear m1 y1 (setDirty false st)))) = m1
            ∧ year (markDirty changed
                      (fetchDataWith readOk latestOk (upsert (currentSheet uid st) db)
                         (setMonthYear m1 y1 (setDirty false st)))) = y1).
  { intros m1 y1. rewrite markDirty_frame.
    destruct (fetchDataWith_frame readOk latestOk (upsert (currentSheet uid st) db)
                (setMonthYear m1 y1 (setDirty false st))) as (_ & H1 & H2 & _).
    simpl. by rewrite H1, H2. }
  split; cbv zeta.
  - rewrite (nextMonth_from true db st _ _ eq_refl eq_refl), Hflush. cbn [fst snd].
    destruct (decide (month st = 11)) as [H11|H11].
    + destruct (Hat 0 (year st + 1)) as [H1 H2].
      rewrite (prevMonth_from succeeds _ _ _ _ H1 H2). cbn [fst snd].
      rewrite decide_True by done.
      replace (year st + 1 - 1) with (year st) by lia. rewrite <- H11.
      apply (away_and_back db st uid 0 (year st + 1) succeeds); try done.
      intros [= ? ?]. lia.
    + destruct (Hat (month st + 1) (year st)) as [H1 H2].
      rewrite (prevMonth_from succeeds _ _ _ _ H1 H2). cbn [fst snd].
      rewrite decide_False by lia.
      replace (month st + 1 - 1) with (month st) by lia.
      apply (away_and_back db st uid (month st + 1) (year st) succeeds); try done.
      intros [= ?]. lia.
  - rewrite (prevMonth_from true db st _ _ eq_refl eq_refl), Hflush. cbn [fst snd].
    destruct (decide (month st = 0)) as [H0|H0].
    + destruct (Hat 11 (year st - 1)) as [H1 H2].
      rewrite (nextMonth_from succeeds _ _ _ _ H1 H2). cbn [fst snd].
      rewrite decide_True by done.
      replace (year st - 1 + 1) with (year st) by lia. rewrite <- H0.
      apply (away_and_back db st uid 11 (year st - 1) succeeds); try done.
      intros [= ? ?]. lia.
    + destruct (Hat (month st - 1) (year st)) as [H1 H2].
      rewrite (nextMonth_from succeeds _ _ _ _ H1 H2). cbn [fst snd].
      rewrite decide_False by lia.
      replace (month st - 1 + 1) with (month st) by lia.
      apply (away_and_back db st uid (month st - 1) (year st) succeeds); try done.
      intros [= ?]. lia.
Qed.

(** The month in between is seeded by the rollover, marked dirty, and
    saved on the way back. *)
Lemma leave_and_return_witness :
  let st := setDirty true (sampleState [linh; mai]) in
  let a := nextMonth true [aprilSheet] st in
  let between := markDirty true (fetchDataWith true true a.1 a.2) in
  let b := prevMonth true a.1 between in
  students (fetchDataWith true true b.1 b.2) = [linh; mai].
Proof.
  destruct (leave_and_return true true true true true [aprilSheet]
              (setDirty true (sampleState [linh; mai])) "u1")
    as ((Hback & _) & _);
    [reflexivity| |reflexivity|simpl; lia|unfold safeInteger, MAX_SAFE_INTEGER; simpl; lia|].
  { refine (bool_decide_unpack _ _). vm_compute. exact I. }
  cbv zeta in *. destruct Hback as (_ & _ & Hstudents & _). exact Hstudents.
Defined.

(** A fetch by a signed-in user does not look at the roster on screen
    nor at the dirty flag. *)
Lemma fetchData_forgets db st uid l b :
  user st = Some uid →
  fetchData db (setDirty b (withRoster l st)) = fetchData db st.
Proof.
  intros Hu. unfold fetchData, fetchDataWith, fetchDataFrom, readResult. simpl. rewrite Hu.
  destruct (selectSheet _ _ _ _); [done|].
  by destruct (selectLatestBefore _ _ _ _).
Qed.

(** X7: the move to another month does not wait for the save to succeed.
    When the save of a dirty ledger fails, the table is left as it was,
    the month changes all the same, and the fetch of the new month gives
    the state it would give had the unsaved roster never existed: the
    edits are in no place any more. *)
Theorem move_after_failed_save (db : list Sheet.t) (st : AppState) (uid : string)
    (edited : list Student) :
  user st = Some uid →
  let dirty := setDirty true (withRoster edited st) in
  (prevMonth false db dirty).1 = db
  ∧ (nextMonth false db dirty).1 = db
  ∧ fetchData db (prevMonth false db dirty).2 = fetchData db (prevMonth false db st).2
  ∧ fetchData db (nextMonth false db dirty).2 = fetchData db (nextMonth false db st).2.
Proof.
  intros Hu. cbv zeta.
  assert (Hflush : ∀ s, user s = Some uid → flushIfDirty false db s = (db, s)).
  { intros s Hs. unfold flushIfDirty, handleSave. rewrite Hs. by destruct (isDirty s). }
  unfold prevMonth, nextMonth. rewrite !Hflush by done. cbn [fst snd].
  split; [done|]. split; [done|].
  change (month (setDirty true (withRoster edited st))) with (month st).
  change (year (setDirty true (withRoster edited st))) with (year st).
  split; case_decide;
    by apply (fetchData_forgets db (setMonthYear _ _ st) uid edited true).
Qed.

Lemma move_after_failed_save_witness :
  (nextMonth false [aprilSheet] (setDirty true (withRoster [linh; mai] (sampleState [])))).1
  = [aprilSheet].
Proof.
  destruct (move_after_failed_save [aprilSheet] (sampleState []) "u1" [linh; mai] eq_refl)
    as (_ & Hnext & _).
  exact Hnext.
Defined.

Lemma orText_nonempty text fallback :
  fallback ≠ EmptyString → orText text fallback ≠ EmptyString.
Proof. intros Hf. by destruct text as [[|??]|]. Qed.

(** X8: the rollover happens once. When a month without a ledger was
    seeded from the prior ledger, the seeded ledger is dirty; once it is
    saved, a later fetch of the month whose read succeeds finds that
    ledger and shows it exactly as seeded: the prior month is not
    consulted again. After the commit that follows the fetch the ledger
    is dirty exactly when the effect that marks it ran. *)
Theorem rollover_then_save (silent latestOk changed : bool) (db : list Sheet.t)
    (st : AppState) (uid : string) (prior : Sheet.t) :
  user st = Some uid → uniqueKeys db →
  selectSheet db uid (month st) (year st) = None →
  selectLatestBefore db uid (month st) (year st) = Some prior →
  let seeded := fetchData db st in
  let saved := handleSave true silent db seeded in
  isDirty seeded = true
  ∧ markDirty changed (fetchDataWith true latestOk saved.1.1 saved.1.2)
    = setDirty changed seeded.
Proof.
  intros Hu Hnd Hnone Hprior. cbv zeta.
  destruct (fetchDataWith_frame true true db st) as (Hu1 & Hm1 & Hy1 & _).
  fold (fetchData db st) in Hu1, Hm1, Hy1.
  rewrite Hu in Hu1.
  destruct (handleSave_select silent db (fetchData db st) uid Hu1 Hnd) as (Hsel & Hst).
  cbv zeta in *. rewrite Hst.
  assert (Hseed : fetchData db st
            = mkApp (Some uid) false
                (orText (Sheet.school_name prior) DEFAULT_SCHOOL)
                (orText (Sheet.class_name prior) DEFAULT_CLASS)
                (month st) (year st)
                (map (withMeals ∅) (orValue (Sheet.students prior) []))
                (orText (Sheet.location prior) DEFAULT_LOCATION)
                (orText (Sheet.teacher_name prior) DEFAULT_TEACHER)
                (orValue (Sheet.standard_meals prior) DEFAULT_QUOTA)
                (clipboard st) (columnClipboard st) true).
  { unfold fetchData, fetchDataWith, fetchDataFrom, readResult.
    by rewrite Hu, Hnone, Hprior. }
  split; [by rewrite Hseed|].
  rewrite (fetchDataWith_found latestOk _ (setDirty false (fetchData db st)) uid
             (currentSheet uid (fetchData db st))); [|done|exact Hsel].
  rewrite Hseed. unfold markDirty, setDirty, currentSheet.
  cbn [user loading schoolName className month year students location teacherName
       standardMeals clipboard columnClipboard isDirty
       Sheet.school_name Sheet.class_name Sheet.teacher_name Sheet.location
       Sheet.students Sheet.standard_meals orValue default].
  rewrite !orText_Some.
  rewrite !decide_False by (by apply orText_nonempty).
  by destruct changed.
Qed.

Lemma rollover_then_save_witness :
  let seeded := fetchData [olderSheet; aprilSheet] (sampleState []) in
  let saved := handleSave true true [olderSheet; aprilSheet] seeded in
  markDirty true (fetchDataWith true true saved.1.1 saved.1.2) = seeded.
Proof.
  destruct (rollover_then_save true true true [olderSheet; aprilSheet] (sampleState [])
              "u1" aprilSheet)
    as (_ & Hfix); [reflexivity| |reflexivity|reflexivity|exact Hfix].
  refine (bool_decide_unpack _ _). vm_compute. exact I.
Defined.

Lemma firstDescending_Some_acc (l : list Sheet.t) : ∀ b : Sheet.t,
  is_Some (foldl (λ best r,
             match best with
             | None => Some r
             | Some b => if laterThan r b then Some r else Some b
             end) (Some b) l).
Proof.
  induction l as [|r l IH]; intros b; simpl; [by eexists|].
  destruct (laterThan r b); apply IH.
Qed.

Lemma firstDescending_None (rows : list Sheet.t) :
  firstDescending rows = None ↔ rows = [].
Proof.
  split; [|by intros ->].
  unfold firstDescending. destruct rows as [|x rows]; [done|]. simpl.
  intros H. destruct (firstDescending_Some_acc rows x) as [r Hr]. congruence.
Qed.

(** X9: a signed-in user who opens a month for which the table holds no
    ledger of theirs, neither for that month nor for any earlier one,
    gets an empty roster, whether the reads succeed or fail; the header
    fields and quotas stay the ones on screen, and the roster that was on
    screen is dropped. After the commit that follows, the ledger is dirty
    exactly when the effect that marks it ran. Ledgers of later months or
    of other users do not count. *)
Theorem fetchData_first_month (readOk latestOk changed : bool) (db : list Sheet.t)
    (st : AppState) (uid : string) :
  user st = Some uid →
  (∀ r, r ∈ db → Sheet.user_id r = uid →
        year st < Sheet.year r ∨ (Sheet.year r = year st ∧ month st < Sheet.month r)) →
  markDirty changed (fetchDataWith readOk latestOk db st)
  = mkApp (Some uid) false (schoolName st) (className st) (month st) (year st) []
          (location st) (teacherName st) (standardMeals st)
          (clipboard st) (columnClipboard st) changed.
Proof.
  intros Hu Hlater. unfold fetchDataWith, fetchDataFrom. rewrite Hu.
  assert (Hexact : selectSheet db uid (month st) (year st) = None).
  { unfold selectSheet.
    destruct (filter _ db) as [|r l] eqn:E; [done|].
    assert (Hr : r ∈ filter (λ r, Sheet.user_id r = uid ∧ Sheet.month r = month st
                                  ∧ Sheet.year r = year st) db) by (rewrite E; left).
    apply list_elem_of_filter in Hr as [(Hru & Hrm & Hry) Hr].
    destruct (Hlater r Hr Hru); lia. }
  assert (Hprior : selectLatestBefore db uid (month st) (year st) = None).
  { unfold selectLatestBefore. apply firstDescending_None.
    destruct (filter _ db) as [|r l] eqn:E; [done|].
    assert (Hr : r ∈ filter (λ r, Sheet.user_id r = uid
                                  ∧ strictlyBefore (month st) (year st) r) db)
      by (rewrite E; left).
    apply list_elem_of_filter in Hr as [[Hru Hrb] Hr]. unfold strictlyBefore in Hrb.
    destruct (Hlater r Hr Hru); lia. }
  rewrite Hexact, Hprior.
  assert (Hnone : ∀ ok, readResult ok None = None) by (by intros []).
  rewrite !Hnone. unfold markDirty. simpl. by destruct changed.
Qed.

(** The roster on screen is replaced, so the effect runs. *)
Lemma fetchData_first_month_witness :
  let st' := markDirty true
               (fetchDataWith true true [aprilSheet]
                  (setMonthYear 2 2023 (sampleState [linh]))) in
  students st' = [] ∧ isDirty st' = true.
Proof.
  cbv zeta.
  rewrite (fetchData_first_month true true true [aprilSheet]
             (setMonthYear 2 2023 (sampleState [linh])) "u1");
    [split; reflexivity|reflexivity|].
  intros r Hr _. apply list_elem_of_singleton in Hr as ->. simpl. lia.
Defined.

(** ** Column fill and clear *)

Lemma setMark_setMark day meal v w s :
  setMark day meal v (setMark day meal w s) = setMark day meal v s.
Proof.
  unfold setMark at 1. rewrite currentMeals_setMark, decide_True by done.
  unfold setMark, withMeals. simpl. by rewrite set_set, insert_insert_eq.
Qed.

Lemma headcount_all (l : list Student) day meal :
  Forall (λ s, mark s day meal = true) l →
  calculateDayTotals l day meal = Z.of_nat (length l).
Proof.
  intros Hall. rewrite calculateDayTotals_headcount. f_equal.
  induction Hall as [|s l Hs _ IH]; [done|].
  rewrite filter_cons, decide_True by done. simpl. by rewrite IH.
Qed.

Lemma headcount_none (l : list Student) day meal :
  Forall (λ s, mark s day meal = false) l → calculateDayTotals l day meal = 0.
Proof.
  intros Hall. rewrite calculateDayTotals_headcount.
  induction Hall as [|s l Hs _ IH]; [done|].
  by rewrite filter_cons, decide_False by (by rewrite Hs).
Qed.

(** X10: [fillColumn] marks the meal of the day for every student and
    nothing else: the headcount of that day and meal becomes the size of
    the roster, every other mark, every id and name stay, and a second
    fill changes nothing. *)
Theorem fillColumn_marks_all (st : AppState) (day : Z) (meal : MealType.t) :
  let st' := fillColumn day meal st in
  Forall (λ s, mark s day meal = true) (students st')
  ∧ calculateDayTotals (students st') day meal = Z.of_nat (length (students st))
  ∧ (∀ d m, (d, m) ≠ (day, meal) →
       map (λ s, mark s d m) (students st') = map (λ s, mark s d m) (students st))
  ∧ map id (students st') = map id (students st)
  ∧ map name (students st') = map name (students st)
  ∧ students (fillColumn day meal st') = students st'.
Proof.
  cbv zeta. unfold fillColumn. rewrite !students_setStudents.
  assert (Hall : Forall (λ s, mark s day meal = true)
                        (map (setMark day meal true) (students st))).
  { apply Forall_forall. intros s' (s & -> & _)%list_elem_of_fmap.
    by rewrite mark_setMark, decide_True. }
  split; [done|]. split; [|split; [|split; [|split]]].
  - rewrite headcount_all by done. by rewrite length_map.
  - intros d m Hne. rewrite map_map. apply map_ext. intros s.
    rewrite mark_setMark, decide_False; [done|]. intros [-> ->]. done.
  - by rewrite map_map.
  - by rewrite map_map.
  - rewrite map_map. apply map_ext. intros s. apply setMark_setMark.
Qed.

(** X11: a fill followed by a clear of the same column is the clear
    alone: the stored roster is the same in both cases, the meal of the
    day is false for every student with a headcount of 0, and every other
    mark is as it was before the fill. *)
Theorem fill_then_clear (st : AppState) (day : Z) (meal : MealType.t) :
  let st' := clearColumn day meal (fillColumn day meal st) in
  students st' = students (clearColumn day meal st)
  ∧ Forall (λ s, mark s day meal = false) (students st')
  ∧ calculateDayTotals (students st') day meal = 0
  ∧ (∀ d m, (d, m) ≠ (day, meal) →
       map (λ s, mark s d m) (students st') = map (λ s, mark s d m) (students st)).
Proof.
  cbv zeta. unfold clearColumn, fillColumn. rewrite !students_setStudents.
  assert (Heq : map (setMark day meal false) (map (setMark day meal true) (students st))
                = map (setMark day meal false) (students st)).
  { rewrite map_map. apply map_ext. intros s. apply setMark_setMark. }
  rewrite Heq.
  assert (Hall : Forall (λ s, mark s day meal = false)
                        (map (setMark day meal false) (students st))).
  { apply Forall_forall. intros s' (s & -> & _)%list_elem_of_fmap.
    by rewrite mark_setMark, decide_True. }
  split; [done|]. split; [done|]. split.
  - by apply headcount_none.
  - intros d m Hne. rewrite map_map. apply map_ext. intros s.
    rewrite mark_setMark, decide_False; [done|]. intros [-> ->]. done.
Qed.

(** ** Pasting a column *)

Lemma pasted_column (values : list bool) day meal (l : list Student) :
  map (λ s, mark s day meal)
      (imap (λ idx s, setMark day meal (default false (values !! idx)) s) l)
  = resize (length l) false values.
Proof.
  apply list_eq. intros i. change (map ?f ?x) with (f <$> x).
  rewrite list_lookup_fmap, list_lookup_imap.
  destruct (l !! i) as [s|] eqn:Hi; simpl.
  - apply lookup_lt_Some in Hi as Hlt.
    rewrite mark_setMark, decide_True by done.
    destruct (values !! i) as [b|] eqn:Hv; simpl.
    + apply lookup_lt_Some in Hv as Hlt'. by rewrite lookup_resize, Hv.
    + apply lookup_ge_None in Hv. by rewrite lookup_resize_new.
  - apply lookup_ge_None in Hi. by rewrite lookup_resize_old.
Qed.

(** X12: [pasteColumn] applies the copied values by position. After the
    paste, student i has in that column the i-th copied value, and false
    when the copied vector is shorter than the roster; values beyond the
    roster are ignored; every other mark, every id and the size of the
    roster stay. A copy of the column right after the paste reads this
    cut or padded vector. Without a copied column the paste does
    nothing. *)
Theorem pasteColumn_by_position (st : AppState) (day : Z) (meal : MealType.t) :
  (∀ values, columnClipboard st = Some values →
     let st' := pasteColumn day meal st in
     map (λ s, mark s day meal) (students st')
     = resize (length (students st)) false values
     ∧ columnClipboard (copyColumn day meal st')
       = Some (resize (length (students st)) false values)
     ∧ (∀ d m, (d, m) ≠ (day, meal) →
          map (λ s, mark s d m) (students st') = map (λ s, mark s d m) (students st))
     ∧ map id (students st') = map id (students st))
  ∧ (columnClipboard st = None → pasteColumn day meal st = st).
Proof.
  split.
  - intros values Hcb. cbv zeta. unfold pasteColumn. rewrite Hcb.
    rewrite students_setStudents.
    split; [apply pasted_column|]. split; [|split].
    + unfold copyColumn. simpl. f_equal. apply pasted_column.
    + intros d m Hne. change (map ?f ?x) with (f <$> x). rewrite fmap_imap.
      rewrite <- (imap_const (λ s, mark s d m)). apply imap_ext. intros i s _. simpl.
      rewrite mark_setMark, decide_False; [done|]. intros [-> ->]. done.
    + by apply imap_keeps_ids.
  - intros Hcb. unfold pasteColumn. by rewrite Hcb.
Qed.

(** A column of three values pasted on a roster of two, and a column of
    one value pasted on the same roster. *)
Lemma pasteColumn_by_position_witness :
  map (λ s, mark s 2 MealType.T1)
      (students (pasteColumn 2 MealType.T1
                   (setColumnClipboard (Some [true; false; true]) (sampleState [linh; mai]))))
  = [true; false]
  ∧ map (λ s, mark s 2 MealType.T1)
        (students (pasteColumn 2 MealType.T1
                     (setColumnClipboard (Some [true]) (sampleState [linh; mai]))))
    = [true; false].
Proof.
  split.
  - destruct (pasteColumn_by_position
                (setColumnClipboard (Some [true; false; true]) (sampleState [linh; mai]))
                2 MealType.T1) as [H _].
    destruct (H [true; false; true] eq_refl) as (Hmarks & _). exact Hmarks.
  - destruct (pasteColumn_by_position
                (setColumnClipboard (Some [true]) (sampleState [linh; mai]))
                2 MealType.T1) as [H _].
    destruct (H [true] eq_refl) as (Hmarks & _). exact Hmarks.
Defined.

(** ** Row clipboard *)

Lemma totals_of_meals q s1 s2 :
  meals s1 = meals s2 → calculateStudentTotals q s1 = calculateStudentTotals q s2.
Proof. intros H. unfold calculateStudentTotals. by rewrite H. Qed.

(** X13: a row copied from [src] and pasted on the id [target] gives
    every student with that id exactly the day entries of [src], hence
    the totals of [src], keeps their id and name, and leaves every other
    student as it was. Pasted back on the student it was copied from, a
    row changes nothing in a roster where that id is carried by [src]
    alone. *)
Theorem copy_paste_row (st : AppState) (src : Student) (target : string) :
  let st' := pasteMeals target (copyMeals src st) in
  Forall2 (λ s s',
             id s' = id s ∧ name s' = name s
             ∧ if decide (id s = target)
               then meals s' = meals src
                    ∧ ∀ q, calculateStudentTotals q s' = calculateStudentTotals q src
               else s' = s)
          (students st) (students st')
  ∧ ((∀ s, s ∈ students st → id s = id src → s = src) →
     students (pasteMeals (id src) (copyMeals src st)) = students st).
Proof.
  cbv zeta. unfold pasteMeals, copyMeals. simpl. split.
  - change (map ?f ?x) with (f <$> x).
    apply Forall2_fmap_r, Forall_Forall2_diag, Forall_forall. intros s _.
    unfold compose. cbv beta.
    destruct (decide (id s = target)); [|done]. by repeat split.
  - intros Huniq. apply map_fixed. intros s Hs.
    case_decide as Hid; [|done]. rewrite (Huniq s Hs Hid). by destruct src.
Qed.

Lemma copy_paste_row_witness :
  students (pasteMeals "a" (copyMeals linh (sampleState [linh; mai])))
  = students (sampleState [linh; mai]).
Proof.
  destruct (copy_paste_row (sampleState [linh; mai]) linh "a") as [_ Hback].
  apply Hback. intros s Hs Hid. simpl in Hs.
  apply elem_of_cons in Hs as [->|Hs]; [done|].
  apply list_elem_of_singleton in Hs as ->. discriminate Hid.
Defined.

(** X14: [pasteToAll], once confirmed and with a copied row, gives
    every student the copied day entries: for each day and meal the
    headcount is the whole roster when the copied row has the mark and 0
    when it has not; ids and names stay. Declined, or without a copied
    row, it returns the state as it was. *)
Theorem pasteToAll_uniform (st : AppState) :
  (∀ row, clipboard st = Some row →
     let st' := pasteToAll true st in
     Forall (λ s, meals s = row) (students st')
     ∧ map id (students st') = map id (students st)
     ∧ map name (students st') = map name (students st)
     ∧ ∀ day meal,
         calculateDayTotals (students st') day meal
         = if mark (mkStudent EmptyString EmptyString row) day meal
           then Z.of_nat (length (students st)) else 0)
  ∧ pasteToAll false st = st
  ∧ (clipboard st = None → ∀ confirmed, pasteToAll confirmed st = st).
Proof.
  split; [|split].
  - intros row Hrow. cbv zeta. unfold pasteToAll. rewrite Hrow.
    rewrite students_setStudents.
    assert (Hall : Forall (λ s, meals s = row) (map (withMeals row) (students st))).
    { apply Forall_forall. by intros s' (s & -> & _)%list_elem_of_fmap. }
    split; [done|]. split; [by rewrite map_map|]. split; [by rewrite map_map|].
    intros day meal.
    destruct (mark (mkStudent EmptyString EmptyString row) day meal) eqn:Hmark.
    + rewrite headcount_all; [by rewrite length_map|].
      eapply Forall_impl; [exact Hall|]. intros s Hs. unfold mark in *. by rewrite Hs.
    + apply headcount_none.
      eapply Forall_impl; [exact Hall|]. intros s Hs. unfold mark in *. by rewrite Hs.
  - unfold pasteToAll. by destruct (clipboard st).
  - intros Hnone confirmed. unfold pasteToAll. by rewrite Hnone.
Qed.

Lemma pasteToAll_uniform_witness :
  calculateDayTotals
    (students (pasteToAll true (copyMeals linh (sampleState [linh; mai])))) 1 MealType.S
  = 2.
Proof.
  destruct (pasteToAll_uniform (copyMeals linh (sampleState [linh; mai]))) as [H _].
  destruct (H (meals linh) eq_refl) as (_ & _ & _ & Hcount).
  exact (Hcount 1 MealType.S).
Defined.

(** ** Clearing a day, the month, the roster *)

Lemma true_entry_lookup (s : Student) meal day :
  filter (λ kv : Z * Meal.t, Meal.get meal kv.2 = true) (meals s) !! day
  = if mark s day meal then meals s !! day else None.
Proof.
  rewrite map_lookup_filter. unfold mark.
  destruct (meals s !! day) as [dm|]; simpl; [|done].
  destruct (Meal.get meal dm) eqn:E.
  - by rewrite option_guard_True.
  - rewrite option_guard_False; [done|]. simpl. congruence.
Qed.

Lemma entries_delete (s : Student) meal day :
  Z.of_nat (size (filter (λ kv : Z * Meal.t, Meal.get meal kv.2 = true)
                         (delete day (meals s))))
  = Z.of_nat (size (filter (λ kv : Z * Meal.t, Meal.get meal kv.2 = true) (meals s)))
    - (if mark s day meal then 1 else 0).
Proof.
  rewrite map_filter_delete, map_size_delete, true_entry_lookup.
  unfold mark. destruct (meals s !! day) as [dm|] eqn:Hd; simpl; [|lia].
  destruct (Meal.get meal dm) eqn:E; simpl; [|lia].
  assert (Hpos : size (filter (λ kv : Z * Meal.t, Meal.get meal kv.2 = true) (meals s)) ≠ 0%nat).
  { apply map_size_non_empty_iff. intros Hempty.
    assert (H : filter (λ kv : Z * Meal.t, Meal.get meal kv.2 = true) (meals s) !! day
                = Some dm) by (by apply map_lookup_filter_Some).
    rewrite Hempty in H. by rewrite lookup_empty in H. }
  lia.
Qed.

(** X15: [clearDay], once confirmed, removes the entry of the day from
    every student: the three headcounts of the day are 0, every other day
    keeps its entry, each student's counts go down by exactly the marks
    it had on that day, and ids and names stay. Declined, it returns the
    state as it was. *)
Theorem clearDay_removes_day (st : AppState) (day : Z) :
  let st' := clearDay true day st in
  Forall2 (λ s s',
             id s' = id s ∧ name s' = name s
             ∧ meals s' !! day = None
             ∧ (∀ d, d ≠ day → meals s' !! d = meals s !! d)
             ∧ ∀ q, let t := calculateStudentTotals q s in
                    let t' := calculateStudentTotals q s' in
                    Totals.S t' = Totals.S t - (if mark s day MealType.S then 1 else 0)
                    ∧ Totals.T1 t' = Totals.T1 t - (if mark s day MealType.T1 then 1 else 0)
                    ∧ Totals.T2 t' = Totals.T2 t - (if mark s day MealType.T2 then 1 else 0))
          (students st) (students st')
  ∧ (∀ meal, calculateDayTotals (students st') day meal = 0)
  ∧ clearDay false day st = st.
Proof.
  cbv zeta. unfold clearDay. rewrite students_setStudents.
  split; [|split; [|done]].
  - change (map ?f ?x) with (f <$> x).
    apply Forall2_fmap_r, Forall_Forall2_diag, Forall_forall. intros s _.
    unfold compose. cbv beta.
    split; [done|]. split; [done|]. split; [apply lookup_delete_eq|].
    split; [by intros d Hd; apply lookup_delete_ne|].
    intros q. rewrite !calculateStudentTotals_sizes. cbv zeta.
    pose proof (entries_delete s MealType.S day) as HS.
    pose proof (entries_delete s MealType.T1 day) as HT1.
    pose proof (entries_delete s MealType.T2 day) as HT2.
    cbn [Totals.S Totals.T1 Totals.T2 Totals.uS Totals.uT1 Totals.uT2 meals withMeals].
    repeat split; lia.
  - intros meal. apply headcount_none, Forall_forall.
    intros s' (s & -> & _)%list_elem_of_fmap.
    unfold mark. simpl. by rewrite lookup_delete_eq.
Qed.

(** X16: [clearMonth], once confirmed, empties the marks of every
    student and keeps the roster: same ids and names in the same order,
    every count 0, every unfulfilled count equal to the quota, every
    headcount 0. Declined, it returns the state as it was. *)
Theorem clearMonth_resets_marks (st : AppState) :
  let st' := clearMonth true st in
  map id (students st') = map id (students st)
  ∧ map name (students st') = map name (students st)
  ∧ Forall (λ s, calculateStudentTotals (standardMeals st) s
                 = Totals.mk 0 0 0 (Quota.S (standardMeals st))
                             (Quota.T1 (standardMeals st)) (Quota.T2 (standardMeals st)))
           (students st')
  ∧ (∀ day meal, calculateDayTotals (students st') day meal = 0)
  ∧ clearMonth false st = st.
Proof.
  cbv zeta. unfold clearMonth. rewrite students_setStudents.
  split; [by rewrite map_map|]. split; [by rewrite map_map|].
  split; [|split; [|done]].
  - apply Forall_forall. intros s' (s & -> & _)%list_elem_of_fmap.
    rewrite calculateStudentTotals_sizes. cbv zeta. simpl.
    rewrite !map_filter_empty, !map_size_empty. f_equal; lia.
  - intros day meal. apply headcount_none, Forall_forall.
    by intros s' (s & -> & _)%list_elem_of_fmap.
Qed.

(** X17: [removeStudent], once confirmed, leaves no student with the
    id and keeps all others in their order with their marks; a second
    removal of the same id changes nothing; removing a student just added
    under an id that the roster did not carry gives back the roster. *)
Theorem removeStudent_by_id (st : AppState) (sid : string) :
  let st' := removeStudent true sid st in
  (sid ∉ map id (students st'))
  ∧ students st' = filter (λ s, id s ≠ sid) (students st)
  ∧ removeStudent true sid st' = st'
  ∧ (sid ∉ map id (students st) →
     students (removeStudent true sid (addStudent sid st)) = students st).
Proof.
  cbv zeta. unfold removeStudent, addStudent. rewrite !students_setStudents.
  split; [|split; [done|split]].
  - intros (s & Hid & Hs)%list_elem_of_fmap.
    apply list_elem_of_filter in Hs as [Hne _]. by apply Hne.
  - apply setStudents_same. rewrite students_setStudents.
    apply list_filter_filter_l. done.
  - intros Hfresh. rewrite filter_app, filter_cons, decide_False by (simpl; by intros ?).
    simpl. rewrite app_nil_r.
    induction (students st) as [|s l IH]; [done|].
    simpl in Hfresh. apply not_elem_of_cons in Hfresh as [Hs Hl].
    rewrite filter_cons, decide_True by done. f_equal. by apply IH.
Qed.

Lemma removeStudent_by_id_witness :
  students (removeStudent true "z" (addStudent "z" (sampleState [linh; mai])))
  = [linh; mai].
Proof.
  destruct (removeStudent_by_id (sampleState [linh; mai]) "z") as (_ & _ & _ & Hback).
  apply Hback. refine (bool_decide_unpack _ _). vm_compute. exact I.
Defined.

(** ** More on the automatic fill *)

Lemma daysInMonth_setStudents f st : daysInMonth (setStudents f st) = daysInMonth st.
Proof. unfold daysInMonth. by f_equal. Qed.

Lemma autoFillStudent_idem mo y dim s :
  autoFillStudent mo y dim (autoFillStudent mo y dim s) = autoFillStudent mo y dim s.
Proof.
  assert (H : meals (autoFillStudent mo y dim (autoFillStudent mo y dim s))
              = meals (autoFillStudent mo y dim s)).
  { apply map_eq. intros d. rewrite !autoFillStudent_lookup.
    case_decide; [|done]. apply filledEntry_idem. }
  unfold autoFillStudent at 1. unfold withMeals.
  change (foldl _ _ _) with (meals (autoFillStudent mo y dim (autoFillStudent mo y dim s))).
  rewrite H. by unfold autoFillStudent, withMeals.
Qed.

(** X18: the automatic fill is idempotent: a second run over the month
    leaves the roster exactly as the first run left it, and a declined
    run leaves the state as it was. *)
Theorem autoFillMeals_idempotent (st : AppState) :
  students (autoFillMeals true (autoFillMeals true st)) = students (autoFillMeals true st)
  ∧ autoFillMeals false st = st.
Proof.
  split; [|done]. unfold autoFillMeals.
  rewrite !students_setStudents, daysInMonth_setStudents.
  change (month (setStudents _ st)) with (month st).
  change (year (setStudents _ st)) with (year st).
  rewrite map_map. apply map_ext. intros s. apply autoFillStudent_idem.
Qed.

Lemma mark_autoFill_empty mo y dim s d meal :
  meals s = ∅ →
  mark (autoFillStudent mo y dim s) d meal = true ↔
  d ∈ seqZ 1 dim
  ∧ default false (Meal.get meal <$> filledEntry (getDayOfWeek d mo y) None) = true.
Proof.
  intros Hempty. unfold mark. rewrite autoFillStudent_lookup, Hempty, lookup_empty.
  rewrite elem_of_seqZ. case_decide as Hd.
  - destruct (filledEntry _ None) as [e|]; simpl; split; try done.
    + intros He. split; [lia|done].
    + by intros [_ ?].
    + by intros [_ ?].
  - split; [done|]. intros [? _]. lia.
Qed.

(** The number of marks of a meal after the fill of an empty row. *)
Lemma entries_autoFill_empty mo y dim s meal :
  meals s = ∅ →
  size (filter (λ kv : Z * Meal.t, Meal.get meal kv.2 = true)
               (meals (autoFillStudent mo y dim s)))
  = length (filter (λ d, default false
                           (Meal.get meal <$> filledEntry (getDayOfWeek d mo y) None)
                         = true) (seqZ 1 dim)).
Proof.
  intros Hempty.
  rewrite <- size_dom.
  rewrite <- (marked_days (autoFillStudent mo y dim s) meal ∅).
  rewrite <- (size_list_to_set (C := gset Z)) by apply NoDup_filter, NoDup_seqZ.
  f_equal. apply set_eq. intros d.
  rewrite elem_of_filter, elem_of_list_to_set, list_elem_of_filter.
  rewrite mark_autoFill_empty by done. split.
  - by intros [[Hd He] _].
  - intros [He Hd]. split; [done|]. apply elem_of_union. left.
    apply elem_of_dom.
    assert (Hm : mark (autoFillStudent mo y dim s) d meal = true)
      by (by apply mark_autoFill_empty).
    unfold mark in Hm. by destruct (meals _ !! d).
Qed.

(** A student without marks is, to every reader of the ledger, the same
    student with an empty day mapping. *)
Lemma sameStudent_no_marks (s : Student) :
  (∀ d meal, mark s d meal = false) → sameStudent s (withMeals ∅ s).
Proof.
  intros Hno. split; [done|]. split; [done|]. intros d. simpl.
  rewrite lookup_empty. simpl.
  pose proof (Hno d MealType.S) as HS. pose proof (Hno d MealType.T1) as HT1.
  pose proof (Hno d MealType.T2) as HT2. unfold mark in *.
  destruct (meals s !! d) as [[? ? ?]|]; simpl in *; [|done].
  by subst.
Qed.

(** X19: in a month of a year of valid dates, after the automatic fill
    of a student who had no mark (no day entry, or entries that are all
    false), the breakfast and lunch counts are the number of days of the
    month that are neither Saturday nor Sunday, and the dinner count is
    the number of those that are not Friday either. *)
Theorem autoFillMeals_counts (st : AppState) (i : nat) (s : Student) :
  calendarInRange st →
  students st !! i = Some s → (∀ d meal, mark s d meal = false) →
  let weekend d := getDayOfWeek d (month st) (year st) = Some "7"%string
                   ∨ getDayOfWeek d (month st) (year st) = Some "CN"%string in
  let friday d := getDayOfWeek d (month st) (year st) = Some "6"%string in
  let workdays := Z.of_nat (length (filter (λ d, ¬ weekend d) (seqZ 1 (daysInMonth st)))) in
  let evenings :=
    Z.of_nat (length (filter (λ d, ¬ weekend d ∧ ¬ friday d) (seqZ 1 (daysInMonth st)))) in
  ∃ s', students (autoFillMeals true st) !! i = Some s'
    ∧ ∀ q, let t := calculateStudentTotals q s' in
           Totals.S t = workdays ∧ Totals.T1 t = workdays ∧ Totals.T2 t = evenings.
Proof.
  intros _ Hi Hno. cbv zeta.
  exists (autoFillStudent (month st) (year st) (daysInMonth st) s). split.
  { unfold autoFillMeals. rewrite students_setStudents.
    change (map ?f ?l) with (f <$> l). by rewrite list_lookup_fmap, Hi. }
  intros q.
  rewrite (sameStudent_totals q _ _
             (sameStudent_autoFill (month st) (year st) (daysInMonth st) _ _
                (sameStudent_no_marks s Hno))).
  rewrite calculateStudentTotals_sizes. cbv zeta.
  rewrite !entries_autoFill_empty by done.
  assert (Hwork : ∀ meal, meal ≠ MealType.T2 →
            filter (λ d, default false (Meal.get meal <$>
                           filledEntry (getDayOfWeek d (month st) (year st)) None) = true)
                   (seqZ 1 (daysInMonth st))
            = filter (λ d, ¬ (getDayOfWeek d (month st) (year st) = Some "7"%string
                              ∨ getDayOfWeek d (month st) (year st) = Some "CN"%string))
                     (seqZ 1 (daysInMonth st))).
  { intros meal Hmeal. apply list_filter_iff. intros d. unfold filledEntry.
    repeat case_decide; simpl; split; try done; intros _; by destruct meal. }
  assert (Heve :
            filter (λ d, default false (Meal.get MealType.T2 <$>
                           filledEntry (getDayOfWeek d (month st) (year st)) None) = true)
                   (seqZ 1 (daysInMonth st))
            = filter (λ d, ¬ (getDayOfWeek d (month st) (year st) = Some "7"%string
                              ∨ getDayOfWeek d (month st) (year st) = Some "CN"%string)
                           ∧ ¬ getDayOfWeek d (month st) (year st) = Some "6"%string)
                     (seqZ 1 (daysInMonth st))).
  { apply list_filter_iff. intros d. unfold filledEntry.
    repeat case_decide; simpl; split; try done; by intros [? ?]. }
  cbn [Totals.S Totals.T1 Totals.T2].
  by rewrite !Hwork, Heve by done.
Qed.

(** May 2023 has 23 days from Monday to Friday and 19 from Monday to
    Thursday; the student starts with an entry that is all false. *)
Lemma autoFillMeals_counts_witness :
  let blank := mkStudent "a" "Linh" {[3 := Meal.none]} in
  ∃ s', students (autoFillMeals true (sampleState [blank])) !! 0%nat = Some s'
    ∧ Totals.S (calculateStudentTotals DEFAULT_QUOTA s') = 23
    ∧ Totals.T1 (calculateStudentTotals DEFAULT_QUOTA s') = 23
    ∧ Totals.T2 (calculateStudentTotals DEFAULT_QUOTA s') = 19.
Proof.
  cbv zeta.
  assert (Hrange : calendarInRange
                     (sampleState [mkStudent "a" "Linh" {[3 := Meal.none]}])).
  { unfold calendarInRange, Date.inRange. simpl. lia. }
  assert (Hno : ∀ d meal, mark (mkStudent "a" "Linh" {[3 := Meal.none]}) d meal = false).
  { intros d meal. unfold mark. simpl.
    destruct (decide (d = 3)) as [->|Hd].
    - rewrite lookup_singleton_eq. by destruct meal.
    - by rewrite lookup_singleton_ne. }
  destruct (autoFillMeals_counts (sampleState [mkStudent "a" "Linh" {[3 := Meal.none]}])
              0%nat _ Hrange eq_refl Hno)
    as (s' & Hs' & Htotals).
  exists s'. split; [exact Hs'|].
  destruct (Htotals DEFAULT_QUOTA) as (HS & HT1 & HT2).
  split; [|split].
  - etrans; [exact HS|]. vm_compute. reflexivity.
  - etrans; [exact HT1|]. vm_compute. reflexivity.
  - etrans; [exact HT2|]. vm_compute. reflexivity.
Defined.

(** ** One toggle, counted *)

Lemma calculateDayTotals_cons s (l : list Student) day meal :
  calculateDayTotals (s :: l) day meal
  = (if mark s day meal then 1 else 0) + calculateDayTotals l day meal.
Proof.
  rewrite !calculateDayTotals_headcount, filter_cons.
  destruct (mark s day meal); case_decide; try done; simpl length; lia.
Qed.

Lemma toggled_headcount sid day meal (l : list Student) : ∀ (i : nat) (s : Student),
  NoDup (map id l) → l !! i = Some s → id s = sid →
  calculateDayTotals
    (map (λ s, if decide (id s ≠ sid) then s
               else setMark day meal (negb (mark s day meal)) s) l) day meal
  = calculateDayTotals l day meal + (if mark s day meal then -1 else 1).
Proof.
  induction l as [|x l IH]; intros i s Hnd Hi Hid; [done|].
  simpl in Hnd. apply NoDup_cons in Hnd as [Hx Hnd].
  simpl map. rewrite !calculateDayTotals_cons.
  destruct i as [|i]; simpl in Hi.
  - injection Hi as ->. rewrite decide_False by (by intros ?).
    rewrite mark_setMark, decide_True by done.
    rewrite map_fixed.
    + destruct (mark s day meal); simpl; lia.
    + intros y Hy. rewrite decide_True; [done|]. intros Heq. apply Hx.
      rewrite Hid, <- Heq. apply list_elem_of_fmap. eauto.
  - rewrite decide_True.
    + rewrite (IH i s) by done. lia.
    + intros Heq. apply Hx. rewrite Heq, <- Hid.
      apply list_elem_of_fmap. exists s. split; [done|]. by eapply list_elem_of_lookup_2.
Qed.

(** The days marked for [meal'] after one mark of [s] was set. *)
Lemma marked_after_setMark (s : Student) day meal v meal' :
  filter (λ d, mark (setMark day meal v s) d meal' = true) (dom (meals s) ∪ {[day]})
  = if decide (meal' = meal)
    then (if v
          then filter (λ d, mark s d meal' = true) (dom (meals s) ∪ {[day]}) ∪ {[day]}
          else filter (λ d, mark s d meal' = true) (dom (meals s) ∪ {[day]}) ∖ {[day]})
    else filter (λ d, mark s d meal' = true) (dom (meals s) ∪ {[day]}).
Proof.
  apply set_eq. intros d.
  assert (Hlhs : d ∈ filter (λ d, mark (setMark day meal v s) d meal' = true)
                            (dom (meals s) ∪ {[day]})
                 ↔ (if decide (d = day ∧ meal' = meal) then v else mark s d meal') = true
                   ∧ (d ∈ dom (meals s) ∨ d = day)).
  { by rewrite elem_of_filter, mark_setMark, elem_of_union, elem_of_singleton. }
  assert (Hrhs : d ∈ filter (λ d, mark s d meal' = true) (dom (meals s) ∪ {[day]})
                 ↔ mark s d meal' = true ∧ (d ∈ dom (meals s) ∨ d = day)).
  { by rewrite elem_of_filter, elem_of_union, elem_of_singleton. }
  rewrite Hlhs. clear Hlhs.
  destruct (decide (meal' = meal)) as [->|Hm].
  - destruct v.
    + rewrite elem_of_union, Hrhs, elem_of_singleton.
      destruct (decide (d = day)) as [->|Hd].
      * rewrite decide_True by done. clear Hrhs. tauto.
      * rewrite decide_False by (by intros [? _]). clear Hrhs. tauto.
    + rewrite elem_of_difference, Hrhs, elem_of_singleton.
      destruct (decide (d = day)) as [->|Hd].
      * rewrite decide_True by done. clear Hrhs.
        split; [by intros [? _] | by intros [_ ?]].
      * rewrite decide_False by (by intros [? _]). clear Hrhs. tauto.
  - rewrite decide_False by (by intros [_ ?]). by rewrite Hrhs.
Qed.

Lemma entries_setMark (s : Student) day meal meal' :
  Z.of_nat (size (filter (λ kv : Z * Meal.t, Meal.get meal' kv.2 = true)
                         (meals (setMark day meal (negb (mark s day meal)) s))))
  = Z.of_nat (size (filter (λ kv : Z * Meal.t, Meal.get meal' kv.2 = true) (meals s)))
    + (if decide (meal' = meal) then (if mark s day meal then -1 else 1) else 0).
Proof.
  rewrite <- !size_dom.
  rewrite <- (marked_days s meal' {[day]}).
  rewrite <- (marked_days (setMark day meal (negb (mark s day meal)) s) meal' ∅).
  assert (Hdom : dom (meals (setMark day meal (negb (mark s day meal)) s)) ∪ ∅
                 = dom (meals s) ∪ {[day]}).
  { simpl. rewrite dom_insert_L, union_empty_r_L. apply union_comm_L. }
  rewrite Hdom, marked_after_setMark.
  destruct (decide (meal' = meal)) as [->|Hm]; [|lia].
  set (F := filter (λ d, mark s d meal = true) (dom (meals s) ∪ {[day]})).
  destruct (mark s day meal) eqn:Hmark; simpl.
  - assert (Hin : day ∈ F).
    { apply elem_of_filter. split; [done|].
      apply elem_of_union. right. by apply elem_of_singleton. }
    rewrite size_difference by (by apply singleton_subseteq_l).
    rewrite size_singleton.
    assert (size F ≠ 0%nat).
    { apply size_non_empty_iff. intros HF.
      apply (not_elem_of_empty (C := gset Z) day). by rewrite <- HF. }
    lia.
  - assert (Hout : day ∉ F).
    { intros [Hm _]%elem_of_filter. congruence. }
    rewrite size_union by (by apply disjoint_singleton_r).
    rewrite size_singleton. lia.
Qed.

(** X20: one toggle counts for exactly one. In a roster with unique
    ids, toggling a cell of a student of the roster moves the headcount
    of that day and meal by one, up when the mark was off and down when
    it was on, moves that student's count for the meal by the same, and
    leaves the student's two other counts as they were. *)
Theorem toggle_counts_one (st : AppState) (i : nat) (s : Student) (day : Z)
    (meal : MealType.t) :
  NoDup (map id (students st)) → students st !! i = Some s →
  let st' := toggleMeal (id s) day meal st in
  let step := if mark s day meal then -1 else 1 in
  calculateDayTotals (students st') day meal
  = calculateDayTotals (students st) day meal + step
  ∧ ∃ s', students st' !! i = Some s'
      ∧ ∀ q, let t := calculateStudentTotals q s in
             let t' := calculateStudentTotals q s' in
             Totals.S t' = Totals.S t + (if decide (meal = MealType.S) then step else 0)
             ∧ Totals.T1 t' = Totals.T1 t + (if decide (meal = MealType.T1) then step else 0)
             ∧ Totals.T2 t' = Totals.T2 t + (if decide (meal = MealType.T2) then step else 0).
Proof.
  intros Hnd Hi. cbv zeta. rewrite toggleMeal_students. split.
  - by apply (toggled_headcount (id s) day meal (students st) i s).
  - exists (setMark day meal (negb (mark s day meal)) s). split.
    { change (map ?f ?l) with (f <$> l). rewrite list_lookup_fmap, Hi. simpl.
      by rewrite decide_False by (by intros ?). }
    intros q. rewrite !calculateStudentTotals_sizes. cbv zeta.
    cbn [Totals.S Totals.T1 Totals.T2 Totals.uS Totals.uT1 Totals.uT2].
    pose proof (entries_setMark s day meal MealType.S) as HS.
    pose proof (entries_setMark s day meal MealType.T1) as HT1.
    pose proof (entries_setMark s day meal MealType.T2) as HT2.
    destruct meal; simpl in *; repeat split; lia.
Qed.

Lemma toggle_counts_one_witness :
  calculateDayTotals (students (toggleMeal "a" 1 MealType.S (sampleState [linh; mai])))
                     1 MealType.S
  = calculateDayTotals [linh; mai] 1 MealType.S + -1.
Proof.
  destruct (toggle_counts_one (sampleState [linh; mai]) 0%nat linh 1 MealType.S)
    as [Hcount _]; [|reflexivity|exact Hcount].
  refine (bool_decide_unpack _ _). vm_compute. exact I.
Defined.

(** ** More on the explicit sync *)

Lemma syncStudents_id_list prevStudents cur :
  map id (syncStudents prevStudents cur)
  = map id cur ++ map id (newcomers cur prevStudents).
Proof.
  rewrite syncStudents_app, map_app, foldl_renameFirst_ids.
  f_equal. by rewrite map_map.
Qed.

Lemma sync_ids_cover prevStudents cur ps :
  ps ∈ prevStudents → id ps ∈ map id (syncStudents prevStudents cur).
Proof.
  intros Hps. rewrite syncStudents_id_list. apply elem_of_app.
  destruct (decide (id ps ∈ map id cur)) as [Hin|Hnew]; [by left|right].
  apply list_elem_of_fmap. exists ps. split; [done|].
  by apply list_elem_of_filter.
Qed.

Lemma filter_none {A} (P : A → Prop) `{!∀ x, Decision (P x)} (l : list A) :
  (∀ x, x ∈ l → ¬ P x) → filter P l = [].
Proof.
  induction l as [|x l IH]; intros Hnone; [done|].
  rewrite filter_cons, decide_False by (apply Hnone; left).
  apply IH. intros y Hy. apply Hnone. by right.
Qed.

(** X21: the sync keeps the roster well formed and complete. Ids that
    were unique in the roster and in the prior roster are unique in the
    result; the result has the size of the roster plus the number of
    prior students it did not know; and every prior student is in the
    result under its id. *)
Theorem sync_keeps_ids_unique (prevStudents cur : list Student) :
  (NoDup (map id cur) → NoDup (map id prevStudents) →
   NoDup (map id (syncStudents prevStudents cur)))
  ∧ length (syncStudents prevStudents cur)
    = (length cur + length (filter (λ ps, id ps ∉ map id cur) prevStudents))%nat
  ∧ (∀ ps, ps ∈ prevStudents → id ps ∈ map id (syncStudents prevStudents cur)).
Proof.
  split; [|split].
  - intros Hcur Hprev. rewrite syncStudents_id_list.
    apply NoDup_app. split; [done|]. split.
    + intros x Hx (ps & -> & Hps)%list_elem_of_fmap.
      by apply list_elem_of_filter in Hps as [Hnew _].
    + change (map id ?l) with (id <$> l) in *.
      assert (Hsub : id <$> newcomers cur prevStudents `sublist_of` id <$> prevStudents).
      { apply fmap_sublist. unfold newcomers. apply sublist_filter. }
      by apply (sublist_NoDup _ _ Hprev).
  - rewrite <- (length_map id), syncStudents_id_list, length_app, !length_map. done.
  - intros ps. apply sync_ids_cover.
Qed.

Lemma sync_keeps_ids_unique_witness :
  NoDup (map id (syncStudents prevSample [linh])).
Proof.
  destruct (sync_keeps_ids_unique prevSample [linh]) as [Hnd _].
  apply Hnd; refine (bool_decide_unpack _ _); vm_compute; exact I.
Defined.

Lemma syncStudents_nil prevStudents :
  syncStudents prevStudents [] = map (withMeals ∅) prevStudents.
Proof.
  rewrite syncStudents_app.
  assert (Hnil : ∀ l : list Student, foldl (λ k ps, renameFirst ps k) [] l = []).
  { induction l as [|p l IH]; [done|]. exact IH. }
  rewrite Hnil. simpl. f_equal. unfold newcomers.
  induction prevStudents as [|p l IH]; [done|].
  rewrite filter_cons, decide_True by apply not_elem_of_nil. by rewrite IH.
Qed.

(** X22: on a month without a ledger the explicit sync of an empty
    roster builds the roster that the rollover builds on opening that
    month: the prior students in their order, without marks (and no
    student when there is no prior ledger or no roster in it). *)
Theorem sync_of_empty_roster_is_rollover (db : list Sheet.t) (st : AppState)
    (uid : string) :
  user st = Some uid →
  selectSheet db uid (month st) (year st) = None →
  students (syncFromPreviousMonth true db (withRoster [] st)).1
  = students (fetchData db st).
Proof.
  intros Hu Hnone.
  unfold syncFromPreviousMonth, fetchData, fetchDataWith, fetchDataFrom, readResult.
  change (user (withRoster [] st)) with (user st).
  change (month (withRoster [] st)) with (month st).
  change (year (withRoster [] st)) with (year st).
  rewrite Hu, Hnone. simpl negb. cbv iota.
  destruct (selectLatestBefore db uid (month st) (year st)) as [prior|]; [|done].
  destruct (Sheet.students prior) as [prevStudents|]; [|done].
  cbn [fst]. rewrite students_setStudents.
  change (students (withRoster [] st)) with ([] : list Student).
  by rewrite syncStudents_nil.
Qed.

Lemma sync_of_empty_roster_is_rollover_witness :
  students (syncFromPreviousMonth true [aprilSheet] (withRoster [] (sampleState [linh]))).1
  = [mkStudent "a" "Linh Nguyen" ∅; mkStudent "b" "Mai" ∅].
Proof.
  rewrite (sync_of_empty_roster_is_rollover [aprilSheet] (sampleState [linh]) "u1");
    reflexivity.
Defined.

Lemma renameFirst_fixed ps l : firstNamed ps l → renameFirst ps l = l.
Proof.
  intros Hnamed. unfold renameFirst.
  destruct (list_find _ l) as [[idx ns]|] eqn:Hf; [|done].
  rewrite <- (Hnamed idx ns Hf), withName_same.
  apply list_insert_id. by apply list_find_Some in Hf as [? _].
Qed.

Lemma firstNamed_renameFirst p l : firstNamed p (renameFirst p l).
Proof.
  intros idx ns Hf.
  pose proof (list_find_same_ids (id p) (renameFirst p l) l (renameFirst_ids p l)) as Hidx.
  rewrite Hf in Hidx. unfold renameFirst in Hf.
  destruct (list_find (λ n, id n = id p) l) as [[i n]|] eqn:Hl; [|done].
  simpl in Hidx. injection Hidx as ->.
  apply list_find_Some in Hf as (Hlook & _). apply list_find_Some in Hl as (Hi & _).
  rewrite list_lookup_insert_eq in Hlook by (by eapply lookup_lt_Some).
  by injection Hlook as <-.
Qed.

Lemma firstNamed_other p q l :
  id q ≠ id p → firstNamed p l → firstNamed p (renameFirst q l).
Proof.
  intros Hne Hnamed idx ns Hf.
  pose proof (list_find_same_ids (id p) (renameFirst q l) l (renameFirst_ids q l)) as Hidx.
  rewrite Hf in Hidx.
  destruct (list_find (λ n, id n = id p) l) as [[i n]|] eqn:Hl; [|done].
  simpl in Hidx. injection Hidx as ->.
  rewrite <- (Hnamed i n Hl).
  apply list_find_Some in Hf as (Hlook & _). apply list_find_Some in Hl as (Hi & Hid & _).
  unfold renameFirst in Hlook.
  destruct (list_find (λ n, id n = id q) l) as [[j m]|] eqn:Hq.
  - apply list_find_Some in Hq as (Hj & Hjid & _).
    rewrite list_lookup_insert_ne in Hlook; [congruence|].
    intros ->. rewrite Hi in Hj. injection Hj as ->. congruence.
  - congruence.
Qed.

Lemma firstNamed_foldl p (l : list Student) : ∀ kept,
  (∀ q, q ∈ l → id q ≠ id p) → firstNamed p kept →
  firstNamed p (foldl (λ k ps, renameFirst ps k) kept l).
Proof.
  induction l as [|q l IH]; intros kept Hne Hnamed; [done|].
  simpl. apply IH.
  - intros q' Hq'. apply Hne. by right.
  - apply firstNamed_other; [|done]. apply Hne. by left.
Qed.

Lemma firstNamed_all (l : list Student) : ∀ kept ps,
  NoDup (map id l) → ps ∈ l →
  firstNamed ps (foldl (λ k ps, renameFirst ps k) kept l).
Proof.
  induction l as [|p l IH]; intros kept ps Hnd Hps; [by apply elem_of_nil in Hps|].
  simpl in Hnd. apply NoDup_cons in Hnd as [Hp Hnd].
  apply elem_of_cons in Hps as [->|Hps]; simpl.
  - apply firstNamed_foldl; [|apply firstNamed_renameFirst].
    intros q Hq Heq. apply Hp. rewrite <- Heq. apply list_elem_of_fmap. eauto.
  - by apply IH.
Qed.

Lemma same_id_same_student (l : list Student) a b :
  NoDup (map id l) → a ∈ l → b ∈ l → id a = id b → a = b.
Proof.
  intros Hnd [i Hi]%list_elem_of_lookup [j Hj]%list_elem_of_lookup Hid.
  assert (i = j) as ->; [|congruence].
  apply (NoDup_lookup (map id l) i j (id a)); [done|..];
    change (map id l) with (id <$> l); rewrite list_lookup_fmap.
  - by rewrite Hi.
  - rewrite Hj. simpl. congruence.
Qed.

Lemma foldl_renameFirst_fixed (l kept : list Student) :
  (∀ ps, ps ∈ l → renameFirst ps kept = kept) →
  foldl (λ k ps, renameFirst ps k) kept l = kept.
Proof.
  induction l as [|p l IH]; intros Hfix; [done|].
  simpl. rewrite Hfix by left. apply IH. intros ps Hps. apply Hfix. by right.
Qed.

Lemma firstNamed_synced prevStudents cur ps :
  NoDup (map id prevStudents) → ps ∈ prevStudents →
  firstNamed ps (syncStudents prevStudents cur).
Proof.
  intros Hnd Hps idx ns Hf. rewrite syncStudents_app in Hf.
  apply list_find_app_Some in Hf as [Hkept | (_ & _ & Hnew)].
  - by apply (firstNamed_all prevStudents cur ps Hnd Hps idx ns).
  - apply list_find_Some in Hnew as (Hlook & Hid & _).
    apply list_elem_of_lookup_2, list_elem_of_fmap in Hlook as (ps' & -> & Hps').
    apply list_elem_of_filter in Hps' as [_ Hps'].
    simpl in Hid. by rewrite (same_id_same_student prevStudents ps' ps).
Qed.

(** X23: the explicit sync is idempotent when the prior roster has
    unique ids: a second sync against the same prior roster returns the
    roster that the first one built, with no student added and no name
    changed. *)
Theorem sync_idempotent (prevStudents cur : list Student) :
  NoDup (map id prevStudents) →
  syncStudents prevStudents (syncStudents prevStudents cur)
  = syncStudents prevStudents cur.
Proof.
  intros Hnd.
  rewrite (syncStudents_app prevStudents (syncStudents prevStudents cur)).
  assert (Hnone : newcomers (syncStudents prevStudents cur) prevStudents = []).
  { unfold newcomers. apply filter_none. intros ps Hps Hnew.
    by apply Hnew, sync_ids_cover. }
  rewrite Hnone. simpl. rewrite app_nil_r.
  apply foldl_renameFirst_fixed. intros ps Hps.
  by apply renameFirst_fixed, firstNamed_synced.
Qed.

Lemma sync_idempotent_witness :
  syncStudents prevSample (syncStudents prevSample [linh]) = syncStudents prevSample [linh].
Proof.
  apply sync_idempotent. refine (bool_decide_unpack _ _). vm_compute. exact I.
Defined.

(** ** More on the exported sheets *)

Lemma cols_length st sheet days isSecondHalf :
  length (cols (createSheet st sheet days isSecondHalf))
  = (2 + 3 * length days + (if isSecondHalf then 6 else 0))%nat.
Proof.
  unfold createSheet. simpl cols. simpl length.
  rewrite length_app, length_triples by done. by destruct isSecondHalf.
Qed.

Lemma lastCol_createSheet st sheet days isSecondHalf :
  lastCol (createSheet st sheet days isSecondHalf)
  = 2 + 3 * Z.of_nat (length days) + (if isSecondHalf then 6 else 0).
Proof. unfold createSheet. simpl. destruct isSecondHalf; lia. Qed.

(** X24: the exported grid is rectangular for every list of days and
    every roster: the three header rows, the totals row and every student
    row have exactly [lastCol] cells, as many as there are column
    descriptors, that is 2 + 3 per day, plus 6 on the second sheet; there
    is one data row per student, the totals row is row 5 + the size of
    the roster, and the title is merged over the full width. *)
Theorem export_grid_rectangular (st : AppState) (sheet : string) (days : list Z)
    (isSecondHalf : bool) :
  let sh := createSheet st sheet days isSecondHalf in
  lastCol sh = 2 + 3 * Z.of_nat (length days) + (if isSecondHalf then 6 else 0)
  ∧ Z.of_nat (length (cols sh)) = lastCol sh
  ∧ Forall (λ row : list Cell, Z.of_nat (length row) = lastCol sh)
           (headerRow2Values sh :: headerRow3Values sh :: row4Vals sh
            :: totalRowValues sh :: dataRows sh)
  ∧ length (dataRows sh) = length (students st)
  ∧ lastRow sh = 5 + Z.of_nat (length (students st))
  ∧ (1, 1, 1, lastCol sh) ∈ merges sh
  ∧ (lastRow sh, 1, lastRow sh, 2) ∈ merges sh.
Proof.
  cbv zeta.
  assert (Hlast : lastCol (createSheet st sheet days isSecondHalf)
                  = 2 + 3 * Z.of_nat (length days) + (if isSecondHalf then 6 else 0)).
  { unfold createSheet. simpl. destruct isSecondHalf; lia. }
  assert (Hcols : Z.of_nat (length (cols (createSheet st sheet days isSecondHalf)))
                  = lastCol (createSheet st sheet days isSecondHalf)).
  { rewrite cols_length, Hlast. destruct isSecondHalf; lia. }
  split; [done|]. split; [done|]. split; [|split; [|split; [|split]]].
  - rewrite Hlast. unfold createSheet.
    cbn [headerRow2Values headerRow3Values row4Vals totalRowValues dataRows].
    repeat apply Forall_cons_2.
    1-4: simpl length; rewrite length_app, length_triples by done;
         destruct isSecondHalf; simpl; lia.
    apply Forall_forall. intros row Hrow.
    apply elem_of_lookup_imap in Hrow as (i & s & -> & _).
    unfold dataRow. rewrite !length_app, length_triples by done.
    destruct isSecondHalf; simpl; lia.
  - unfold createSheet. simpl. apply length_imap.
  - unfold createSheet. simpl. lia.
  - rewrite <- Hcols. unfold createSheet. cbn [merges cols]. left.
  - unfold createSheet. cbn [merges lastRow].
    rewrite !elem_of_app. right. right. right. left.
Qed.

Lemma dataRow_lookup st days isSecondHalf index s (k : nat) d (j : nat) meal :
  days !! k = Some d → MealType.all !! j = Some meal →
  dataRow st days isSecondHalf index s !! (2 + 3 * k + j)%nat
  = Some (plusIf (mark s d meal)).
Proof.
  intros Hk Hj. unfold dataRow.
  assert (Hj3 : (j < 3)%nat) by (apply lookup_lt_Some in Hj; simpl in Hj; lia).
  replace (2 + 3 * k + j)%nat with (S (S (3 * k + j))) by lia.
  simpl. rewrite lookup_app_l.
  2: { rewrite length_triples by done. apply lookup_lt_Some in Hk. lia. }
  rewrite (lookup_triples _ days k j d) by done.
  destruct j as [|[|[|j]]]; simpl in Hj; by simplify_eq.
Qed.

(** X25: the row of a student on a sheet. Student number i of the roster
    is in data row i with i + 1 in the first cell and its name in the
    second; under day number k of the sheet, the cell of each meal is a
    plus sign when the student has the mark and the empty text when it
    has not; on the second sheet the six cells after the days are the
    student's three counts and three unfulfilled counts. *)
Theorem export_student_row (st : AppState) (sheet : string) (days : list Z)
    (isSecondHalf : bool) (i : nat) (s : Student) :
  students st !! i = Some s →
  ∃ row, dataRows (createSheet st sheet days isSecondHalf) !! i = Some row
    ∧ row !! 0%nat = Some (CNum (Z.of_nat i + 1))
    ∧ row !! 1%nat = Some (CStr (name s))
    ∧ (∀ (k : nat) d (j : nat) meal,
         days !! k = Some d → MealType.all !! j = Some meal →
         row !! (2 + 3 * k + j)%nat
         = Some (CStr (if mark s d meal then "+"%string else BLANK)))
    ∧ (isSecondHalf = true →
       let t := calculateStudentTotals (standardMeals st) s in
       drop (2 + 3 * length days) row
       = [CNum (Totals.S t); CNum (Totals.T1 t); CNum (Totals.T2 t);
          CNum (Totals.uS t); CNum (Totals.uT1 t); CNum (Totals.uT2 t)])
    ∧ (isSecondHalf = false → length row = (2 + 3 * length days)%nat).
Proof.
  intros Hi. exists (dataRow st days isSecondHalf i s).
  split; [|split; [done|split; [done|split; [|split]]]].
  - unfold createSheet. cbn [dataRows]. by rewrite list_lookup_imap, Hi.
  - intros k d j meal Hk Hj. by apply dataRow_lookup.
  - intros ->. cbv zeta. unfold dataRow.
    replace (2 + 3 * length days)%nat with (S (S (3 * length days))) by lia.
    simpl. rewrite drop_app_length'; [done|]. by rewrite length_triples.
  - intros ->. unfold dataRow. rewrite !length_app, length_triples by done. simpl. lia.
Qed.

Lemma export_student_row_witness :
  ∃ row, dataRows (createSheet juneState "Trang 1" firstHalfDays false) !! 0%nat = Some row
    ∧ row !! 2%nat = Some (CStr "+").
Proof.
  destruct (export_student_row juneState "Trang 1" firstHalfDays false 0%nat linh eq_refl)
    as (row & Hrow & _ & _ & Hcells & _).
  exists row. split; [exact Hrow|].
  exact (Hcells 0%nat 1 0%nat MealType.S eq_refl eq_refl).
Defined.

Lemma dayMerges_elem (days : list Z) : ∀ (colIdx : Z) (k : nat) d,
  days !! k = Some d →
  (2, colIdx + 3 * Z.of_nat k, 2, colIdx + 3 * Z.of_nat k + 2) ∈ dayMerges colIdx days
  ∧ (3, colIdx + 3 * Z.of_nat k, 3, colIdx + 3 * Z.of_nat k + 2) ∈ dayMerges colIdx days.
Proof.
  induction days as [|x days IH]; intros colIdx k d Hk; [done|].
  destruct k as [|k]; simpl.
  - replace (colIdx + 3 * Z.of_nat 0) with colIdx by lia.
    split; [left|right; left].
  - destruct (IH (colIdx + 3) k d Hk) as [H2 H3].
    replace (colIdx + 3 * Z.of_nat (S k)) with (colIdx + 3 + 3 * Z.of_nat k) by lia.
    split; right; right; done.
Qed.

(** X26: the header block lines up with the day columns. In a month of
    a year of valid dates, for day number k of a sheet, a day from 1 to
    31, which occupies the columns 3 + 3k to 5 + 3k, the second row holds
    the day number and the third row the weekday label in the first of
    these columns, the fourth row holds the labels S, T, T, and the
    merges of rows 2 and 3 cover exactly these three columns. *)
Theorem export_header_alignment (st : AppState) (sheet : string) (days : list Z)
    (isSecondHalf : bool) (k : nat) (d : Z) :
  calendarInRange st → days !! k = Some d → 1 ≤ d ≤ 31 →
  let sh := createSheet st sheet days isSecondHalf in
  let col := 3 + 3 * Z.of_nat k in
  headerRow2Values sh !! Z.to_nat (col - 1) = Some (CStr (String_ d))
  ∧ (∃ label, getDayOfWeek d (month st) (year st) = Some label
              ∧ headerRow3Values sh !! Z.to_nat (col - 1) = Some (CStr label))
  ∧ row4Vals sh !! Z.to_nat (col - 1) = Some (CStr "S")
  ∧ row4Vals sh !! Z.to_nat col = Some (CStr "T")
  ∧ row4Vals sh !! Z.to_nat (col + 1) = Some (CStr "T")
  ∧ (2, col, 2, col + 2) ∈ merges sh
  ∧ (3, col, 3, col + 2) ∈ merges sh.
Proof.
  intros _ Hk _. cbv zeta.
  assert (Hlt : (3 * k + 2 < 3 * length days)%nat) by (apply lookup_lt_Some in Hk; lia).
  assert (Hcell : ∀ (f : Z → list Cell) (tail : list Cell) (a b : Cell) (j : nat),
            (∀ x, length (f x) = 3%nat) → (j < 3)%nat →
            ([a; b] ++ concat (map f days) ++ tail) !! (2 + 3 * k + j)%nat = f d !! j).
  { intros f tail a b j Hf Hj.
    replace (2 + 3 * k + j)%nat with (S (S (3 * k + j))) by lia.
    simpl. rewrite lookup_app_l by (rewrite length_triples by done; lia).
    by apply lookup_triples. }
  replace (Z.to_nat (3 + 3 * Z.of_nat k - 1)) with (2 + 3 * k + 0)%nat by lia.
  replace (Z.to_nat (3 + 3 * Z.of_nat k)) with (2 + 3 * k + 1)%nat by lia.
  replace (Z.to_nat (3 + 3 * Z.of_nat k + 1)) with (2 + 3 * k + 2)%nat by lia.
  unfold createSheet.
  cbn [headerRow2Values headerRow3Values row4Vals merges].
  split; [|split; [|split; [|split; [|split]]]].
  - by rewrite Hcell by (done || lia).
  - destruct (getDayOfWeek_defined d (month st) (year st)) as [label Hl].
    exists label. split; [done|].
    rewrite Hcell by (done || lia). simpl. by rewrite Hl.
  - by rewrite Hcell by (done || lia).
  - by rewrite Hcell by (done || lia).
  - by rewrite Hcell by (done || lia).
  - destruct (dayMerges_elem days 3 k d Hk) as [H2 H3].
    split; rewrite !elem_of_app; right; left; done.
Qed.

(** 17 June 2023 was a Saturday. *)
Lemma export_header_alignment_witness :
  let sh := createSheet juneState "Trang 2" (secondHalfDays juneState) true in
  headerRow2Values sh !! 2%nat = Some (CStr "17")
  ∧ headerRow3Values sh !! 2%nat = Some (CStr "7").
Proof.
  assert (Hrange : calendarInRange juneState).
  { unfold calendarInRange, Date.inRange. simpl. lia. }
  destruct (export_header_alignment juneState "Trang 2" (secondHalfDays juneState) true
              0%nat 17 Hrange eq_refl ltac:(lia)) as (Hrow2 & (label & Hlabel & Hrow3) & _).
  split; [exact Hrow2|].
  etrans; [exact Hrow3|]. vm_compute in Hlabel. by injection Hlabel as <-.
Defined.

(** X27: the two sheets share out the days of the month, in every month
    of a year of valid dates: the days of the first sheet followed by
    those of the second are the days 1 to the last day of the month, each
    once; the second sheet has from 12 to 15 days, hence from 44 to 53
    columns, and the first always 50. *)
Theorem export_pages_cover_month (st : AppState) :
  calendarInRange st →
  firstHalfDays ++ secondHalfDays st = seqZ 1 (daysInMonth st)
  ∧ NoDup (firstHalfDays ++ secondHalfDays st)
  ∧ (12 ≤ length (secondHalfDays st) ≤ 15)%nat
  ∧ lastCol (handleExportExcel st).1 = 50
  ∧ 44 ≤ lastCol (handleExportExcel st).2 ≤ 53.
Proof.
  intros _.
  assert (Hdim : 28 ≤ daysInMonth st ≤ 31)
    by (unfold daysInMonth; apply getDaysInMonth_range).
  assert (Happ : firstHalfDays ++ secondHalfDays st = seqZ 1 (daysInMonth st)).
  { unfold firstHalfDays, secondHalfDays.
    replace (daysInMonth st) with (16 + (daysInMonth st - 16)) at 2 by lia.
    rewrite seqZ_app by lia. done. }
  assert (Hlen : length (secondHalfDays st) = Z.to_nat (daysInMonth st - 16)).
  { unfold secondHalfDays. apply length_seqZ. }
  split; [done|]. split; [rewrite Happ; apply NoDup_seqZ|]. split; [lia|].
  unfold handleExportExcel. cbn [fst snd].
  split; [reflexivity|].
  rewrite lastCol_createSheet. lia.
Qed.

(** June 2023: the second sheet holds the days 17 to 30. *)
Lemma export_pages_cover_month_witness :
  firstHalfDays ++ secondHalfDays juneState = seqZ 1 30
  ∧ lastCol (handleExportExcel juneState).2 = 50.
Proof.
  assert (Hrange : calendarInRange juneState).
  { unfold calendarInRange, Date.inRange. simpl. lia. }
  destruct (export_pages_cover_month juneState Hrange) as (Hdays & _ & _ & _ & _).
  split; [exact Hdays|]. reflexivity.
Defined.

Lemma columnWidths_fill (v : Z) (l : list Z) : ∀ (w : gmap Z Z) (c : Z),
  foldl (λ w c, <[c := v]> w) w l !! c = if decide (c ∈ l) then Some v else w !! c.
Proof.
  induction l as [|x l IH]; intros w c.
  { destruct (decide (c ∈ [])) as [H|]; [by apply elem_of_nil in H|done]. }
  change (foldl ?f w (x :: l)) with (foldl f (f w x) l). rewrite IH.
  destruct (decide (c ∈ l)) as [Hin|Hnin].
  - rewrite decide_True; [done|]. by right.
  - destruct (decide (c = x)) as [->|Hne].
    + rewrite lookup_insert_eq, decide_True; [done|]. by left.
    + rewrite lookup_insert_ne by done. rewrite decide_False; [done|].
      by intros [?|?]%elem_of_cons.
Qed.

Lemma widths_of_cols st sheet days isSecondHalf :
  map width (cols (createSheet st sheet days isSecondHalf))
  = [5; 25] ++ replicate (3 * length days) 4
    ++ (if isSecondHalf then replicate 6 6 else []).
Proof.
  unfold createSheet. cbn [cols]. rewrite !map_app. f_equal. f_equal.
  - induction days as [|d days IH]; [done|].
    simpl. rewrite IH. replace (length days + S (length days + S (length days + 0)))%nat
      with (S (S (3 * length days))) by lia. done.
  - by destruct isSecondHalf.
Qed.

(** X28: the widths set on the columns at the end of [createSheet] are
    the widths declared in the column descriptors at its beginning: 5
    for the sequence number, 25 for the name, 4 for every meal column
    and 6 for the six summary columns of the second sheet. *)
Theorem export_column_widths (st : AppState) (sheet : string) (days : list Z)
    (isSecondHalf : bool) (c : Z) :
  let sh := createSheet st sheet days isSecondHalf in
  1 ≤ c ≤ lastCol sh →
  columnWidths (lastCol sh) isSecondHalf !! c = width <$> cols sh !! Z.to_nat (c - 1).
Proof.
  cbv zeta. intros Hc.
  rewrite lastCol_createSheet in *.
  rewrite <- list_lookup_fmap. change (width <$> ?l) with (map width l).
  rewrite widths_of_cols.
  unfold columnWidths. cbv zeta.
  set (n := length days) in *.
  assert (Hskip : ∀ (l : list Z) (k : nat), ([5; 25] ++ l) !! (2 + k)%nat = l !! k)
    by (intros; reflexivity).
  destruct isSecondHalf.
  - rewrite !columnWidths_fill.
    destruct (decide (c ∈ seqZ (2 + 3 * Z.of_nat n + 6 - 5) 6)) as [Hsum|Hsum].
    + apply elem_of_seqZ in Hsum.
      replace (Z.to_nat (c - 1))
        with (2 + (3 * n + Z.to_nat (c - 3 - 3 * Z.of_nat n)))%nat by lia.
      rewrite Hskip, lookup_app_r by (rewrite length_replicate; lia).
      rewrite length_replicate.
      replace (3 * n + Z.to_nat (c - 3 - 3 * Z.of_nat n) - 3 * n)%nat
        with (Z.to_nat (c - 3 - 3 * Z.of_nat n)) by lia.
      symmetry. apply lookup_replicate_2. lia.
    + rewrite elem_of_seqZ in Hsum.
      destruct (decide (c ∈ seqZ 3 (2 + 3 * Z.of_nat n + 6 - 2))) as [Hday|Hday].
      * apply elem_of_seqZ in Hday.
        replace (Z.to_nat (c - 1)) with (2 + Z.to_nat (c - 3))%nat by lia.
        rewrite Hskip, lookup_app_l by (rewrite length_replicate; lia).
        symmetry. apply lookup_replicate_2. lia.
      * rewrite elem_of_seqZ in Hday.
        assert (c = 1 ∨ c = 2) as [-> | ->] by lia; done.
  - rewrite !columnWidths_fill.
    destruct (decide (c ∈ seqZ 3 (2 + 3 * Z.of_nat n + 0 - 2))) as [Hday|Hday].
    + apply elem_of_seqZ in Hday.
      replace (Z.to_nat (c - 1)) with (2 + Z.to_nat (c - 3))%nat by lia.
      rewrite Hskip, app_nil_r.
      symmetry. apply lookup_replicate_2. lia.
    + rewrite elem_of_seqZ in Hday.
      assert (c = 1 ∨ c = 2) as [-> | ->] by lia; done.
Qed.

Lemma export_column_widths_witness :
  columnWidths (lastCol (createSheet juneState "Trang 2" (secondHalfDays juneState) true))
               true !! 45
  = Some 6.
Proof.
  rewrite (export_column_widths juneState "Trang 2" (secondHalfDays juneState) true 45).
  - reflexivity.
  - vm_compute. split; by intros ?.
Defined.

(** ** Import of a roster *)

Example import_sample :
  map name (students (handleFileUpload (H := plainStrings) true (λ k, pretty k)
                        (Workbook [[]; sampleSheet]) (sampleState [linh])).1)
  = ["linh"; "mai"]%string.
Proof. vm_compute. reflexivity. Qed.

Lemma existsb_false {A} (f : A → bool) (l : list A) :
  existsb f l = false → Forall (λ x, f x = false) l.
Proof.
  induction l as [|x l IH]; intros Hex; [constructor|].
  simpl in Hex. apply orb_false_elim in Hex as [Hx Hl]. constructor; auto.
Qed.

Lemma validName_spec `{JsString} (n : string) :
  validName n = true →
  (2 < jsLength n)%nat ∧ Forall (λ k, includes (toLowerCase n) k = false) skipKeywords.
Proof.
  unfold validName. intros [Hlen Hskip]%andb_true_iff. split.
  - by apply Nat.ltb_lt in Hlen.
  - apply existsb_false. by apply negb_true_iff in Hskip.
Qed.

Lemma nameOfRow_Some `{JsString} col row n :
  nameOfRow col row = Some n →
  validName n = true
  ∧ ∃ rawName, row !! col = Some (JStr rawName) ∧ rawName ≠ EmptyString ∧ n = trim rawName.
Proof.
  unfold nameOfRow. destruct (row !! col) as [[rawName|]|]; [|done..].
  case_decide as Hraw; [done|].
  destruct (validName (trim rawName)) eqn:Hvalid; [|done].
  intros [= <-]. split; [done|]. by exists rawName.
Qed.

Lemma newStudentsOf_ids (names : list string) : ∀ ids : nat → string,
  map id (newStudentsOf ids names) = map ids (seq 0 (length names)).
Proof.
  unfold newStudentsOf. induction names as [|n names IH]; intros ids; [done|].
  simpl. f_equal. etrans; [exact (IH (ids ∘ S))|].
  rewrite <- fmap_S_seq. change (map ids (S <$> ?l)) with (ids <$> (S <$> l)).
  by rewrite <- list_fmap_compose.
Qed.

Lemma newStudentsOf_names ids (names : list string) :
  map name (newStudentsOf ids names) = names
  ∧ Forall (λ s, meals s = ∅) (newStudentsOf ids names)
  ∧ length (newStudentsOf ids names) = length names.
Proof.
  unfold newStudentsOf. split; [|split].
  - change (map name ?l) with (name <$> l). rewrite fmap_imap.
    rewrite <- (list_fmap_id names) at 2. rewrite <- (imap_const (λ x : string, x)).
    by apply imap_ext.
  - apply Forall_forall. by intros s (k & n & -> & _)%elem_of_lookup_imap.
  - apply length_imap.
Qed.

(** X29: an import either leaves the state as it was or replaces the
    roster as a whole, whatever the string built-ins do. It leaves the
    state untouched when no file was chosen, when the file cannot be
    read, whenever a message is shown, and when the user declines. When
    it replaces the roster,
    the user has confirmed, no message is shown, the new roster is not
    empty, nothing but the roster changes, and every new student has no
    marks, a name of more than two code units that contains none of the
    skipped keywords in lower case, and the id of its rank among the
    generated ids. *)
Theorem import_keeps_or_replaces `{JsString} (confirmed : bool) (ids : nat → string)
    (upload : Upload) (st : AppState) :
  let r := handleFileUpload confirmed ids upload st in
  (r.1 = st
   ∨ (confirmed = true ∧ r.2 = None
      ∧ students r.1 ≠ [] ∧ r.1 = withRoster (students r.1) st
      ∧ Forall (λ s, meals s = ∅
                     ∧ (2 < jsLength (name s))%nat
                     ∧ Forall (λ k, includes (toLowerCase (name s)) k = false)
                              skipKeywords)
               (students r.1)
      ∧ map id (students r.1) = map ids (seq 0 (length (students r.1)))))
  ∧ (handleFileUpload false ids upload st).1 = st
  ∧ handleFileUpload confirmed ids NoFile st = (st, None)
  ∧ handleFileUpload confirmed ids Unreadable st = (st, Some AlertReadError).
Proof.
  cbv zeta. split; [|split; [|done]].
  - unfold handleFileUpload. destruct upload as [| |sheets]; [by left..|].
    cbv zeta. case_decide; [by left|].
    destruct (locateNames _) as [[col startRow]|]; [|by left].
    case_decide as Hnew; [by left|].
    destruct confirmed; [|by left]. right.
    set (names := extractNames (firstSheetWithRows sheets) col startRow) in *.
    cbn [fst snd]. rewrite students_setStudents.
    split; [done|]. split; [done|]. split; [done|]. split; [done|].
    destruct (newStudentsOf_names ids names) as (Hnames & Hmeals & Hlen).
    split.
    + apply Forall_forall. intros s Hs. split.
      { rewrite Forall_forall in Hmeals. by apply Hmeals. }
      apply validName_spec.
      assert (Hin : name s ∈ names).
      { rewrite <- Hnames. apply list_elem_of_fmap. eauto. }
      unfold names, extractNames in Hin.
      apply list_elem_of_omap in Hin as (row & _ & Hrow).
      by apply nameOfRow_Some in Hrow as [? _].
    + by rewrite newStudentsOf_ids, Hlen.
  - unfold handleFileUpload. destruct upload as [| |sheets]; [done..|].
    cbv zeta. case_decide; [done|].
    destruct (locateNames _) as [[col startRow]|]; [|done].
    by case_decide.
Qed.

Lemma findHeaderFrom_Some `{JsString} (rows : list (list JsCell)) : ∀ i col startRow,
  findHeaderFrom i rows = Some (col, startRow) →
  (i < startRow ≤ i + length rows)%nat
  ∧ ∃ row cell, rows !! (startRow - 1 - i)%nat = Some row
                ∧ row !! col = Some cell ∧ isHeaderCell cell = true
                ∧ (∀ j c, (j < col)%nat → row !! j = Some c → isHeaderCell c = false)
                ∧ (∀ j r c, (j < startRow - 1 - i)%nat → rows !! j = Some r → c ∈ r →
                     isHeaderCell c = false).
Proof.
  induction rows as [|row rows IH]; intros i col startRow Hf; [done|].
  simpl in Hf.
  destruct (list_find _ row) as [[idx cell]|] eqn:Hrow.
  - injection Hf as <- <-. split; [simpl; lia|].
    apply list_find_Some in Hrow as (Hcell & Hheader & Hfirst).
    exists row, cell. replace (S i - 1 - i)%nat with 0%nat by lia.
    split; [done|]. split; [done|]. split; [done|]. split; [|intros; lia].
    intros j c Hj Hc. apply not_true_is_false. by apply (Hfirst j c).
  - apply list_find_None in Hrow. rewrite Forall_forall in Hrow.
    destruct (IH (S i) col startRow Hf)
      as (Hrange & row' & cell & Hr & Hc & Hh & Hleft & Habove).
    split; [simpl; lia|]. exists row', cell.
    replace (startRow - 1 - i)%nat with (S (startRow - 1 - S i)) by lia.
    split; [done|]. split; [done|]. split; [done|]. split; [done|].
    intros [|j] r c Hj Hr' Hin.
    + injection Hr' as <-. apply not_true_is_false. by apply Hrow.
    + apply (Habove j r c); [lia|done..].
Qed.

Lemma omap_sublist {A B} (f g : A → option B) (l : list A) :
  (∀ x y, f x = Some y → g x = Some y) → omap f l `sublist_of` omap g l.
Proof.
  intros Hfg. induction l as [|x l IH]; [done|]. simpl.
  destruct (f x) as [y|] eqn:Hf.
  - rewrite (Hfg x y Hf). by apply sublist_skip.
  - destruct (g x); [by apply sublist_cons|done].
Qed.

(** X30: with a header row, the import reads below it and in its column
    only. When the search for a header succeeds, the header is among the
    first twenty rows of the sheet: it is the first row with a header
    cell, that is a string cell that contains a header keyword in lower
    case, and the column is that of its first header cell. The import
    then keeps the roster or takes as names, in the order of the rows,
    trimmed string cells of that column from the rows below the header:
    no cell of the header row or above it, and no cell of another
    column, becomes a student. *)
Theorem import_reads_below_header `{JsString} (ids : nat → string)
    (sheets : list (list (list JsCell))) (st : AppState) (col startRow : nat) :
  let jsonData := firstSheetWithRows sheets in
  findHeader jsonData = Some (col, startRow) →
  (1 ≤ startRow ≤ 20)%nat
  ∧ (∃ row cell, jsonData !! (startRow - 1)%nat = Some row
                 ∧ row !! col = Some cell ∧ isHeaderCell cell = true
                 ∧ (∀ j c, (j < col)%nat → row !! j = Some c → isHeaderCell c = false))
  ∧ (∀ j r c, (j < startRow - 1)%nat → jsonData !! j = Some r → c ∈ r →
       isHeaderCell c = false)
  ∧ let imported := students (handleFileUpload true ids (Workbook sheets) st).1 in
    imported = students st
    ∨ map name imported
      `sublist_of`
      omap (λ row, match row !! col with
                   | Some (JStr rawName) => Some (trim rawName)
                   | _ => None
                   end) (drop startRow jsonData).
Proof.
  cbv zeta. intros Hheader.
  pose proof Hheader as Hfound. unfold findHeader in Hfound.
  apply findHeaderFrom_Some
    in Hfound as (Hrange & row & cell & Hrow & Hcell & Hh & Hleft & Habove).
  rewrite length_take in Hrange.
  replace (startRow - 1 - 0)%nat with (startRow - 1)%nat in * by lia.
  split; [lia|]. split; [|split].
  - exists row, cell. split; [|done].
    by apply lookup_take_Some in Hrow as [? _].
  - intros j r c Hj Hr Hin. apply (Habove j r c); [done| |done].
    rewrite lookup_take_lt by lia. done.
  - unfold handleFileUpload. cbv zeta. case_decide; [by left|].
    unfold locateNames. rewrite Hheader.
    case_decide; [by left|]. right.
    cbn [fst]. rewrite students_setStudents.
    destruct (newStudentsOf_names ids
                (extractNames (firstSheetWithRows sheets) col startRow)) as (-> & _).
    unfold extractNames. apply omap_sublist.
    intros r n Hn. apply nameOfRow_Some in Hn as (_ & rawName & -> & _ & ->). done.
Qed.

Lemma import_reads_below_header_witness :
  map name (students (handleFileUpload (H := plainStrings) true (λ k, pretty k)
                        (Workbook [sampleSheet]) (sampleState [linh])).1)
  `sublist_of` ["linh"; "ma"; "mai"; "tổng cộng"]%string.
Proof.
  destruct (import_reads_below_header (H := plainStrings) (λ k, pretty k)
              [sampleSheet] (sampleState [linh]) 1 2 eq_refl)
    as (_ & _ & _ & [Hsame|Hsub]).
  - vm_compute in Hsame. discriminate Hsame.
  - exact Hsub.
Defined.
